(** * filenav: a shallow embedding of [common.py]

    The module [common.py] of filenav holds the utility functions, the
    [FileItem] metadata cache and the table-view data sources of the file
    browser.  This development embeds the functions in Gallina, following
    the Python text statement by statement, and proves properties of them.

    Conventions.
    - Python [str]/[unicode] values are [string]s; [None]-able values are
      [option]s; Python integers are [Z].
    - A Python exception is a value of [exn]; code that can raise returns a
      [result]; code that also mutates objects runs in the monad [SE],
      which threads the mutable state and keeps the state reached when an
      exception is raised.
    - Objects with identity ([FileItem] instances, the lists shared by a
      data source) live in a [heap] and are named by references.
    - The operating system (stat, listdir, isdir, path expansion) is a
      record of oracles, [world].
    - The module [filenav.filetypes] (the static extension tables) is a
      record [filetypes] that every function reading the tables takes as a
      parameter. *)

From Stdlib Require Import ZArith Lia List String Ascii Permutation.
From stdpp Require Import base option list gmap strings pretty.

Local Open Scope string_scope.
Local Open Scope list_scope.
Local Open Scope Z_scope.

(** ** Exceptions and results *)

Inductive exn : Type :=
  | KeyError (key : string)
  | OSError (errno : Z) (strerror : string) (filename : option string)
  | IOError (errno : Z) (strerror : string) (filename : option string)
  | IndexError
  | TypeError
  | AssertionError
  | OverflowError
  | AttributeError (name : string)
  | NameError (name : string).

Inductive result (A : Type) : Type :=
  | Ok (a : A)
  | Raise (e : exn).
Arguments Ok {A} a.
Arguments Raise {A} e.

Global Instance result_ret : MRet result := λ A a, Ok a.
Global Instance result_bind : MBind result := λ A B k r,
  match r with
  | Ok a => k a
  | Raise e => Raise e
  end.

Global Instance result_fmap : FMap result := λ A B f r,
  match r with
  | Ok a => Ok (f a)
  | Raise e => Raise e
  end.

Definition is_OSError (e : exn) : bool :=
  match e with
  | OSError _ _ _ => true
  | _ => false
  end.

(** ** Strings *)

Module PyStr.

(** [str.lower] on the ASCII range: the letters A to Z are mapped to a to
    z, every other character is kept.  A string is the sequence of its
    characters as bytes; for a text in ASCII this is what [lower] returns
    on a [str] and on a [unicode] alike, while [unicode.lower] also maps
    capital letters outside ASCII.  What is stated of the values of
    [lower] is stated for names in ASCII. *)
Definition lower_char (c : ascii) : ascii :=
  let n := N_of_ascii c in
  if ((65 <=? n) && (n <=? 90))%N then ascii_of_N (n + 32) else c.

Fixpoint lower (s : string) : string :=
  match s with
  | EmptyString => EmptyString
  | String c s' => String (lower_char c) (lower s')
  end.

(** [s.split(sep)] for a separator of one character.  The result is
    never empty: the empty string splits into one empty part. *)
Fixpoint split (sep : ascii) (s : string) : list string :=
  match s with
  | EmptyString => [EmptyString]
  | String c s' =>
      if Ascii.eqb c sep then EmptyString :: split sep s'
      else match split sep s' with
           | h :: t => String c h :: t
           | [] => [String c EmptyString]
           end
  end.

(** [s.rstrip(c)]: drop every trailing occurrence of [c]. *)
Fixpoint rstrip (c : ascii) (s : string) : string :=
  match s with
  | EmptyString => EmptyString
  | String a s' =>
      match rstrip c s' with
      | EmptyString => if Ascii.eqb a c then EmptyString else String a EmptyString
      | r => String a r
      end
  end.

(** [all_char c s]: [s == c * len(s)]. *)
Fixpoint all_char (c : ascii) (s : string) : bool :=
  match s with
  | EmptyString => true
  | String a s' => Ascii.eqb a c && all_char c s'
  end.

(** [cut_last c s] is [(s[:i], s[i:])] for [i = s.rfind(c) + 1]: the
    text up to and including the last [c], and the text after it. *)
Fixpoint cut_last (c : ascii) (s : string) : string * string :=
  match s with
  | EmptyString => (EmptyString, EmptyString)
  | String a s' =>
      let '(h, t) := cut_last c s' in
      match h with
      | EmptyString =>
          if Ascii.eqb a c then (String a EmptyString, s')
          else (EmptyString, String a t)
      | _ => (String a h, t)
      end
  end.

(** [s.rsplit(c, 1)[0]]: the text before the last [c], the whole string
    when [c] does not occur. *)
Definition rsplit1_head (c : ascii) (s : string) : string :=
  match cut_last c s with
  | (EmptyString, t) => t
  | (String a h, _) =>
      (* drop the separator that ends the head *)
      let fix init (a : ascii) (h : string) : string :=
        match h with
        | EmptyString => EmptyString
        | String b h' => String a (init b h')
        end in
      init a h
  end.

Definition startswith (c : ascii) (s : string) : bool :=
  match s with
  | String a _ => Ascii.eqb a c
  | EmptyString => false
  end.

Fixpoint endswith (c : ascii) (s : string) : bool :=
  match s with
  | EmptyString => false
  | String a EmptyString => Ascii.eqb a c
  | String _ s' => endswith c s'
  end.

End PyStr.

(** ** [os.path] (POSIX flavour) *)

Module OsPath.

Definition sep : ascii := "/"%char.
Definition extsep : ascii := "."%char.

(** [posixpath.split]: head and tail around the last slash; trailing
    slashes are stripped from the head unless it consists of slashes. *)
Definition split (p : string) : string * string :=
  let '(head, tail) := PyStr.cut_last sep p in
  let head :=
    if negb (String.eqb head "") && negb (PyStr.all_char sep head)
    then PyStr.rstrip sep head else head in
  (head, tail).

(** [posixpath.join] of two components. *)
Definition join (a b : string) : string :=
  if PyStr.startswith sep b then b
  else if String.eqb a "" || PyStr.endswith sep a then a +:+ b
  else a +:+ "/" +:+ b.

End OsPath.


(** ** The host: file system oracles and static tables *)

(** The fields of an [os.stat] result that the module reads. *)
Record stat_result : Type := mk_stat {
  st_mode : Z;
  st_size : Z;
  st_uid : Z;
  st_gid : Z
}.

(** The operating system as seen through the calls the module makes.
    [os.stat] and [os.listdir] may raise; [os.path.isdir] never does.
    [full_path] is [os.path.realpath(os.path.expandvars(os.path.expanduser
    (path)))], [rel_to_docs] and [rel_to_app] are the two [os.path.relpath]
    helpers; all three depend on the environment only. *)
Record world : Type := mk_world {
  os_stat : string → result stat_result;
  os_path_isdir : string → bool;
  os_listdir : string → result (list string);
  full_path : string → string;
  rel_to_docs : string → string;
  rel_to_app : string → string
}.

Definition Icon : Type := string.

(** The three tables of [filenav.filetypes] that [common.py] reads.
    A description may be [None]. *)
Record filetypes : Type := mk_filetypes {
  TYPE_GROUPS : gmap string string;
  FILE_EXTS : gmap string (option string);
  GROUP_ICONS : gmap string (option string * Icon)
}.

(** [d[k]] on a dict: [KeyError] when the key is absent. *)
Definition dict_getitem {V} (d : gmap string V) (k : string) : result V :=
  match d !! k with
  | Some v => Ok v
  | None => Raise (KeyError k)
  end.

(** [d.get(k, default)]. *)
Definition dict_get {V} (d : gmap string V) (k : string) (default : V) : V :=
  match d !! k with
  | Some v => v
  | None => default
  end.

(** [k in d]. *)
Definition dict_contains {V} (d : gmap string V) (k : string) : bool :=
  bool_decide (is_Some (d !! k)).

(** ** File metadata *)

Record FileInfo : Type := mk_FileInfo {
  fi_dir : string;
  fi_name : string;
  fi_nameparts : list string;
  fi_ext : option string;
  fi_group : string;
  fi_desc : option string;
  fi_icon : Icon
}.

(** Truth value of an optional string: [None] and the empty string are
    false. *)
Definition truthy (o : option string) : bool :=
  match o with
  | Some s => negb (String.eqb s "")
  | None => false
  end.

(** [ext in ("app", "bundle", "git")]. *)
Definition is_bundle_ext (ext : option string) : bool :=
  match ext with
  | Some e => String.eqb e "app" || String.eqb e "bundle" || String.eqb e "git"
  | None => false
  end.

(** The loop [for part in nameparts: if part in TYPE_GROUPS: ext = part],
    started from [ext]. *)
Definition last_known_ext (ft : filetypes) (nameparts : list string)
    (ext : option string) : option string :=
  foldl (λ ext part, if dict_contains (TYPE_GROUPS ft) part then Some part else ext)
        ext nameparts.

Definition get_fileinfo (w : world) (ft : filetypes) (path : string)
    : result FileInfo :=
  let '(dir, name) := OsPath.split path in
  let nameparts := PyStr.split OsPath.extsep (PyStr.lower name) in
  let basegroup := if os_path_isdir w path then "folder" else "file" in
  let group := basegroup in
  '(desc, icon) ← dict_getitem (GROUP_ICONS ft) group;
  (* Find last known file extension *)
  let ext := last_known_ext ft nameparts None in
  (* Update group, desc, icon accordingly *)
  '(group, desc, icon) ←
    (if truthy ext then
       let e := default "" ext in
       let group := dict_get (TYPE_GROUPS ft) e group in
       gi ← dict_getitem (GROUP_ICONS ft) group;
       let desc := dict_get (FILE_EXTS ft) e gi.1 in
       gi' ← dict_getitem (GROUP_ICONS ft) group;
       let icon := gi'.2 in
       (* Special case: if desc is None, use default description *)
       match desc with
       | None =>
           bg ← dict_getitem (GROUP_ICONS ft) basegroup;
           Ok (group, bg.1, icon)
       | Some _ => Ok (group, desc, icon)
       end
     else Ok (group, desc, icon));
  (* Folders should only get certain file types applied *)
  '(desc, icon) ←
    (if String.eqb basegroup "folder" && negb (is_bundle_ext ext)
     then dict_getitem (GROUP_ICONS ft) basegroup
     else Ok (desc, icon));
  Ok (mk_FileInfo dir name nameparts ext group desc icon).

(** A small instance of the tables, with the groups and extensions that
    [common.py] itself names. *)
Definition sample_filetypes : filetypes := {|
  TYPE_GROUPS := list_to_map
    [("py", "code"); ("html", "code_tags"); ("htm", "code_tags");
     ("txt", "text"); ("wav", "audio"); ("png", "image");
     ("app", "app"); ("bundle", "bundle"); ("git", "git"); ("gz", "archive")];
  FILE_EXTS := list_to_map
    [("py", Some "Python Script"); ("html", Some "HTML Webpage");
     ("htm", Some "HTML Webpage"); ("txt", Some "Plain Text File");
     ("wav", Some "Waveform Audio"); ("png", Some "PNG Image");
     ("app", Some "Mac OS X/iOS APP Bundle"); ("bundle", Some "Mac OS X/iOS Bundle");
     ("git", Some "Git Data"); ("gz", None)];
  GROUP_ICONS := list_to_map
    [("file", (Some "File", "ionicons-document-32"));
     ("folder", (Some "Folder", "ionicons-folder-32"));
     ("code", (Some "Source Code", "ionicons-code-32"));
     ("code_tags", (Some "Markup", "ionicons-code-working-32"));
     ("text", (Some "Text File", "ionicons-document-text-32"));
     ("audio", (Some "Audio File", "ionicons-music-note-32"));
     ("image", (Some "Image File", "ionicons-image-32"));
     ("app", (Some "Application", "ionicons-social-apple-outline-32"));
     ("bundle", (Some "Bundle", "ionicons-ios7-briefcase-outline-32"));
     ("git", (Some "Git Data", "ionicons-social-github-32"));
     ("archive", (Some "Archive", "ionicons-filing-32"))]
|}.

(** A world with three directories and nothing else: [/home/proj.py],
    which holds the directory [lib] and five files, and [/private], which
    may not be listed.  Only the directories can be examined by [os.stat]. *)
Definition sample_world : world := {|
  os_stat p := if String.eqb p "/home/proj.py" then Ok (mk_stat 16877 96 501 20)
               else if String.eqb p "/home/proj.py/lib" then Ok (mk_stat 16877 64 501 20)
               else if String.eqb p "/private" then Ok (mk_stat 16832 64 0 0)
               else Raise (OSError 2 "No such file or directory" (Some p));
  os_path_isdir p := String.eqb p "/home/proj.py" || String.eqb p "/home/proj.py/lib"
                     || String.eqb p "/private";
  os_listdir p := if String.eqb p "/home/proj.py"
                  then Ok ["main.py"; "lib"; "index.html"; "beep.wav"; "logo.png"; "data"]
                  else if String.eqb p "/home/proj.py/lib" then Ok []
                  else if String.eqb p "/private"
                  then Raise (OSError 13 "Permission denied" (Some p))
                  else Raise (OSError 20 "Not a directory" (Some p));
  full_path p := p;
  rel_to_docs p := p;
  rel_to_app p := p
|}.

(** The same world after [notes.txt] was added to [/home/proj.py]. *)
Definition sample_world_later : world := {|
  os_stat := os_stat sample_world;
  os_path_isdir := os_path_isdir sample_world;
  os_listdir p := if String.eqb p "/home/proj.py"
                  then Ok ["main.py"; "lib"; "index.html"; "beep.wav"; "logo.png"; "data";
                           "notes.txt"]
                  else os_listdir sample_world p;
  full_path := full_path sample_world;
  rel_to_docs := rel_to_docs sample_world;
  rel_to_app := rel_to_app sample_world
|}.

(** ** Floating point values that [format_size] handles

    A Python [float] is an IEEE binary64 number.  The values that
    [format_size] computes are of the form [m * 2^e] with [m] an integer of
    at most 54 bits; they are kept as that pair, so every operation below
    is exact arithmetic on [Z]:
    - [float(n)] on an integer rounds [n] to 53 significant bits, ties to
      even, and fails when the result does not fit the binary64 range;
    - dividing by [1024.0] lowers the exponent by ten (no rounding: the
      results stay far above the subnormal range);
    - the format [.2f] prints the exact value rounded to two decimals, ties
      to even. *)

Module PyFloat.

Record float : Type := mk { Fnum : Z; Fexp : Z }.

(** Number of bits of the magnitude of [n] ([n.bit_length()]). *)
Definition bit_length (n : Z) : Z :=
  if Z.abs n =? 0 then 0 else Z.log2 (Z.abs n) + 1.

Definition of_int (n : Z) : result float :=
  if bit_length n <=? 53 then Ok (mk n 0)
  else
    let a := Z.abs n in
    let sh := bit_length n - 53 in
    let q := a / 2 ^ sh in
    let r := a mod 2 ^ sh in
    let half := 2 ^ (sh - 1) in
    let q' := if (half <? r) || ((r =? half) && Z.odd q) then q + 1 else q in
    if 2 ^ 1024 <=? q' * 2 ^ sh then Raise OverflowError
    else Ok (mk (Z.sgn n * q') sh).

(** [x / 1024.0] *)
Definition div_1024 (x : float) : float := mk (Fnum x) (Fexp x - 10).

(** [x < n] for an integer-valued constant [n]. *)
Definition ltb (x : float) (n : Z) : bool :=
  if 0 <=? Fexp x then Fnum x * 2 ^ Fexp x <? n
  else Fnum x <? n * 2 ^ (- Fexp x).

(** The magnitude of [x] in hundredths, rounded to the nearest integer,
    ties to even. *)
Definition cents (x : float) : Z :=
  let num := Z.abs (Fnum x) * 100 * 2 ^ Z.max (Fexp x) 0 in
  let den := 2 ^ Z.max (- Fexp x) 0 in
  let q := num / den in
  let r := num mod den in
  if (den <? 2 * r) || ((2 * r =? den) && Z.odd q) then q + 1 else q.

(** ["{:02.2f}".format(x)]: the minimum width of two never pads, since
    the text has at least four characters. *)
Definition format_2f (x : float) : string :=
  let c := cents x in
  (if Fnum x <? 0 then "-" else "") +:+
  pretty (c / 100) +:+ "." +:+ pretty (c mod 100 / 10) +:+ pretty (c mod 10).

End PyFloat.

(** ** Simple utility functions *)

Definition SIZE_SUFFIXES : list string :=
  ["bytes"; "KiB"; "MiB"; "GiB"; "TiB"; "PiB"; "EiB"; "ZiB"; "YiB"].

(** The loop of [format_size] over the remaining suffixes: divide, test,
    stop at the first unit where the value is below 1024.  [suffix] is the
    loop variable, unbound ([None]) before the first iteration. *)
Fixpoint format_size_loop (suffixes : list string) (size : PyFloat.float)
    (suffix : option string) : PyFloat.float * option string :=
  match suffixes with
  | [] => (size, suffix)
  | s :: rest =>
      let size := PyFloat.div_1024 size in
      if PyFloat.ltb size 1024 then (size, Some s)
      else format_size_loop rest size (Some s)
  end.

Definition format_size (size : Z) (longf : bool) : result string :=
  if size <? 1024 then Ok (pretty size +:+ " bytes")
  else
    fsize ← PyFloat.of_int size;
    let bsize := size in
    let '(fsize, suffix) := format_size_loop (tail SIZE_SUFFIXES) fsize None in
    match suffix with
    | None => Raise (NameError "suffix")
    | Some suffix =>
        Ok (if longf
            then PyFloat.format_2f fsize +:+ " " +:+ suffix +:+
                 " (" +:+ pretty bsize +:+ " bytes)"
            else PyFloat.format_2f fsize +:+ " " +:+ suffix)
    end.

(** ** Python lists

    Indices are Python integers: a negative index counts from the end,
    [l[i]], [del l[i]] and [l.pop(i)] raise [IndexError] out of range, and
    [l.insert(i, x)] clamps the index to the ends of the list.  [pop] and
    [insert] are given for an index that fits the index type of the
    interpreter ([Py_ssize_t]); for one that does not, CPython raises
    [OverflowError] before it looks at the list, where [l[i]] and
    [del l[i]] raise [IndexError]. *)

Module PyList.
Section ops.
Context {A : Type}.

Definition index (l : list A) (i : Z) : result nat :=
  let n := Z.of_nat (length l) in
  let i := if i <? 0 then i + n else i in
  if (i <? 0) || (n <=? i) then Raise IndexError else Ok (Z.to_nat i).

Definition getitem (l : list A) (i : Z) : result A :=
  k ← index l i;
  match l !! k with
  | Some x => Ok x
  | None => Raise IndexError
  end.

Definition delitem (l : list A) (i : Z) : result (list A) :=
  k ← index l i; Ok (delete k l).

Definition pop (l : list A) (i : Z) : result (A * list A) :=
  k ← index l i;
  match l !! k with
  | Some x => Ok (x, delete k l)
  | None => Raise IndexError
  end.

Definition insert (l : list A) (i : Z) (x : A) : list A :=
  let n := Z.of_nat (length l) in
  let i := if i <? 0 then Z.max (i + n) 0 else Z.min i n in
  take (Z.to_nat i) l ++ x :: drop (Z.to_nat i) l.

Definition setitem (l : list A) (i : Z) (x : A) : result (list A) :=
  k ← index l i; Ok (<[k:=x]> l).

Definition append (l : list A) (x : A) : list A := l ++ [x].
End ops.
End PyList.

(** ** State and exceptions

    [SE S A] is a computation on a mutable state [S] that returns an [A] or
    raises; the state reached is returned in both cases, so what was
    mutated before an exception stays mutated. *)

Definition SE (S A : Type) : Type := S → result A * S.

Global Instance SE_ret {S} : MRet (SE S) := λ A a s, (Ok a, s).
Global Instance SE_bind {S} : MBind (SE S) := λ A B k m s,
  match m s with
  | (Ok a, s') => k a s'
  | (Raise e, s') => (Raise e, s')
  end.

Definition raise {S A} (e : exn) : SE S A := λ s, (Raise e, s).
Definition get_state {S} : SE S S := λ s, (Ok s, s).
Definition modify {S} (f : S → S) : SE S unit := λ s, (Ok tt, f s).
Definition lift_result {S A} (r : result A) : SE S A := λ s, (r, s).

(** [try: body  except OSError: handler] *)
Definition try_except_OSError {S A} (body handler : SE S A) : SE S A := λ s,
  match body s with
  | (Raise e, s') => if is_OSError e then handler s' else (Raise e, s')
  | r => r
  end.

(** ** FileItem *)

(** A reference is an index into the heap. *)
Abbreviation loc := nat (only parsing).

(** What a directory listing holds: a name as returned by [os.listdir], or
    a reference to the [FileItem] that replaced it. *)
Inductive value : Type :=
  | VStr (s : string)
  | VRef (l : loc).

(** [FileItem] and the classes derived from it, and every other class. *)
Inductive pyclass : Type :=
  | FileItem_class
  | Derived_class (name : string)
  | Other_class (name : string).

(** [issubclass(cls, FileItem)] *)
Definition issubclass_FileItem (cls : pyclass) : bool :=
  match cls with
  | Other_class _ => false
  | _ => true
  end.

(** The attributes of a [FileItem] instance.  [stat] is [None] when the
    stat call failed; [contents] is [None] for a non-directory. *)
Record FileItem : Type := mk_FileItem {
  cls : pyclass;
  path : string;
  constants : FileInfo;
  icon : Icon;
  icon_cached : bool;
  stat : option stat_result;
  basetype : Z;
  contents : option (list value)
}.

Definition set_constants (c : FileInfo) (x : FileItem) : FileItem :=
  mk_FileItem (cls x) (path x) c (icon x) (icon_cached x) (stat x) (basetype x) (contents x).
Definition set_icon (i : Icon) (x : FileItem) : FileItem :=
  mk_FileItem (cls x) (path x) (constants x) i (icon_cached x) (stat x) (basetype x) (contents x).
Definition set_icon_cached (b : bool) (x : FileItem) : FileItem :=
  mk_FileItem (cls x) (path x) (constants x) (icon x) b (stat x) (basetype x) (contents x).
Definition set_stat (s : option stat_result) (x : FileItem) : FileItem :=
  mk_FileItem (cls x) (path x) (constants x) (icon x) (icon_cached x) s (basetype x) (contents x).
Definition set_basetype (b : Z) (x : FileItem) : FileItem :=
  mk_FileItem (cls x) (path x) (constants x) (icon x) (icon_cached x) (stat x) b (contents x).
Definition set_contents (c : option (list value)) (x : FileItem) : FileItem :=
  mk_FileItem (cls x) (path x) (constants x) (icon x) (icon_cached x) (stat x) (basetype x) c.

Definition ENOTDIR : Z := 20.

(** [os.strerror] on the one code the module passes to it. *)
Definition os_strerror (errno : Z) : string :=
  if errno =? ENOTDIR then "Not a directory" else "Unknown error".

Section FileItem_methods.
Context (w : world) (ft : filetypes).

(** [FileItem.reload]: a computation on the instance's own attributes. *)
Definition FileItem_reload : SE FileItem unit :=
  (* assert isinstance(self.path, basestring): [path] is a string *)
  self ← get_state;
  c ← lift_result (get_fileinfo w ft (path self));
  modify (set_constants c);;
  self ← get_state;
  modify (set_icon (fi_icon (constants self)));;
  modify (set_icon_cached false);;
  try_except_OSError
    (self ← get_state;
     st ← lift_result (os_stat w (path self));
     modify (set_stat (Some st)))
    (modify (set_stat None));;
  self ← get_state;
  if os_path_isdir w (path self) then
    modify (set_basetype 0);;
    try_except_OSError
      (self ← get_state;
       names ← lift_result (os_listdir w (path self));
       modify (set_contents (Some (VStr <$> names))))
      (modify (set_contents (Some [])))
  else
    modify (set_basetype 1);;
    modify (set_contents None).

(** [FileItem.isdir] and [FileItem.isfile] *)
Definition FileItem_isdir (self : FileItem) : bool := basetype self =? 0.
Definition FileItem_isfile (self : FileItem) : bool := basetype self =? 1.

(** [FileItem.basename], [FileItem.join] *)
Definition FileItem_basename (self : FileItem) : string := fi_name (constants self).
Definition FileItem_join (self : FileItem) (name : string) : string :=
  OsPath.join (path self) name.

(** [FileItem.listdir] *)
Definition FileItem_listdir : SE FileItem (option (list value)) :=
  self ← get_state;
  if FileItem_isdir self then mret (contents self)
  else
    let errno := ENOTDIR in
    let strerror := os_strerror errno in
    let filename := path self in
    raise (OSError errno strerror (Some filename)).

End FileItem_methods.

(** ** The object heap

    [FileItem] instances and the Python lists that the data sources share
    are objects with identity: the heap holds them, a reference is an index
    into it, and objects are never freed. *)

Record heap : Type := mk_heap {
  h_items : list FileItem;
  h_lists : list (list loc)
}.

Definition empty_heap : heap := mk_heap [] [].

Definition set_items (f : list FileItem → list FileItem) (h : heap) : heap :=
  mk_heap (f (h_items h)) (h_lists h).
Definition set_lists (f : list (list loc) → list (list loc)) (h : heap) : heap :=
  mk_heap (h_items h) (f (h_lists h)).

(** Allocation returns the reference of the new object. *)
Definition alloc_item (x : FileItem) : SE heap loc := λ h,
  (Ok (length (h_items h)), set_items (λ its, its ++ [x]) h).
Definition alloc_list (l : list loc) : SE heap loc := λ h,
  (Ok (length (h_lists h)), set_lists (λ ls, ls ++ [l]) h).

(** Reading through a reference.  A reference that names no object does
    not arise from the code; reading one is a [TypeError]. *)
Definition read_item (l : loc) : SE heap FileItem := λ h,
  match h_items h !! l with
  | Some x => (Ok x, h)
  | None => (Raise TypeError, h)
  end.
Definition read_list (l : loc) : SE heap (list loc) := λ h,
  match h_lists h !! l with
  | Some x => (Ok x, h)
  | None => (Raise TypeError, h)
  end.
Definition write_item (l : loc) (x : FileItem) : SE heap unit :=
  modify (set_items (λ its, <[l:=x]> its)).
Definition write_list (l : loc) (x : list loc) : SE heap unit :=
  modify (set_lists (λ ls, <[l:=x]> ls)).

(** Run a method of the instance at [l] on the heap. *)
Definition on_item {A} (l : loc) (m : SE FileItem A) : SE heap A :=
  self ← read_item l;
  let '(r, self') := m self in
  write_item l self';;
  lift_result r.

(** [isinstance(v, FileItem)] *)
Definition isinstance_FileItem (h : heap) (v : value) : bool :=
  match v with
  | VRef l => bool_decide (is_Some (h_items h !! l))
  | VStr _ => false
  end.

Section FileItem_construction.
Context (w : world) (ft : filetypes).

(** An instance fresh from [object.__new__] with its [path] assigned.
    The other attributes do not exist yet; [reload] assigns each of them
    before reading any, so the values given here are never read. *)
Definition blank_FileItem (cls : pyclass) (path : string) : FileItem :=
  mk_FileItem cls path (mk_FileInfo "" "" [] None "" None "") "" false None 0 None.

(** [FileItem.__new__(cls, path)], which is all of [cls(path)]: the class
    has no [__init__] of its own.  The new instance enters the heap when
    it is returned; one whose [reload] raises is unreachable. *)
Definition FileItem_new (cls : pyclass) (arg : value) : SE heap loc :=
  if negb (issubclass_FileItem cls) then raise AssertionError
  else
    h ← get_state;
    if isinstance_FileItem h arg then
      (* Allow efficient "conversion" of a FileItem to its own type *)
      match arg with
      | VRef l => mret l
      | VStr _ => raise TypeError
      end
    else
      match arg with
      | VStr p =>
          let self := blank_FileItem cls (full_path w p) in
          match FileItem_reload w ft self with
          | (Ok _, self) => alloc_item self
          | (Raise e, _) => raise e
          end
      | VRef _ => raise TypeError
      end.

End FileItem_construction.

(** ** Data sources *)

(** [FileDataSource]: [fi] is assigned by [__init__]; [folders], [files]
    and [lists] are [None] while the attribute does not exist. *)
Record FileDataSource : Type := mk_FileDataSource {
  fi : value;
  folders : option loc;
  files : option loc;
  lists : option (list loc)
}.

(** A table view made by [make_file_list]: its name and its data source. *)
Record view : Type := mk_view {
  view_name : string;
  view_data_source : FileDataSource
}.

(** Calls into the host ([console], [editor], [sound], [webbrowser],
    [time], the table view and the app controller), in the order made.
    They are recorded and return normally. *)
Inductive host_call : Type :=
  | console_show_activity
  | console_hide_activity
  | console_hide_output
  | console_show_image (path : string)
  | console_quicklook (path : string)
  | editor_open_file (path : string)
  | webbrowser_open (url : string)
  | sound_load_effect (name : string)
  | sound_play_effect (name : string)
  | time_sleep_ANIM_DELAY
  | app_close
  | app_push_view (v : view)
  | tableview_delete_rows (rows : list Z).

(** *** FavoritesDataSource *)

(** One favorite: the pair [[path, label]]. *)
Definition entry : Type := string * string.

Record FavoritesDataSource : Type := mk_FavoritesDataSource {
  src : string;
  entries : list entry
}.

(** The state a method of [FavoritesDataSource] works on: the instance,
    the JSON documents on disk (by file name, each the array it holds) and
    the host calls made so far. *)
Record fav_state : Type := mk_fav_state {
  fav_self : FavoritesDataSource;
  fav_disk : gmap string (list entry);
  fav_calls : list host_call
}.

Definition fav_set_entries (es : list entry) : SE fav_state unit :=
  modify (λ s, mk_fav_state (mk_FavoritesDataSource (src (fav_self s)) es)
                            (fav_disk s) (fav_calls s)).
Definition fav_call (c : host_call) : SE fav_state unit :=
  modify (λ s, mk_fav_state (fav_self s) (fav_disk s) (fav_calls s ++ [c])).

(** [with open(self.src, "w") as f: json.dump(self.entries, f, indent=4)] *)
Definition fav_dump : SE fav_state unit :=
  modify (λ s, mk_fav_state (fav_self s)
                            (<[src (fav_self s) := entries (fav_self s)]> (fav_disk s))
                            (fav_calls s)).

(** [FavoritesDataSource.reload]: [json.load] of the source file, which
    must exist. *)
Definition FavoritesDataSource_reload : SE fav_state unit :=
  s ← get_state;
  match fav_disk s !! src (fav_self s) with
  | Some es => fav_set_entries es
  | None => raise (IOError 2 "No such file or directory" (Some (src (fav_self s))))
  end.

Definition FavoritesDataSource_tableview_number_of_rows (self : FavoritesDataSource) : Z :=
  Z.of_nat (length (entries self)).

Definition FavoritesDataSource_tableview_delete (row : Z) : SE fav_state unit :=
  s ← get_state;
  es ← lift_result (PyList.delitem (entries (fav_self s)) row);
  fav_set_entries es;;
  fav_call (tableview_delete_rows [row]);;
  fav_dump.

Definition FavoritesDataSource_tableview_move_row (from_row to_row : Z)
    : SE fav_state unit :=
  s ← get_state;
  '(x, es) ← lift_result (PyList.pop (entries (fav_self s)) from_row);
  fav_set_entries es;;
  s ← get_state;
  fav_set_entries (PyList.insert (entries (fav_self s)) to_row x);;
  fav_dump.

(** *** FileDataSource *)

(** The state a method of [FileDataSource] works on: the instance, the
    object heap and the host calls made so far. *)
Record fds_state : Type := mk_fds_state {
  fds_self : FileDataSource;
  fds_heap : heap;
  fds_calls : list host_call
}.

Definition on_heap {A} (m : SE heap A) : SE fds_state A := λ s,
  let '(r, h) := m (fds_heap s) in
  (r, mk_fds_state (fds_self s) h (fds_calls s)).

Definition fds_update_self (f : FileDataSource → FileDataSource) : SE fds_state unit :=
  modify (λ s, mk_fds_state (f (fds_self s)) (fds_heap s) (fds_calls s)).
Definition fds_call (c : host_call) : SE fds_state unit :=
  modify (λ s, mk_fds_state (fds_self s) (fds_heap s) (fds_calls s ++ [c])).

Definition set_folders (l : loc) (d : FileDataSource) : FileDataSource :=
  mk_FileDataSource (fi d) (Some l) (files d) (lists d).
Definition set_files (l : loc) (d : FileDataSource) : FileDataSource :=
  mk_FileDataSource (fi d) (folders d) (Some l) (lists d).
Definition set_lists_attr (ls : list loc) (d : FileDataSource) : FileDataSource :=
  mk_FileDataSource (fi d) (folders d) (files d) (Some ls).

(** Reading an attribute that may not exist yet. *)
Definition getattr {S A} (name : string) (o : option A) : SE S A :=
  match o with
  | Some a => mret a
  | None => raise (AttributeError name)
  end.

(** A value that is assigned to by index: [None] does not support item
    assignment. *)
Definition subscriptable {S A} (o : option A) : SE S A :=
  match o with
  | Some a => mret a
  | None => raise TypeError
  end.

(** [lst.append(x)] on the list object at [l]. *)
Definition list_append (l : loc) (x : loc) : SE heap unit :=
  xs ← read_list l;
  write_list l (PyList.append xs x).

Section FileDataSource_methods.
Context (w : world) (ft : filetypes).

(** One iteration of the loop of [reload], for the pair [(i, name)] of
    [enumerate(self.fi.contents)]. *)
Definition FileDataSource_reload_step (i : nat) (name : value) : SE fds_state unit :=
  s ← get_state;
  name ←
    (if negb (isinstance_FileItem (fds_heap s) name) then
       (* name = self.fi.contents[i] = FileItem(self.fi.join(name)) *)
       match fi (fds_self s), name with
       | VRef d, VStr n =>
           dir ← on_heap (read_item d);
           new ← on_heap (FileItem_new w ft FileItem_class (VStr (FileItem_join dir n)));
           dir ← on_heap (read_item d);
           cs ← subscriptable (contents dir);
           cs ← lift_result (PyList.setitem cs (Z.of_nat i) (VRef new));
           on_heap (write_item d (set_contents (Some cs) dir));;
           mret new
       | _, _ => raise TypeError
       end
     else
       match name with
       | VRef l => mret l
       | VStr _ => raise TypeError
       end);
  it ← on_heap (read_item name);
  s ← get_state;
  if FileItem_isdir it then
    l ← getattr "folders" (folders (fds_self s));
    on_heap (list_append l name)
  else
    l ← getattr "files" (files (fds_self s));
    on_heap (list_append l name).

(** The loop [for i, name in enumerate(self.fi.contents)], from index
    [i] on.  The list iterator reads the live list, whose length the body
    never changes and of which it only assigns the element just read, so
    the elements still to come are those of [names]. *)
Fixpoint FileDataSource_reload_loop (i : nat) (names : list value) : SE fds_state unit :=
  match names with
  | [] => mret tt
  | name :: rest =>
      FileDataSource_reload_step i name;;
      FileDataSource_reload_loop (S i) rest
  end.

Definition FileDataSource_reload : SE fds_state unit :=
  s ← get_state;
  if negb (isinstance_FileItem (fds_heap s) (fi (fds_self s))) then raise AssertionError
  else
    l ← on_heap (alloc_list []);
    fds_update_self (set_folders l);;
    l ← on_heap (alloc_list []);
    fds_update_self (set_files l);;
    match fi (fds_self s) with
    | VRef d =>
        dir ← on_heap (read_item d);
        match contents dir with
        | Some names => FileDataSource_reload_loop 0 names
        | None => raise TypeError (* 'NoneType' object is not iterable *)
        end
    | VStr _ => raise TypeError
    end.

(** [FileDataSource.__init__(self, fi, app)], after [self.fi = fi]. *)
Definition FileDataSource_init : SE fds_state unit :=
  FileDataSource_reload;;
  s ← get_state;
  fo ← getattr "folders" (folders (fds_self s));
  fl ← getattr "files" (files (fds_self s));
  fds_update_self (set_lists_attr [fo; fl]).

(** [FileDataSource(fi, app)] evaluated on a heap: the new instance,
    which has no attribute but [fi] when [__init__] starts its work, and
    the heap that the construction leaves. *)
Definition FileDataSource_call (fi : value) : SE heap FileDataSource := λ h,
  let self := mk_FileDataSource fi None None None in
  let '(r, s) := FileDataSource_init (mk_fds_state self h []) in
  (match r with Ok _ => Ok (fds_self s) | Raise e => Raise e end, fds_heap s).

Definition FileDataSource_tableview_number_of_sections : SE fds_state Z :=
  s ← get_state;
  ls ← getattr "lists" (lists (fds_self s));
  mret (Z.of_nat (length ls)).

Definition FileDataSource_tableview_number_of_rows (section : Z) : SE fds_state Z :=
  s ← get_state;
  ls ← getattr "lists" (lists (fds_self s));
  l ← lift_result (PyList.getitem ls section);
  xs ← on_heap (read_list l);
  mret (Z.of_nat (length xs)).

(** [make_file_list(app, fi)] *)
Definition make_file_list (fi : loc) : SE heap view :=
  ds ← FileDataSource_call (VRef fi);
  it ← read_item fi;
  mret (mk_view (if String.eqb (path it) "/" then "/" else FileItem_basename it) ds).

(** [open_path(path)] *)
Definition open_path (p : string) : SE fds_state unit :=
  fds_call (editor_open_file (rel_to_docs w p));;
  fds_call console_hide_output.

(** [ext in (u"htm", u"html")] *)
Definition is_html_ext (ext : option string) : bool :=
  match ext with
  | Some e => String.eqb e "htm" || String.eqb e "html"
  | None => false
  end.

(** [group in ("code", "code_tags", "text")] *)
Definition is_editor_group (group : string) : bool :=
  String.eqb group "code" || String.eqb group "code_tags" || String.eqb group "text".

(** [FileDataSource.tableview_did_select]; [editing] is
    [tableview.editing].  The decorator [ui.in_background] has the host
    run the body on another thread; the body is what is embedded. *)
Definition FileDataSource_tableview_did_select (editing : bool) (section row : Z)
    : SE fds_state unit :=
  if negb editing then
    s ← get_state;
    ls ← getattr "lists" (lists (fds_self s));
    l ← lift_result (PyList.getitem ls section);
    xs ← on_heap (read_list l);
    fi ← lift_result (PyList.getitem xs row);
    if section =? 0 then
      fds_call console_show_activity;;
      v ← on_heap (make_file_list fi);
      fds_call (app_push_view v);;
      fds_call console_hide_activity
    else if section =? 1 then
      it ← on_heap (read_item fi);
      let group := fi_group (constants it) in
      if is_html_ext (fi_ext (constants it)) then
        fds_call (webbrowser_open ("file://" +:+ path it));;
        fds_call app_close
      else if is_editor_group group then
        open_path (path it);;
        fds_call app_close
      else if String.eqb group "audio" then
        let spath := rel_to_app w (PyStr.rsplit1_head "." (path it)) in
        fds_call (sound_load_effect spath);;
        fds_call (sound_play_effect spath)
      else if String.eqb group "image" then
        fds_call (console_show_image (path it))
      else
        fds_call app_close;;
        fds_call time_sleep_ANIM_DELAY;;
        fds_call (console_quicklook (path it))
    else mret tt
  else mret tt.

End FileDataSource_methods.

(** ** Further functions of the module *)

(** [has_flags(num, flags)]: all bits of [flags] are set in [num].  Python
    integers are unbounded and [&] works on their two's complement, as
    [Z.land] does. *)
Definition has_flags (num flags : Z) : bool := Z.land num flags =? flags.

(** [FileItem.dirname] and [FileItem.split] *)
Definition FileItem_dirname (self : FileItem) : string := fi_dir (constants self).
Definition FileItem_split (self : FileItem) : string * string :=
  (fi_dir (constants self), fi_name (constants self)).

(** *** FavoritesDataSource.tableview_did_select *)

(** The state the selection of a favorite works on: the instance, the
    object heap and the host calls made so far. *)
Record fav_select_state : Type := mk_fav_select_state {
  fsel_self : FavoritesDataSource;
  fsel_heap : heap;
  fsel_calls : list host_call
}.

Definition fsel_on_heap {A} (m : SE heap A) : SE fav_select_state A := λ s,
  let '(r, h) := m (fsel_heap s) in
  (r, mk_fav_select_state (fsel_self s) h (fsel_calls s)).
Definition fsel_call (c : host_call) : SE fav_select_state unit :=
  modify (λ s, mk_fav_select_state (fsel_self s) (fsel_heap s) (fsel_calls s ++ [c])).

(** [FavoritesDataSource.tableview_did_select(self, tableview, section,
    row)], with [tableview.editing] as [editing]; [section] is not used.
    The argument [FileItem(self.entries[row][0])] is evaluated after
    [console.show_activity()] has been called. *)
Definition FavoritesDataSource_tableview_did_select (w : world) (ft : filetypes)
    (editing : bool) (row : Z) : SE fav_select_state unit :=
  if negb editing then
    fsel_call console_show_activity;;
    s ← get_state;
    e ← lift_result (PyList.getitem (entries (fsel_self s)) row);
    fi ← fsel_on_heap (FileItem_new w ft FileItem_class (VStr e.1));
    v ← fsel_on_heap (make_file_list w ft fi);
    fsel_call (app_push_view v);;
    fsel_call console_hide_activity
  else mret tt.

(** * Specifications

    The statements below are read off the prose description of the
    module; the theorems that follow compare them with the code. *)

(** The tables are well formed when [GROUP_ICONS] describes the two base
    groups and every group that [TYPE_GROUPS] assigns. *)
Definition filetypes_wf (ft : filetypes) : Prop :=
  is_Some (GROUP_ICONS ft !! "file") ∧
  is_Some (GROUP_ICONS ft !! "folder") ∧
  map_Forall (λ _ g, is_Some (GROUP_ICONS ft !! g)) (TYPE_GROUPS ft).

(** The last component of the lowercased file name of [path], split at
    the extension separator. *)
Definition trailing_component (path : string) : option string :=
  last (PyStr.split OsPath.extsep (PyStr.lower (OsPath.split path).2)).

(** [info] carries the group, description and icon that the tables give
    for the extension [e]: the group of [e], the icon of that group, and
    the description of [e] (that of the group when [e] has none, and the
    default of the base group [basegroup] when the tables say [None]). *)
Definition looked_up_under (ft : filetypes) (basegroup e : string) (info : FileInfo) : Prop :=
  TYPE_GROUPS ft !! e = Some (fi_group info) ∧
  ∃ gd gi bd bi,
    GROUP_ICONS ft !! fi_group info = Some (gd, gi) ∧
    GROUP_ICONS ft !! basegroup = Some (bd, bi) ∧
    fi_icon info = gi ∧
    fi_desc info = match dict_get (FILE_EXTS ft) e gd with
                   | Some d => Some d
                   | None => bd
                   end.

(** The file type is found by suffix matching, for every path. *)
Definition suffix_matching_claim (w : world) (ft : filetypes) (path : string) : Prop :=
  ∀ info e,
    get_fileinfo w ft path = Ok info →
    trailing_component path = Some e →
    is_Some (TYPE_GROUPS ft !! e) →
    fi_ext info = Some e ∧ ∃ basegroup, looked_up_under ft basegroup e info.

(** The fields of a [FileInfo] other than [dir]. *)
Definition display_fields (info : FileInfo)
    : string * list string * option string * string * option string * Icon :=
  (fi_name info, fi_nameparts info, fi_ext info, fi_group info, fi_desc info, fi_icon info).

(** The display metadata is a function of the file name alone. *)
Definition filename_only_claim (w : world) (ft : filetypes) (p1 p2 : string) : Prop :=
  (OsPath.split p1).2 = (OsPath.split p2).2 →
  ∀ i1 i2, get_fileinfo w ft p1 = Ok i1 → get_fileinfo w ft p2 = Ok i2 →
           display_fields i1 = display_fields i2.

(** Tables in which the empty string is a known extension. *)
Definition empty_ext_filetypes : filetypes :=
  mk_filetypes (<["" := "text"]> (TYPE_GROUPS sample_filetypes))
               (FILE_EXTS sample_filetypes) (GROUP_ICONS sample_filetypes).

(** The value of a float whose exponent is not negative. *)
Definition float_value (x : PyFloat.float) : Z := PyFloat.Fnum x * 2 ^ PyFloat.Fexp x.

(** What [format_size] appends for [longf]. *)
Definition bytes_in_parentheses (size : Z) (longf : bool) : string :=
  if longf then " (" +:+ pretty size +:+ " bytes)" else "".

(** [size] scaled to the unit of index [k] and printed: the exact value
    for bytes, the quotient by [1024^k] to two decimals otherwise. *)
Definition scaled_text (size : Z) (k : nat) : string :=
  match k with
  | O => pretty size
  | _ => PyFloat.format_2f (PyFloat.mk size (- 10 * Z.of_nat k))
  end.

(** The size is shown in the smallest unit of [SIZE_SUFFIXES] at which
    the scaled value is below 1024, followed for [longf] by the size in
    bytes in parentheses. *)
Definition format_size_claim (size : Z) (longf : bool) : Prop :=
  ∃ (k : nat) (suffix : string),
    SIZE_SUFFIXES !! k = Some suffix ∧
    size < 1024 ^ (Z.of_nat k + 1) ∧
    (k ≠ O → 1024 ^ Z.of_nat k ≤ size) ∧
    format_size size longf =
      Ok (scaled_text size k +:+ " " +:+ suffix +:+ bytes_in_parentheses size longf).

(** A favorites file with three entries, and the data source loaded from
    it. *)
Definition sample_favorites : list entry :=
  [("/home", "Home"); ("/home/Documents", "Documents"); ("/tmp", "Temp")].

Definition sample_fav_state : fav_state :=
  (FavoritesDataSource_reload
     (mk_fav_state (mk_FavoritesDataSource "favorites.json" [])
                   {["favorites.json" := sample_favorites]} [])).2.

(** What [reload] leaves in the instance when everything the host raises
    is an [OSError]. *)
Definition reloaded (w : world) (self : FileItem) (c : FileInfo) : FileItem :=
  mk_FileItem (cls self) (path self) c (fi_icon c) false
    (match os_stat w (path self) with
     | Ok st => Some st
     | Raise _ => None
     end)
    (if os_path_isdir w (path self) then 0 else 1)
    (if os_path_isdir w (path self)
     then Some (match os_listdir w (path self) with
                | Ok names => VStr <$> names
                | Raise _ => []
                end)
     else None).


(** The instance for the directory [/home/proj.py] of the sample world. *)
Definition sample_dir_item : FileItem :=
  (FileItem_reload sample_world sample_filetypes
     (blank_FileItem FileItem_class "/home/proj.py")).2.

(** A result that, when it is an exception, is a [KeyError]. *)
Definition raises_only_KeyError {A} (r : result A) : Prop :=
  ∀ e, r = Raise e → ∃ k, e = KeyError k.

(** The five things that selecting a file can do. *)
Inductive file_action : Type :=
  | OpenInBrowser
  | OpenInEditor
  | PlaySound
  | PreviewImage
  | QuickLook.

(** The dispatch rules, tested in this order. *)
Definition file_action_of (ext : option string) (group : string) : file_action :=
  if decide (ext = Some "htm" ∨ ext = Some "html") then OpenInBrowser
  else if decide (group = "code" ∨ group = "code_tags" ∨ group = "text") then OpenInEditor
  else if decide (group = "audio") then PlaySound
  else if decide (group = "image") then PreviewImage
  else QuickLook.

(** The host calls that make up each action on the file at [path]. *)
Definition action_calls (w : world) (a : file_action) (path : string) : list host_call :=
  match a with
  | OpenInBrowser => [webbrowser_open ("file://" +:+ path); app_close]
  | OpenInEditor => [editor_open_file (rel_to_docs w path); console_hide_output; app_close]
  | PlaySound =>
      [sound_load_effect (rel_to_app w (PyStr.rsplit1_head "." path));
       sound_play_effect (rel_to_app w (PyStr.rsplit1_head "." path))]
  | PreviewImage => [console_show_image path]
  | QuickLook => [app_close; time_sleep_ANIM_DELAY; console_quicklook path]
  end.

(** The heap after [FileItem("/home/proj.py")] in the sample world, and a
    [FileDataSource] made for that instance. *)
Definition sample_heap : heap :=
  (FileItem_new sample_world sample_filetypes FileItem_class (VStr "/home/proj.py")
     empty_heap).2.

Definition sample_fds_state : fds_state :=
  (FileDataSource_init sample_world sample_filetypes
     (mk_fds_state (mk_FileDataSource (VRef 0%nat) None None None) sample_heap [])).2.

(** The item at a reference of the sample state. *)
Definition sample_item (l : loc) : FileItem :=
  default (blank_FileItem FileItem_class "") (h_items (fds_heap sample_fds_state) !! l).

(** The sample data source after the directory gained a file: the
    [FileItem] is reloaded in the later world, then the data source is. *)
Definition sample_heap_later : heap :=
  (on_item 0%nat (FileItem_reload sample_world_later sample_filetypes)
     (fds_heap sample_fds_state)).2.

Definition sample_fds_reloaded : result unit * fds_state :=
  FileDataSource_reload sample_world_later sample_filetypes
    (mk_fds_state (fds_self sample_fds_state) sample_heap_later []).

(** The number of entries of the directory listing that the data source
    shows: the length of [self.fi.contents]. *)
Definition contents_length (s : fds_state) : option Z :=
  match fi (fds_self s) with
  | VRef d =>
      it ← h_items (fds_heap s) !! d;
      cs ← contents it;
      Some (Z.of_nat (length cs))
  | VStr _ => None
  end.

(** The total row count over the two sections. *)
Definition total_rows (s : fds_state) : result Z :=
  n0 ← (FileDataSource_tableview_number_of_rows 0 s).1;
  n1 ← (FileDataSource_tableview_number_of_rows 1 s).1;
  Ok (n0 + n1).

(** [r] refers to an instance that is a directory. *)
Definition item_isdir (h : heap) (r : loc) : bool :=
  match h_items h !! r with
  | Some it => FileItem_isdir it
  | None => false
  end.

(** An entry of a listing is a name or refers to an instance of the
    heap. *)
Definition valid_value (h : heap) (v : value) : Prop :=
  match v with
  | VStr _ => True
  | VRef l => is_Some (h_items h !! l)
  end.

(** A host on which the module runs without an exception of its own
    making: the tables are well formed, and [os.stat] and [os.listdir]
    raise nothing but [OSError]. *)
Definition host_ok (w : world) (ft : filetypes) : Prop :=
  filetypes_wf ft ∧
  (∀ p e, os_stat w p = Raise e → is_OSError e = true) ∧
  (∀ p e, os_listdir w p = Raise e → is_OSError e = true).

(** [x'] is [x] but for its [contents]. *)
Definition same_but_contents (x x' : FileItem) : Prop :=
  ∃ c, x' = set_contents c x.

(** [c] does not occur in [s]. *)
Fixpoint no_char (c : ascii) (s : string) : bool :=
  match s with
  | EmptyString => true
  | String a s' => negb (Ascii.eqb a c) && no_char c s'
  end.

(** [s] holds ASCII characters only.  On such a string [PyStr.lower] is
    what Python's [lower] returns, for [str] and for [unicode] alike. *)
Definition is_ascii_char (c : ascii) : bool := (N_of_ascii c <? 128)%N.

Fixpoint is_ascii (s : string) : bool :=
  match s with
  | EmptyString => true
  | String c s' => is_ascii_char c && is_ascii s'
  end.

(** [y] is the small letter of the capital letter [x]. *)
Definition small_of_capital (x y : ascii) : bool :=
  ((65 <=? N_of_ascii x) && (N_of_ascii x <=? 90) && (N_of_ascii y =? N_of_ascii x + 32))%N.

(** [a] and [b] are the same text up to the case of the letters A to Z:
    they have the same length, and at each place the same character or
    the two cases of one letter. *)
Fixpoint same_up_to_case (a b : string) : bool :=
  match a, b with
  | EmptyString, EmptyString => true
  | String x a', String y b' =>
      (Ascii.eqb x y || small_of_capital x y || small_of_capital y x)
      && same_up_to_case a' b'
  | _, _ => false
  end.

(** [i] fits the index type of every build of the interpreter (32 bits at
    least), as the rows that a table view passes do.  [list.pop] and
    [list.insert] convert their index to that type first and raise
    [OverflowError] when it does not fit. *)
Definition index_sized (i : Z) : Prop := - 2 ^ 31 ≤ i < 2 ^ 31.

(** The name parts that the extension table knows, in their order. *)
Definition known_parts (ft : filetypes) (nameparts : list string) : list string :=
  List.filter (dict_contains (TYPE_GROUPS ft)) nameparts.

(** The fields of a [FileInfo] that depend on the extension. *)
Definition type_fields (info : FileInfo)
    : list string * option string * string * option string * Icon :=
  (fi_nameparts info, fi_ext info, fi_group info, fi_desc info, fi_icon info).

(** The names that [FileItem.reload] stores for a directory: those
    [os.listdir] gave, none when it raised. *)
Definition listing (w : world) (p : string) : list string :=
  match os_listdir w p with
  | Ok names => names
  | Raise _ => []
  end.

(** A favorites list of the sample world with a directory and a file, on
    an empty heap. *)
Definition sample_fav_select_state : fav_select_state :=
  mk_fav_select_state
    (mk_FavoritesDataSource "favorites.json"
       [("/home/proj.py", "Project"); ("/home/proj.py/main.py", "Main")])
    empty_heap [].

(** * Theorems *)

(** ** [get_fileinfo] *)

Section get_fileinfo_facts.
Context (w : world) (ft : filetypes).

Lemma dict_contains_true {V} (d : gmap string V) k :
  dict_contains d k = true ↔ is_Some (d !! k).
Proof. unfold dict_contains. by rewrite bool_decide_eq_true. Qed.

(** The loop keeps the last part that the table knows. *)
Lemma last_known_ext_snoc parts e init :
  last_known_ext ft (parts ++ [e]) init =
    if dict_contains (TYPE_GROUPS ft) e then Some e
    else last_known_ext ft parts init.
Proof. unfold last_known_ext. by rewrite foldl_app. Qed.

Lemma last_known_ext_trailing parts e init :
  last parts = Some e → is_Some (TYPE_GROUPS ft !! e) →
  last_known_ext ft parts init = Some e.
Proof.
  intros [parts' ->]%last_Some He%dict_contains_true.
  by rewrite last_known_ext_snoc, He.
Qed.

Lemma truthy_Some e : truthy (Some e) = true ↔ e ≠ "".
Proof.
  simpl. rewrite negb_true_iff. split.
  - intros H ->. discriminate.
  - intros H. by apply String.eqb_neq.
Qed.

Lemma dict_getitem_wf_base (isdir : bool) :
  filetypes_wf ft →
  ∃ gi, dict_getitem (GROUP_ICONS ft) (if isdir then "folder" else "file") = Ok gi.
Proof.
  intros (Hfile & Hfolder & _). unfold dict_getitem.
  destruct isdir; [destruct Hfolder as [gi ->] | destruct Hfile as [gi ->]]; eauto.
Qed.

Lemma dict_getitem_Ok {V} (d : gmap string V) k v :
  dict_getitem d k = Ok v ↔ d !! k = Some v.
Proof. unfold dict_getitem. destruct (d !! k); naive_solver. Qed.

End get_fileinfo_facts.

(** C1, as written, fails on a directory: [/home/proj.py] is a directory
    whose name ends in the known extension [py], and its description and
    icon are those of a folder, not those that the tables give for [py].
    It also fails for tables in which the empty string is an extension:
    the suffix of [notes.] is then found, but nothing is looked up. *)
Lemma get_fileinfo_suffix_counterexample :
  ¬ suffix_matching_claim sample_world sample_filetypes "/home/proj.py" ∧
  ¬ suffix_matching_claim sample_world empty_ext_filetypes "/tmp/notes.".
Proof.
  split; intros H.
  - destruct (H (mk_FileInfo "/home" "proj.py" ["proj"; "py"] (Some "py") "code"
                   (Some "Folder") "ionicons-folder-32") "py")
      as (_ & bg & _ & gd & gi & bd & bi & Hg & _ & Hicon & _);
      [by vm_compute | by vm_compute | by vm_compute; eexists |].
    vm_compute in Hg. simpl in Hicon. congruence.
  - destruct (H (mk_FileInfo "/tmp" "notes." ["notes"; ""] (Some "") "file"
                   (Some "File") "ionicons-document-32") "")
      as (_ & bg & Hg & _);
      [by vm_compute | by vm_compute | by vm_compute; eexists |].
    vm_compute in Hg. congruence.
Qed.

(** C1 (amended).  For well-formed tables [get_fileinfo] returns, and when
    the last dot-separated component [e] of the lowercased file name is a
    key of [TYPE_GROUPS], the [ext] field is [e].  When [e] is moreover not
    empty, the group is the one the table gives for [e]; the description
    and icon are looked up under [e] unless the path is a directory whose
    extension is none of [app], [bundle], [git], in which case they are the
    description and icon of the folder group. *)
Theorem get_fileinfo_suffix_lookup (w : world) (ft : filetypes) (path e : string) :
  filetypes_wf ft →
  trailing_component path = Some e →
  is_Some (TYPE_GROUPS ft !! e) →
  ∃ info,
    get_fileinfo w ft path = Ok info ∧
    fi_ext info = Some e ∧
    (e ≠ "" →
     TYPE_GROUPS ft !! e = Some (fi_group info) ∧
     if os_path_isdir w path && negb (is_bundle_ext (Some e))
     then GROUP_ICONS ft !! "folder" = Some (fi_desc info, fi_icon info)
     else looked_up_under ft (if os_path_isdir w path then "folder" else "file") e info).
Proof.
  intros Hwf Hlast [g Hg]. unfold trailing_component in Hlast.
  unfold get_fileinfo. destruct (OsPath.split path) as [dir name]; simpl in Hlast.
  rewrite (last_known_ext_trailing ft _ e None Hlast) by eauto.
  destruct (dict_getitem_wf_base ft (os_path_isdir w path) Hwf) as [[bd bi] Hbase].
  destruct Hwf as (Hfile & [[fd fic] Hfolder] & Hgroups).
  destruct (Hgroups _ _ Hg) as [[gd gi] Hgi].
  rewrite Hbase. cbn [mbind result_bind].
  destruct (decide (e = "")) as [-> | Hne].
  - (* the empty extension is found but not applied *)
    cbn [truthy String.eqb negb is_bundle_ext orb andb].
    destruct (os_path_isdir w path); cbn.
    + unfold dict_getitem. rewrite Hfolder. cbn. eexists; split_and!; [done..|done].
    + eexists; split_and!; [done..|done].
  - assert (Ht : truthy (Some e) = true) by by apply truthy_Some.
    rewrite Ht. cbn [default from_option id].
    assert (HG : ∀ d, dict_get (TYPE_GROUPS ft) e d = g)
      by (intros; unfold dict_get; by rewrite Hg).
    assert (Hgi' : dict_getitem (GROUP_ICONS ft) g = Ok (gd, gi))
      by by apply dict_getitem_Ok.
    rewrite !HG, !Hgi'. cbn [mbind result_bind fst snd].
    assert (Hfolder' : dict_getitem (GROUP_ICONS ft) "folder" = Ok (fd, fic))
      by by apply dict_getitem_Ok.
    assert (Hlook : ∀ info, fi_group info = g → fi_icon info = gi →
      GROUP_ICONS ft !! (if os_path_isdir w path then "folder" else "file")%string
        = Some (bd, bi) →
      fi_desc info = match dict_get (FILE_EXTS ft) e gd with
                     | Some d => Some d
                     | None => bd
                     end →
      looked_up_under ft (if os_path_isdir w path then "folder" else "file") e info).
    { intros info Hig Hii Hb Hid. split; [by rewrite Hig|].
      exists gd, gi, bd, bi. by rewrite Hig. }
    assert (Hb : GROUP_ICONS ft !! (if os_path_isdir w path then "folder" else "file")%string
                 = Some (bd, bi)).
    { by apply dict_getitem_Ok. }
    destruct (dict_get (FILE_EXTS ft) e gd) as [d|] eqn:Hfe;
      cbn [mbind result_bind fst snd];
      destruct (os_path_isdir w path) eqn:Hdir;
      destruct (is_bundle_ext (Some e)) eqn:Hbun;
      cbn [String.eqb Ascii.eqb Bool.eqb negb andb mbind result_bind];
      rewrite ?Hfolder'; cbn [mbind result_bind];
      (eexists; split; [reflexivity|]; split; [reflexivity|]; intros _;
       split; [exact Hg|]; cbn [fi_desc fi_icon fi_group];
       first [ assumption | apply Hlook; cbn; congruence ]).
Qed.

Lemma sample_filetypes_wf : filetypes_wf sample_filetypes.
Proof.
  split_and!; [by vm_compute; eexists..|].
  apply map_Forall_to_list. vm_compute.
  repeat (constructor; [by eexists|]). constructor.
Qed.

Lemma get_fileinfo_suffix_lookup_witness :
  ∃ info,
    get_fileinfo sample_world sample_filetypes "/tmp/Proj.PY" = Ok info ∧
    fi_ext info = Some "py" ∧
    ("py" ≠ "" →
     TYPE_GROUPS sample_filetypes !! "py" = Some (fi_group info) ∧
     if os_path_isdir sample_world "/tmp/Proj.PY" && negb (is_bundle_ext (Some "py"))
     then GROUP_ICONS sample_filetypes !! "folder" = Some (fi_desc info, fi_icon info)
     else looked_up_under sample_filetypes
            (if os_path_isdir sample_world "/tmp/Proj.PY" then "folder" else "file")
            "py" info).
Proof.
  apply (get_fileinfo_suffix_lookup sample_world sample_filetypes "/tmp/Proj.PY" "py").
  - exact sample_filetypes_wf.
  - reflexivity.
  - vm_compute. eexists. reflexivity.
Defined.

(** Well-formed tables make [get_fileinfo] return for every path. *)
Lemma get_fileinfo_total (w : world) (ft : filetypes) (path : string) :
  filetypes_wf ft → ∃ info, get_fileinfo w ft path = Ok info.
Proof.
  intros Hwf. unfold get_fileinfo.
  destruct (OsPath.split path) as [dir name].
  destruct (dict_getitem_wf_base ft (os_path_isdir w path) Hwf) as [[bd bi] Hbase].
  destruct Hwf as (Hfile & [[fd fic] Hfolder%dict_getitem_Ok] & Hgroups).
  rewrite Hbase. cbn [mbind result_bind].
  set (ext := last_known_ext ft _ None).
  assert (Hgrp : ∃ gd gi, dict_getitem (GROUP_ICONS ft)
            (dict_get (TYPE_GROUPS ft) (default "" ext)
               (if os_path_isdir w path then "folder" else "file")) = Ok (gd, gi)).
  { unfold dict_get. destruct (TYPE_GROUPS ft !! default "" ext) as [g|] eqn:Hg.
    - destruct (Hgroups _ _ Hg) as [[gd gi] Hgi%dict_getitem_Ok]. eauto.
    - eauto. }
  destruct Hgrp as (gd & gi & Hgrp).
  destruct (truthy ext).
  - rewrite Hgrp. cbn [mbind result_bind fst snd].
    destruct (dict_get (FILE_EXTS ft) (default "" ext) gd);
      cbn [mbind result_bind];
      destruct (_ && _); rewrite ?Hfolder; cbn; eauto.
  - cbn [mbind result_bind].
    destruct (_ && _); rewrite ?Hfolder; cbn; eauto.
Qed.

(** C4, as written, fails: [/home/proj.py] is a directory and
    [/tmp/proj.py] is not; the two file names are equal, the descriptions
    and icons differ. *)
Lemma get_fileinfo_filename_only_counterexample :
  ¬ filename_only_claim sample_world sample_filetypes "/home/proj.py" "/tmp/proj.py".
Proof.
  intros H.
  specialize (H eq_refl
    (mk_FileInfo "/home" "proj.py" ["proj"; "py"] (Some "py") "code"
                 (Some "Folder") "ionicons-folder-32")
    (mk_FileInfo "/tmp" "proj.py" ["proj"; "py"] (Some "py") "code"
                 (Some "Python Script") "ionicons-code-32")).
  discriminate H; by vm_compute.
Qed.

(** C4 (amended).  For two paths with the same final file name component,
    [get_fileinfo] gives the same [name], [nameparts] and [ext]; when
    [os.path.isdir] moreover gives the same answer on both paths, the two
    calls raise the same exception or return values that agree on every
    field but [dir]. *)
Theorem get_fileinfo_depends_on_name_and_isdir (w : world) (ft : filetypes)
    (p1 p2 : string) :
  (OsPath.split p1).2 = (OsPath.split p2).2 →
  (∀ i1 i2, get_fileinfo w ft p1 = Ok i1 → get_fileinfo w ft p2 = Ok i2 →
            fi_name i1 = fi_name i2 ∧ fi_nameparts i1 = fi_nameparts i2 ∧
            fi_ext i1 = fi_ext i2) ∧
  (os_path_isdir w p1 = os_path_isdir w p2 →
   display_fields <$> get_fileinfo w ft p1 = display_fields <$> get_fileinfo w ft p2).
Proof.
  unfold get_fileinfo.
  destruct (OsPath.split p1) as [d1 n1], (OsPath.split p2) as [d2 n2].
  intros Hn; simpl in Hn; subst n2. unfold mbind, result_bind. split.
  - intros i1 i2 H1 H2.
    repeat match type of H1 with
           | context [match ?x with _ => _ end] => destruct x; try discriminate H1
           end.
    repeat match type of H2 with
           | context [match ?x with _ => _ end] => destruct x; try discriminate H2
           end.
    all: by simplify_eq.
  - intros ->.
    repeat match goal with
           | |- context [match ?x with _ => _ end] => destruct x; try reflexivity
           end.
Qed.

Lemma get_fileinfo_depends_on_name_and_isdir_witness :
  (∀ i1 i2, get_fileinfo sample_world sample_filetypes "/tmp/main.py" = Ok i1 →
            get_fileinfo sample_world sample_filetypes "/var/main.py" = Ok i2 →
            fi_name i1 = fi_name i2 ∧ fi_nameparts i1 = fi_nameparts i2 ∧
            fi_ext i1 = fi_ext i2) ∧
  (os_path_isdir sample_world "/tmp/main.py" = os_path_isdir sample_world "/var/main.py" →
   display_fields <$> get_fileinfo sample_world sample_filetypes "/tmp/main.py" =
   display_fields <$> get_fileinfo sample_world sample_filetypes "/var/main.py").
Proof.
  apply (get_fileinfo_depends_on_name_and_isdir sample_world sample_filetypes
           "/tmp/main.py" "/var/main.py").
  reflexivity.
Defined.

(** ** [format_size] *)

Section format_size_facts.

Lemma pow_1024 (k : Z) : 0 ≤ k → 1024 ^ k = 2 ^ (10 * k).
Proof. intros Hk. by rewrite Z.pow_mul_r by lia. Qed.

(** Comparing a scaled value with 1024 is comparing the unscaled integer
    with the next power of 1024. *)
Lemma ltb_scaled (m e j : Z) :
  0 ≤ e → 0 ≤ j →
  PyFloat.ltb (PyFloat.mk m (e - 10 * j)) 1024 = (m * 2 ^ e <? 1024 ^ (j + 1)).
Proof.
  intros He Hj. unfold PyFloat.ltb; cbn [PyFloat.Fexp PyFloat.Fnum].
  rewrite pow_1024 by lia.
  destruct (Z.leb_spec 0 (e - 10 * j)) as [Hpos | Hneg].
  - replace e with ((e - 10 * j) + 10 * j) at 2 by lia.
    replace (10 * (j + 1)) with (10 + 10 * j) by lia.
    rewrite !Z.pow_add_r by lia. rewrite Z.mul_assoc.
    assert (0 < 2 ^ (10 * j)) by (apply Z.pow_pos_nonneg; lia).
    change (2 ^ 10) with 1024.
    destruct (Z.ltb_spec (m * 2 ^ (e - 10 * j)) 1024),
             (Z.ltb_spec (m * 2 ^ (e - 10 * j) * 2 ^ (10 * j)) (1024 * 2 ^ (10 * j)));
      try reflexivity; nia.
  - replace (10 * (j + 1)) with (10 + (- (e - 10 * j)) + e) by lia.
    rewrite !Z.pow_add_r by lia.
    assert (0 < 2 ^ e) by (apply Z.pow_pos_nonneg; lia).
    change (2 ^ 10) with 1024.
    destruct (Z.ltb_spec m (1024 * 2 ^ (- (e - 10 * j)))),
             (Z.ltb_spec (m * 2 ^ e) (1024 * 2 ^ (- (e - 10 * j)) * 2 ^ e));
      try reflexivity; nia.
Qed.

(** The loop stops at the first suffix at which the value is below
    1024, and at the last suffix when there is none. *)
Lemma format_size_loop_spec (m e : Z) :
  0 ≤ e →
  ∀ (suffixes : list string) (j : nat) (s0 : option string) x' s',
    suffixes ≠ [] →
    1024 ^ (Z.of_nat j + 1) ≤ m * 2 ^ e →
    format_size_loop suffixes (PyFloat.mk m (e - 10 * Z.of_nat j)) s0 = (x', s') →
    ∃ (i : nat) (suffix : string),
      suffixes !! i = Some suffix ∧ s' = Some suffix ∧
      x' = PyFloat.mk m (e - 10 * Z.of_nat (j + i + 1)) ∧
      1024 ^ Z.of_nat (j + i + 1) ≤ m * 2 ^ e ∧
      (m * 2 ^ e < 1024 ^ (Z.of_nat (j + i + 1) + 1) ∨ S i = length suffixes).
Proof.
  intros He suffixes. induction suffixes as [|s rest IH]; [done|].
  intros j s0 x' s' _ Hge Hloop. cbn [format_size_loop] in Hloop.
  unfold PyFloat.div_1024 in Hloop; cbn [PyFloat.Fnum PyFloat.Fexp] in Hloop.
  replace (e - 10 * Z.of_nat j - 10) with (e - 10 * Z.of_nat (S j)) in Hloop by lia.
  rewrite ltb_scaled in Hloop by lia.
  destruct (Z.ltb_spec (m * 2 ^ e) (1024 ^ (Z.of_nat (S j) + 1))) as [Hlt | Hnlt].
  - injection Hloop as <- <-. exists O, s.
    replace (j + 0 + 1)%nat with (S j) by lia.
    split_and!; try done; [| by left].
    by replace (Z.of_nat (S j)) with (Z.of_nat j + 1) by lia.
  - destruct rest as [|s2 rest'].
    + injection Hloop as <- <-. exists O, s.
      replace (j + 0 + 1)%nat with (S j) by lia.
      split_and!; try done; [| by right].
      by replace (Z.of_nat (S j)) with (Z.of_nat j + 1) by lia.
    + destruct (IH (S j) (Some s) x' s') as (i & suffix & Hi & Hs & Hx & Hlo & Hhi);
        [done | done | done |].
      exists (S i), suffix.
      replace (j + S i + 1)%nat with (S j + i + 1)%nat by lia.
      split_and!; try done.
      destruct Hhi as [Hhi | Hhi]; [by left | right; cbn in *; lia].
Qed.

Lemma append_empty_r (s : string) : s +:+ "" = s.
Proof.
  induction s as [|c s IH]; [done|].
  change (String c (s +:+ "") = String c s). by rewrite IH.
Qed.

End format_size_facts.

Section of_int_facts.

(** Integers below [2^53] convert without rounding. *)
Lemma of_int_exact (n : Z) :
  0 ≤ n < 2 ^ 53 → PyFloat.of_int n = Ok (PyFloat.mk n 0).
Proof.
  intros [Hlo Hhi]. unfold PyFloat.of_int, PyFloat.bit_length.
  rewrite Z.abs_eq by done.
  destruct (Z.eqb_spec n 0) as [-> | Hn]; [done|].
  assert (Z.log2 n < 53) by (apply Z.log2_lt_pow2; lia).
  destruct (Z.leb_spec (Z.log2 n + 1) 53); [done | lia].
Qed.

(** The quotient kept by the rounding has exactly 53 bits. *)
Lemma of_int_quotient_bounds (n : Z) :
  0 < n → 53 < Z.log2 n + 1 →
  2 ^ 52 ≤ n / 2 ^ (Z.log2 n + 1 - 53) < 2 ^ 53.
Proof.
  intros Hn Hbits.
  destruct (Z.log2_spec n Hn) as [Hlo Hhi].
  assert (Hp : 0 < 2 ^ (Z.log2 n + 1 - 53)) by (apply Z.pow_pos_nonneg; lia).
  split.
  - apply Z.div_le_lower_bound; [done|].
    rewrite <- Z.pow_add_r by lia.
    by replace (Z.log2 n + 1 - 53 + 52) with (Z.log2 n) by lia.
  - apply Z.div_lt_upper_bound; [done|].
    rewrite <- Z.pow_add_r by lia.
    by replace (Z.log2 n + 1 - 53 + 53) with (Z.succ (Z.log2 n)) by lia.
Qed.

(** What [float(n)] is for a size of at least 1024: a non-negative
    mantissa, a non-negative exponent, and a value of at least 1024. *)
Lemma of_int_shape (n : Z) (x : PyFloat.float) :
  1024 ≤ n → PyFloat.of_int n = Ok x →
  0 ≤ PyFloat.Fexp x ∧ 1024 ≤ float_value x.
Proof.
  intros Hn. unfold PyFloat.of_int, PyFloat.bit_length, float_value.
  rewrite Z.abs_eq by lia.
  destruct (Z.eqb_spec n 0) as [-> | _]; [lia|].
  destruct (Z.leb_spec (Z.log2 n + 1) 53) as [_ | Hbits].
  { intros [= <-]. cbn. lia. }
  destruct (of_int_quotient_bounds n ltac:(lia) Hbits) as [Hq _].
  set (sh := Z.log2 n + 1 - 53) in *.
  set (q' := if orb _ _ then _ + 1 else _).
  assert (Hq' : 2 ^ 52 ≤ q') by (subst q'; destruct (_ || _); lia).
  destruct (_ <=? _); [done|]. intros [= <-]. cbn.
  rewrite Z.sgn_pos by lia.
  assert (0 < 2 ^ sh) by (apply Z.pow_pos_nonneg; lia).
  split; [lia|]. change (2 ^ 52) with 4503599627370496 in Hq'. nia.
Qed.

(** Sizes below [2^1023] are in the range of [float]. *)
Lemma of_int_returns (n : Z) :
  0 ≤ n < 2 ^ 1023 → ∃ x, PyFloat.of_int n = Ok x.
Proof.
  intros [Hlo Hhi]. unfold PyFloat.of_int, PyFloat.bit_length.
  rewrite Z.abs_eq by lia.
  destruct (Z.eqb_spec n 0) as [-> | Hn0]; [by eexists|].
  destruct (Z.leb_spec (Z.log2 n + 1) 53) as [_ | Hbits]; [by eexists|].
  destruct (of_int_quotient_bounds n ltac:(lia) Hbits) as [_ Hq].
  assert (Hlog : Z.log2 n < 1023) by (apply Z.log2_lt_pow2; lia).
  set (sh := Z.log2 n + 1 - 53) in *.
  set (q' := if orb _ _ then _ + 1 else _).
  assert (Hq' : q' ≤ 2 ^ 53) by (subst q'; destruct (_ || _); lia).
  assert (Hsh : 0 < 2 ^ sh) by (apply Z.pow_pos_nonneg; lia).
  assert (Hprod : q' * 2 ^ sh ≤ 2 ^ 1023).
  { transitivity (2 ^ 53 * 2 ^ sh); [nia|].
    rewrite <- Z.pow_add_r by lia. apply Z.pow_le_mono_r; lia. }
  assert (Hlt : 2 ^ 1023 < 2 ^ 1024) by (apply Z.pow_lt_mono_r; lia).
  destruct (Z.leb_spec (2 ^ 1024) (q' * 2 ^ sh)); [lia | by eexists].
Qed.

(** Integers from [2^1024] on are out of the range of [float]. *)
Lemma of_int_overflow (n : Z) : 2 ^ 1024 ≤ n → PyFloat.of_int n = Raise OverflowError.
Proof.
  intros Hn. unfold PyFloat.of_int, PyFloat.bit_length.
  assert (Hpos : 0 < n) by (assert (0 < 2 ^ 1024) by (by apply Z.pow_pos_nonneg); lia).
  rewrite Z.abs_eq by lia.
  destruct (Z.eqb_spec n 0) as [-> | _]; [lia|].
  assert (Hlog : 1024 ≤ Z.log2 n) by (apply Z.log2_le_pow2; [done | lia]).
  destruct (Z.leb_spec (Z.log2 n + 1) 53) as [? | Hbits]; [lia|].
  destruct (of_int_quotient_bounds n Hpos Hbits) as [Hq _].
  set (sh := Z.log2 n + 1 - 53) in *.
  set (q' := if orb _ _ then _ + 1 else _).
  assert (Hq' : 2 ^ 52 ≤ q') by (subst q'; destruct (_ || _); lia).
  assert (Hsh : 0 < 2 ^ sh) by (apply Z.pow_pos_nonneg; lia).
  assert (Hprod : 2 ^ 1024 ≤ q' * 2 ^ sh).
  { transitivity (2 ^ 52 * 2 ^ sh); [|nia].
    rewrite <- Z.pow_add_r by lia. apply Z.pow_le_mono_r; lia. }
  by destruct (Z.leb_spec (2 ^ 1024) (q' * 2 ^ sh)); [|lia].
Qed.

(** The conversion of an integer of 1024 bits: 53 bits are kept and the
    971 bits below them are rounded, ties to even. *)
Lemma of_int_1024_bits (n : Z) :
  2 ^ 1023 ≤ n < 2 ^ 1024 →
  PyFloat.of_int n =
    let q := n / 2 ^ 971 in
    let r := n mod 2 ^ 971 in
    let q' := if (2 ^ 970 <? r) || ((r =? 2 ^ 970) && Z.odd q) then q + 1 else q in
    if 2 ^ 1024 <=? q' * 2 ^ 971 then Raise OverflowError else Ok (PyFloat.mk q' 971).
Proof.
  intros [Hlo Hhi].
  assert (Hpos : 0 < n) by (assert (0 < 2 ^ 1023) by (by apply Z.pow_pos_nonneg); lia).
  assert (Hlog : Z.log2 n = 1023) by (by apply Z.log2_unique).
  unfold PyFloat.of_int, PyFloat.bit_length.
  rewrite Z.abs_eq by lia.
  destruct (Z.eqb_spec n 0) as [-> | _]; [lia|].
  rewrite Hlog, Z.sgn_pos by done.
  change (1023 + 1 <=? 53) with false. cbv iota.
  change (1023 + 1 - 53) with 971. change (971 - 1) with 970.
  cbv zeta. by rewrite Z.mul_1_l.
Qed.

(** The integers that [float] accepts are those below [2^1024 - 2^970]:
    from there on the 53 bits kept are all ones and are rounded up. *)
Lemma of_int_returns_below_max (n : Z) :
  0 ≤ n < 2 ^ 1024 - 2 ^ 970 → ∃ x, PyFloat.of_int n = Ok x.
Proof.
  intros [Hlo Hhi].
  destruct (Z.lt_ge_cases n (2 ^ 1023)) as [Hsmall | Hbig].
  { by apply of_int_returns. }
  assert (HP : 0 < 2 ^ 970) by (by apply Z.pow_pos_nonneg).
  assert (E971 : 2 ^ 971 = 2 * 2 ^ 970) by (by rewrite <- Z.pow_succ_r).
  assert (E1024 : 2 ^ 1024 = 18014398509481984 * 2 ^ 970)
    by (change 18014398509481984 with (2 ^ 54); by rewrite <- Z.pow_add_r).
  rewrite of_int_1024_bits by lia. cbv zeta.
  pose proof (Z.div_mod n (2 ^ 971) ltac:(lia)) as Hdm.
  pose proof (Z.mod_pos_bound n (2 ^ 971) ltac:(lia)) as Hr.
  revert Hdm Hr. generalize (n / 2 ^ 971) (n mod 2 ^ 971). intros q r Hdm Hr.
  rewrite E971 in *. rewrite E1024 in *.
  revert HP Hhi Hbig Hdm Hr. generalize (2 ^ 970). intros P HP Hhi Hbig Hdm Hr.
  destruct (Z.ltb_spec P r) as [Hgt | Hle]; cbn [orb].
  - destruct (Z.leb_spec (18014398509481984 * P) ((q + 1) * (2 * P))); [nia | by eexists].
  - destruct (Z.eqb_spec r P) as [-> | Hne]; cbn [andb].
    + destruct (Z.odd q).
      * destruct (Z.leb_spec (18014398509481984 * P) ((q + 1) * (2 * P)));
          [nia | by eexists].
      * destruct (Z.leb_spec (18014398509481984 * P) (q * (2 * P))); [nia | by eexists].
    + destruct (Z.leb_spec (18014398509481984 * P) (q * (2 * P))); [nia | by eexists].
Qed.

Lemma of_int_overflow_from_max (n : Z) :
  2 ^ 1024 - 2 ^ 970 ≤ n → PyFloat.of_int n = Raise OverflowError.
Proof.
  intros Hlo.
  destruct (Z.lt_ge_cases n (2 ^ 1024)) as [Hhi | Hbig]; [|by apply of_int_overflow].
  assert (HP : 0 < 2 ^ 970) by (by apply Z.pow_pos_nonneg).
  assert (E971 : 2 ^ 971 = 2 * 2 ^ 970) by (by rewrite <- Z.pow_succ_r).
  assert (E1023 : 2 ^ 1023 = 9007199254740992 * 2 ^ 970)
    by (change 9007199254740992 with (2 ^ 53); by rewrite <- Z.pow_add_r).
  assert (E1024 : 2 ^ 1024 = 18014398509481984 * 2 ^ 970)
    by (change 18014398509481984 with (2 ^ 54); by rewrite <- Z.pow_add_r).
  rewrite of_int_1024_bits by lia. cbv zeta.
  pose proof (Z.div_mod n (2 ^ 971) ltac:(lia)) as Hdm.
  pose proof (Z.mod_pos_bound n (2 ^ 971) ltac:(lia)) as Hr.
  revert Hdm Hr. generalize (n / 2 ^ 971) (n mod 2 ^ 971). intros q r Hdm Hr.
  rewrite E971 in *. rewrite E1024 in *. clear E1023 E971 E1024.
  revert HP Hlo Hhi Hdm Hr. generalize (2 ^ 970). intros P HP Hlo Hhi Hdm Hr.
  assert (Hq : q = 9007199254740991) by nia. subst q.
  change (Z.odd 9007199254740991) with true.
  assert (Hup : (P <? r) || ((r =? P) && true) = true).
  { destruct (Z.ltb_spec P r); [done|]. destruct (Z.eqb_spec r P); [done | lia]. }
  rewrite Hup.
  by destruct (Z.leb_spec (18014398509481984 * P) ((9007199254740991 + 1) * (2 * P)));
    [|lia].
Qed.

End of_int_facts.

(** C2, as written, fails where no unit fits and where the conversion to
    [float] rounds or fails.  From [1024^9] on no unit of the table brings
    the value below 1024, and [YiB] is used.  [2^60 - 1], which is below
    1024 PiB, is rounded to [2^60] by the conversion and shown as one
    EiB.  And [2^1024] is not in the range of [float]. *)
Lemma format_size_counterexample :
  format_size (1024 ^ 9) false = Ok "1024.00 YiB" ∧ ¬ format_size_claim (1024 ^ 9) false ∧
  format_size (2 ^ 60 - 1) false = Ok "1.00 EiB" ∧ ¬ format_size_claim (2 ^ 60 - 1) false ∧
  format_size (2 ^ 1024) false = Raise OverflowError ∧ ¬ format_size_claim (2 ^ 1024) false.
Proof.
  assert (Hcases : ∀ size longf, format_size_claim size longf →
    ∃ (k : nat) (suffix : string),
      (k < 9)%nat ∧ SIZE_SUFFIXES !! k = Some suffix ∧
      size < 1024 ^ (Z.of_nat k + 1) ∧
      (k ≠ O → 1024 ^ Z.of_nat k ≤ size) ∧
      format_size size longf =
        Ok (scaled_text size k +:+ " " +:+ suffix +:+ bytes_in_parentheses size longf)).
  { intros size longf (k & suffix & Hk & Hrest). exists k, suffix.
    split; [|done]. by apply lookup_lt_Some in Hk. }
  split_and!.
  - by vm_compute.
  - intros (k & suffix & Hk9 & Hk & Hlt & Hge & Heq)%Hcases.
    destruct k as [|[|[|[|[|[|[|[|[|k]]]]]]]]]; [..|lia];
      injection Hk as <-;
      first [ vm_compute in Hlt; discriminate Hlt
            | vm_compute in Heq; discriminate Heq ].
  - by vm_compute.
  - intros (k & suffix & Hk9 & Hk & Hlt & Hge & Heq)%Hcases.
    destruct k as [|[|[|[|[|[|[|[|[|k]]]]]]]]]; [..|lia];
      injection Hk as <-;
      first [ vm_compute in Heq; discriminate Heq
            | specialize (Hge ltac:(lia)); vm_compute in Hge; exfalso; apply Hge;
              reflexivity ].
  - by vm_compute.
  - intros (k & suffix & _ & _ & _ & Heq).
    assert (Hover : format_size (2 ^ 1024) false = Raise OverflowError) by (by vm_compute).
    rewrite Hover in Heq. discriminate Heq.
Qed.

(** C2 (amended).  With [longf] false, a size below 1024 is shown
    exactly, with the suffix [bytes].  A size from 1024 on that [float]
    accepts, which is every size below [2^1024 - 2^970], is first converted
    to a float, exactly when it is below [2^53]; it is shown to two
    decimals in the first unit from KiB on at which the converted value is
    below 1024, or in YiB when there is none, and for [longf] the size in
    bytes follows in parentheses.  From [2^1024 - 2^970] on the conversion
    raises [OverflowError]. *)
Theorem format_size_units (size : Z) (longf : bool) :
  (size < 1024 → format_size size false = Ok (pretty size +:+ " bytes")) ∧
  (0 ≤ size < 2 ^ 53 → PyFloat.of_int size = Ok (PyFloat.mk size 0)) ∧
  (1024 ≤ size < 2 ^ 1024 - 2 ^ 970 →
   ∃ (x : PyFloat.float) (k : nat) (suffix : string),
     PyFloat.of_int size = Ok x ∧ 0 ≤ PyFloat.Fexp x ∧
     SIZE_SUFFIXES !! k = Some suffix ∧ k ≠ O ∧
     1024 ^ Z.of_nat k ≤ float_value x ∧
     (float_value x < 1024 ^ (Z.of_nat k + 1) ∨ k = 8%nat) ∧
     format_size size longf =
       Ok (PyFloat.format_2f (PyFloat.mk (PyFloat.Fnum x) (PyFloat.Fexp x - 10 * Z.of_nat k))
           +:+ " " +:+ suffix +:+ bytes_in_parentheses size longf)) ∧
  (2 ^ 1024 - 2 ^ 970 ≤ size → format_size size longf = Raise OverflowError).
Proof.
  split_and!.
  - intros Hlt. unfold format_size.
    by destruct (Z.ltb_spec size 1024); [|lia].
  - apply of_int_exact.
  - intros [Hlo Hhi].
    destruct (of_int_returns_below_max size ltac:(lia)) as [x Hx].
    destruct (of_int_shape size x Hlo Hx) as [Hexp Hval].
    unfold format_size. destruct (Z.ltb_spec size 1024); [lia|].
    rewrite Hx. cbn [mbind result_bind].
    destruct (format_size_loop (tail SIZE_SUFFIXES) x None) as [x' s'] eqn:Hloop.
    destruct (format_size_loop_spec (PyFloat.Fnum x) (PyFloat.Fexp x) Hexp
                (tail SIZE_SUFFIXES) 0 None x' s')
      as (i & suffix & Hi & -> & -> & Hge & Hstop).
    { done. }
    { exact Hval. }
    { rewrite <- Hloop. f_equal. destruct x; cbn. f_equal. lia. }
    exists x, (S i), suffix.
    replace (0 + i + 1)%nat with (S i) in * by lia.
    split_and!; [done | exact Hexp | exact Hi | done | exact Hge | exact Hstop |].
    f_equal. destruct longf; cbn [bytes_in_parentheses]; [done|].
    by rewrite append_empty_r.
  - intros Hbig. unfold format_size.
    assert (1024 < 2 ^ 1024 - 2 ^ 970) by (by vm_compute).
    destruct (Z.ltb_spec size 1024); [lia|].
    by rewrite of_int_overflow_from_max.
Qed.

Lemma format_size_units_witness :
  format_size 5 false = Ok "5 bytes" ∧
  PyFloat.of_int 1536 = Ok (PyFloat.mk 1536 0) ∧
  (∃ (x : PyFloat.float) (k : nat) (suffix : string),
     PyFloat.of_int (2 ^ 1023 + 1) = Ok x ∧ 0 ≤ PyFloat.Fexp x ∧
     SIZE_SUFFIXES !! k = Some suffix ∧ k ≠ O ∧
     1024 ^ Z.of_nat k ≤ float_value x ∧
     (float_value x < 1024 ^ (Z.of_nat k + 1) ∨ k = 8%nat) ∧
     format_size (2 ^ 1023 + 1) true =
       Ok (PyFloat.format_2f (PyFloat.mk (PyFloat.Fnum x) (PyFloat.Fexp x - 10 * Z.of_nat k))
           +:+ " " +:+ suffix +:+ bytes_in_parentheses (2 ^ 1023 + 1) true)) ∧
  format_size (2 ^ 1024 - 2 ^ 970) true = Raise OverflowError.
Proof.
  destruct (format_size_units 5 false) as (H5 & _ & _ & _).
  destruct (format_size_units 1536 true) as (_ & Hexact & _ & _).
  destruct (format_size_units (2 ^ 1023 + 1) true) as (_ & _ & Hunits & _).
  destruct (format_size_units (2 ^ 1024 - 2 ^ 970) true) as (_ & _ & _ & Hover).
  split_and!.
  - apply H5. lia.
  - apply Hexact. lia.
  - apply Hunits. split; by vm_compute.
  - apply Hover. lia.
Defined.

(** Worked values, among them a tie that the two decimals round to even
    and a size that the conversion to [float] rounds. *)
Example format_size_examples :
  format_size 1536 true = Ok "1.50 KiB (1536 bytes)" ∧
  format_size 1048575 false = Ok "1024.00 KiB" ∧
  format_size 123456789 true = Ok "117.74 MiB (123456789 bytes)" ∧
  format_size 1029 false = Ok "1.00 KiB" ∧
  format_size (2 ^ 53 + 1) false = Ok "8.00 PiB" ∧
  format_size (2 ^ 1024 - 2 ^ 970) false = Raise OverflowError ∧
  format_size (2 ^ 1024) false = Raise OverflowError.
Proof. by vm_compute. Qed.

(** ** Python list operations at a valid index *)

Section PyList_facts.
Context {A : Type}.
Implicit Types (l : list A) (i : Z).

Lemma PyList_index_valid l i :
  0 ≤ i < Z.of_nat (length l) → PyList.index l i = Ok (Z.to_nat i).
Proof.
  intros [Hlo Hhi]. unfold PyList.index.
  destruct (Z.ltb_spec i 0); [lia|].
  destruct (Z.ltb_spec i 0); [lia|].
  by destruct (Z.leb_spec (Z.of_nat (length l)) i); [lia|].
Qed.

Lemma PyList_delitem_valid l i :
  0 ≤ i < Z.of_nat (length l) → PyList.delitem l i = Ok (delete (Z.to_nat i) l).
Proof. intros Hi. unfold PyList.delitem. by rewrite PyList_index_valid. Qed.

Lemma PyList_getitem_valid l i :
  0 ≤ i < Z.of_nat (length l) →
  ∃ x, l !! Z.to_nat i = Some x ∧ PyList.getitem l i = Ok x.
Proof.
  intros Hi. unfold PyList.getitem. rewrite PyList_index_valid by done.
  destruct (lookup_lt_is_Some_2 l (Z.to_nat i)) as [x Hx]; [lia|].
  exists x. cbn. by rewrite Hx.
Qed.

Lemma PyList_pop_valid l i :
  0 ≤ i < Z.of_nat (length l) →
  ∃ x, l !! Z.to_nat i = Some x ∧ PyList.pop l i = Ok (x, delete (Z.to_nat i) l).
Proof.
  intros Hi. unfold PyList.pop. rewrite PyList_index_valid by done.
  destruct (lookup_lt_is_Some_2 l (Z.to_nat i)) as [x Hx]; [lia|].
  exists x. cbn. by rewrite Hx.
Qed.

Lemma PyList_setitem_valid l i x :
  0 ≤ i < Z.of_nat (length l) → PyList.setitem l i x = Ok (<[Z.to_nat i := x]> l).
Proof. intros Hi. unfold PyList.setitem. by rewrite PyList_index_valid. Qed.

Lemma PyList_insert_valid l i x :
  0 ≤ i ≤ Z.of_nat (length l) →
  PyList.insert l i x = take (Z.to_nat i) l ++ x :: drop (Z.to_nat i) l.
Proof.
  intros [Hlo Hhi]. unfold PyList.insert.
  destruct (Z.ltb_spec i 0); [lia|]. by rewrite Z.min_l by lia.
Qed.

(** Inserting [x] at [k] puts it at index [k] and leaves the others in
    their order. *)
Lemma insert_at_lookup l (k : nat) x :
  (k ≤ length l)%nat → (take k l ++ x :: drop k l) !! k = Some x.
Proof.
  intros Hk. rewrite lookup_app_r by (rewrite length_take_le; lia).
  rewrite length_take_le by done. by rewrite Nat.sub_diag.
Qed.

Lemma insert_at_delete l (k : nat) x :
  (k ≤ length l)%nat → delete k (take k l ++ x :: drop k l) = l.
Proof.
  intros Hk. pose proof (delete_middle (take k l) (drop k l) x) as Hmid.
  rewrite length_take_le in Hmid by done. by rewrite Hmid, take_drop.
Qed.

Lemma insert_at_Permutation l (k : nat) x :
  take k l ++ x :: drop k l ≡ₚ x :: l.
Proof. by rewrite <- Permutation_middle, take_drop. Qed.

End PyList_facts.

(** ** FavoritesDataSource *)

(** C5.  On a row index within the list, [tableview_delete] returns
    normally; the entry at that row is removed, the entries before it keep
    their index and those after it move up by one, so the length drops by
    one; the table view is told to delete the row, and the source file
    then holds the new list. *)
Theorem tableview_delete_removes_row (s : fav_state) (row : Z) :
  0 ≤ row < Z.of_nat (length (entries (fav_self s))) →
  ∃ s',
    FavoritesDataSource_tableview_delete row s = (Ok tt, s') ∧
    entries (fav_self s') = delete (Z.to_nat row) (entries (fav_self s)) ∧
    S (length (entries (fav_self s'))) = length (entries (fav_self s)) ∧
    (∀ i : nat, (i < Z.to_nat row)%nat →
       entries (fav_self s') !! i = entries (fav_self s) !! i) ∧
    (∀ i : nat, (Z.to_nat row ≤ i)%nat →
       entries (fav_self s') !! i = entries (fav_self s) !! S i) ∧
    src (fav_self s') = src (fav_self s) ∧
    fav_disk s' = <[src (fav_self s) := entries (fav_self s')]> (fav_disk s) ∧
    fav_disk s' !! src (fav_self s') = Some (entries (fav_self s')) ∧
    fav_calls s' = fav_calls s ++ [tableview_delete_rows [row]].
Proof.
  intros Hrow. destruct s as [[sr es] disk calls]; cbn in *.
  eexists. split.
  { unfold FavoritesDataSource_tableview_delete, mbind, SE_bind, get_state,
      lift_result; cbn.
    rewrite PyList_delitem_valid by done. reflexivity. }
  cbn. split_and!; try done.
  - rewrite length_delete by (apply lookup_lt_is_Some_2; lia).
    assert (0 < length es)%nat by lia. lia.
  - intros i Hi. by apply list_lookup_delete_lt.
  - intros i Hi. by apply list_lookup_delete_ge.
  - by rewrite lookup_insert_eq.
Qed.

(** C6.  On two row indices within the list, [tableview_move_row] returns
    normally; the new list is the old one with the entry of [from_row]
    taken out and put back at index [to_row]: it is a permutation of the
    old list, of the same length, and the other entries keep their
    relative order; the source file then holds the new list. *)
Theorem tableview_move_row_reorders (s : fav_state) (from_row to_row : Z) :
  0 ≤ from_row < Z.of_nat (length (entries (fav_self s))) →
  0 ≤ to_row < Z.of_nat (length (entries (fav_self s))) →
  ∃ x s',
    entries (fav_self s) !! Z.to_nat from_row = Some x ∧
    FavoritesDataSource_tableview_move_row from_row to_row s = (Ok tt, s') ∧
    entries (fav_self s') !! Z.to_nat to_row = Some x ∧
    delete (Z.to_nat to_row) (entries (fav_self s')) =
      delete (Z.to_nat from_row) (entries (fav_self s)) ∧
    entries (fav_self s') ≡ₚ entries (fav_self s) ∧
    length (entries (fav_self s')) = length (entries (fav_self s)) ∧
    src (fav_self s') = src (fav_self s) ∧
    fav_disk s' = <[src (fav_self s) := entries (fav_self s')]> (fav_disk s) ∧
    fav_disk s' !! src (fav_self s') = Some (entries (fav_self s')) ∧
    fav_calls s' = fav_calls s.
Proof.
  intros Hfrom Hto. destruct s as [[sr es] disk calls]; cbn in *.
  destruct (PyList_pop_valid es from_row Hfrom) as (x & Hx & Hpop).
  assert (Hlen : S (length (delete (Z.to_nat from_row) es)) = length es).
  { rewrite length_delete by eauto. assert (0 < length es)%nat by lia. lia. }
  exists x. eexists. split; [done|]. split.
  { unfold FavoritesDataSource_tableview_move_row, mbind, SE_bind, get_state,
      lift_result; cbn.
    rewrite Hpop. cbn. rewrite PyList_insert_valid by lia. reflexivity. }
  cbn. split_and!; try done.
  - apply insert_at_lookup. lia.
  - apply insert_at_delete. lia.
  - rewrite insert_at_Permutation. symmetry. by apply delete_Permutation.
  - apply Permutation_length.
    rewrite insert_at_Permutation. symmetry. by apply delete_Permutation.
  - by rewrite lookup_insert_eq.
Qed.

Lemma tableview_delete_removes_row_witness :
  ∃ s',
    FavoritesDataSource_tableview_delete 1 sample_fav_state = (Ok tt, s') ∧
    entries (fav_self s') = delete (Z.to_nat 1) (entries (fav_self sample_fav_state)) ∧
    S (length (entries (fav_self s'))) = length (entries (fav_self sample_fav_state)) ∧
    (∀ i : nat, (i < Z.to_nat 1)%nat →
       entries (fav_self s') !! i = entries (fav_self sample_fav_state) !! i) ∧
    (∀ i : nat, (Z.to_nat 1 ≤ i)%nat →
       entries (fav_self s') !! i = entries (fav_self sample_fav_state) !! S i) ∧
    src (fav_self s') = src (fav_self sample_fav_state) ∧
    fav_disk s' = <[src (fav_self sample_fav_state) := entries (fav_self s')]>
                    (fav_disk sample_fav_state) ∧
    fav_disk s' !! src (fav_self s') = Some (entries (fav_self s')) ∧
    fav_calls s' = fav_calls sample_fav_state ++ [tableview_delete_rows [1]].
Proof.
  apply (tableview_delete_removes_row sample_fav_state 1).
  by vm_compute.
Defined.

Lemma tableview_move_row_reorders_witness :
  ∃ x s',
    entries (fav_self sample_fav_state) !! Z.to_nat 0 = Some x ∧
    FavoritesDataSource_tableview_move_row 0 2 sample_fav_state = (Ok tt, s') ∧
    entries (fav_self s') !! Z.to_nat 2 = Some x ∧
    delete (Z.to_nat 2) (entries (fav_self s')) =
      delete (Z.to_nat 0) (entries (fav_self sample_fav_state)) ∧
    entries (fav_self s') ≡ₚ entries (fav_self sample_fav_state) ∧
    length (entries (fav_self s')) = length (entries (fav_self sample_fav_state)) ∧
    src (fav_self s') = src (fav_self sample_fav_state) ∧
    fav_disk s' = <[src (fav_self sample_fav_state) := entries (fav_self s')]>
                    (fav_disk sample_fav_state) ∧
    fav_disk s' !! src (fav_self s') = Some (entries (fav_self s')) ∧
    fav_calls s' = fav_calls sample_fav_state.
Proof.
  apply (tableview_move_row_reorders sample_fav_state 0 2); by vm_compute.
Defined.

(** The two operations on the sample list. *)
Example favorites_examples :
  entries (fav_self (FavoritesDataSource_tableview_delete 1 sample_fav_state).2) =
    [("/home", "Home"); ("/tmp", "Temp")] ∧
  entries (fav_self (FavoritesDataSource_tableview_move_row 0 2 sample_fav_state).2) =
    [("/home/Documents", "Documents"); ("/tmp", "Temp"); ("/home", "Home")] ∧
  entries (fav_self (FavoritesDataSource_tableview_move_row 2 0 sample_fav_state).2) =
    [("/tmp", "Temp"); ("/home", "Home"); ("/home/Documents", "Documents")] ∧
  (FavoritesDataSource_tableview_delete 3 sample_fav_state).1 = Raise IndexError.
Proof. by vm_compute. Qed.

(** ** FileItem *)

Section FileItem_facts.
Context (w : world) (ft : filetypes).

(** The table lookups are the only source of exceptions in
    [get_fileinfo]. *)
Lemma dict_getitem_Raise {V} (d : gmap string V) k e :
  dict_getitem d k = Raise e → e = KeyError k.
Proof. unfold dict_getitem. destruct (d !! k); naive_solver. Qed.

Lemma raises_only_KeyError_Ok {A} (a : A) : raises_only_KeyError (Ok a).
Proof. by intros e. Qed.

Lemma raises_only_KeyError_getitem {V} (d : gmap string V) k :
  raises_only_KeyError (dict_getitem d k).
Proof. intros e ->%dict_getitem_Raise. by eexists. Qed.

Lemma raises_only_KeyError_bind {A B} (r : result A) (f : A → result B) :
  raises_only_KeyError r → (∀ a, raises_only_KeyError (f a)) →
  raises_only_KeyError (r ≫= f).
Proof.
  intros Hr Hf e. destruct r as [a | e0]; cbn.
  - apply Hf.
  - intros [= <-]. by apply Hr.
Qed.

Lemma get_fileinfo_raises_KeyError path e :
  get_fileinfo w ft path = Raise e → ∃ k, e = KeyError k.
Proof.
  revert e. change (raises_only_KeyError (get_fileinfo w ft path)).
  unfold get_fileinfo. destruct (OsPath.split path) as [dir name].
  repeat first
    [ apply raises_only_KeyError_Ok
    | apply raises_only_KeyError_getitem
    | apply raises_only_KeyError_bind; [| intros ?]
    | match goal with
      | |- raises_only_KeyError (match ?x with _ => _ end) => destruct x
      end ].
Qed.

(** [reload] step by step: the outcome in terms of what the host
    answers. *)
Lemma FileItem_reload_unfold (self : FileItem) :
  FileItem_reload w ft self =
    match get_fileinfo w ft (path self) with
    | Raise e => (Raise e, self)
    | Ok c =>
        let self1 := set_icon_cached false (set_icon (fi_icon c) (set_constants c self)) in
        match
          match os_stat w (path self) with
          | Ok st => Ok (set_stat (Some st) self1)
          | Raise e => if is_OSError e then Ok (set_stat None self1) else Raise e
          end
        with
        | Raise e => (Raise e, self1)
        | Ok self2 =>
            if os_path_isdir w (path self) then
              match os_listdir w (path self) with
              | Ok names =>
                  (Ok tt, set_contents (Some (VStr <$> names)) (set_basetype 0 self2))
              | Raise e =>
                  if is_OSError e
                  then (Ok tt, set_contents (Some []) (set_basetype 0 self2))
                  else (Raise e, set_basetype 0 self2)
              end
            else (Ok tt, set_contents None (set_basetype 1 self2))
        end
    end.
Proof.
  unfold FileItem_reload, try_except_OSError, mbind, SE_bind, get_state,
    lift_result, modify.
  destruct (get_fileinfo w ft (path self)) as [c | e]; [|done]. cbn.
  destruct (os_stat w (path self)) as [st | e]; cbn.
  - destruct (os_path_isdir w (path self)); cbn; [|done].
    destruct (os_listdir w (path self)) as [names | e]; cbn; [done|].
    by destruct (is_OSError e).
  - destruct (is_OSError e); [|done]. cbn.
    destruct (os_path_isdir w (path self)); cbn; [|done].
    destruct (os_listdir w (path self)) as [names | e']; cbn; [done|].
    by destruct (is_OSError e').
Qed.

End FileItem_facts.

(** [reload] lets no [OSError] through. *)
Lemma FileItem_reload_not_OSError (w : world) (ft : filetypes) (self : FileItem) (e : exn) :
  (FileItem_reload w ft self).1 = Raise e → is_OSError e = false.
Proof.
  rewrite FileItem_reload_unfold.
  destruct (get_fileinfo w ft (path self)) as [c | e0] eqn:Hinfo.
  - cbn zeta.
    destruct (os_stat w (path self)) as [st | e1].
    + destruct (os_path_isdir w (path self)); [|done].
      destruct (os_listdir w (path self)) as [names | e2]; [done|].
      destruct (is_OSError e2) eqn:He2; [done|]. cbn. congruence.
    + destruct (is_OSError e1) eqn:He1; [|cbn; congruence].
      destruct (os_path_isdir w (path self)); [|done].
      destruct (os_listdir w (path self)) as [names | e2]; [done|].
      destruct (is_OSError e2) eqn:He2; [done|]. cbn. congruence.
  - cbn. intros [= <-].
    by destruct (get_fileinfo_raises_KeyError w ft _ _ Hinfo) as [k ->].
Qed.

(** With a host that raises nothing but [OSError], [reload] returns. *)
Lemma FileItem_reload_returns (w : world) (ft : filetypes) (self : FileItem) (c : FileInfo) :
  get_fileinfo w ft (path self) = Ok c →
  (∀ e, os_stat w (path self) = Raise e → is_OSError e = true) →
  (∀ e, os_listdir w (path self) = Raise e → is_OSError e = true) →
  FileItem_reload w ft self = (Ok tt, reloaded w self c).
Proof.
  intros Hc Hstat Hlist. rewrite FileItem_reload_unfold, Hc. cbn zeta. unfold reloaded.
  destruct (os_stat w (path self)) as [st | e1].
  - destruct (os_path_isdir w (path self)); [|done].
    destruct (os_listdir w (path self)) as [names | e2]; [done|].
    by rewrite (Hlist e2 eq_refl).
  - rewrite (Hstat e1 eq_refl).
    destruct (os_path_isdir w (path self)); [|done].
    destruct (os_listdir w (path self)) as [names | e2]; [done|].
    by rewrite (Hlist e2 eq_refl).
Qed.

(** C7.  [reload] never ends with an [OSError].  With well-formed tables
    and a host whose [os.stat] and [os.listdir] raise nothing but
    [OSError], it returns normally: [stat] is the stat result, or [None]
    when [os.stat] raised; for a directory [contents] is the listing, or
    the empty list when [os.listdir] raised. *)
Theorem FileItem_reload_never_raises_OSError (w : world) (ft : filetypes) (self : FileItem) :
  (∀ e, (FileItem_reload w ft self).1 = Raise e → is_OSError e = false) ∧
  (filetypes_wf ft →
   (∀ e, os_stat w (path self) = Raise e → is_OSError e = true) →
   (∀ e, os_listdir w (path self) = Raise e → is_OSError e = true) →
   ∃ c, get_fileinfo w ft (path self) = Ok c ∧
        FileItem_reload w ft self = (Ok tt, reloaded w self c)).
Proof.
  split.
  - intros e. apply FileItem_reload_not_OSError.
  - intros Hwf Hstat Hlist.
    destruct (get_fileinfo_total w ft (path self) Hwf) as [c Hc].
    exists c. split; [done|]. by apply FileItem_reload_returns.
Qed.

Lemma FileItem_reload_never_raises_OSError_witness :
  (∀ e, (FileItem_reload sample_world sample_filetypes
           (blank_FileItem FileItem_class "/private")).1 = Raise e →
        is_OSError e = false) ∧
  ∃ c, get_fileinfo sample_world sample_filetypes "/private" = Ok c ∧
       FileItem_reload sample_world sample_filetypes
         (blank_FileItem FileItem_class "/private") =
       (Ok tt, reloaded sample_world (blank_FileItem FileItem_class "/private") c).
Proof.
  destruct (FileItem_reload_never_raises_OSError sample_world sample_filetypes
              (blank_FileItem FileItem_class "/private")) as [Hnever Hreturns].
  split; [exact Hnever|].
  apply Hreturns.
  - exact sample_filetypes_wf.
  - intros e H. vm_compute in H. discriminate H.
  - intros e H. vm_compute in H. by injection H as <-.
Defined.

(** [reload] on a path that cannot be examined, and on a directory that
    cannot be listed. *)
Example FileItem_reload_examples :
  (let '(r, x) := FileItem_reload sample_world sample_filetypes
                    (blank_FileItem FileItem_class "/missing.txt") in
   (r, stat x, basetype x, contents x)) = (Ok tt, None, 1, None) ∧
  (let '(r, x) := FileItem_reload sample_world sample_filetypes
                    (blank_FileItem FileItem_class "/private") in
   (r, stat x, basetype x, contents x)) =
    (Ok tt, Some (mk_stat 16832 64 0 0), 0, Some []).
Proof. by vm_compute. Qed.

(** C8.  [listdir] returns the cached [contents] exactly when [isdir] is
    true, and raises the [OSError] with [errno] [ENOTDIR] and the path of
    the instance as [filename] exactly when it is false; either way the
    attributes of the instance, and the heap that holds it, are as
    before. *)
Theorem FileItem_listdir_iff_isdir (self : FileItem) :
  (FileItem_isdir self = true ↔
   FileItem_listdir self = (Ok (contents self), self)) ∧
  (FileItem_isdir self = false ↔
   FileItem_listdir self =
     (Raise (OSError ENOTDIR "Not a directory" (Some (path self))), self)) ∧
  (∀ (h : heap) (l : loc),
     h_items h !! l = Some self →
     on_item l FileItem_listdir h = ((FileItem_listdir self).1, h)).
Proof.
  unfold FileItem_listdir, mbind, SE_bind, get_state, mret, SE_ret, raise.
  split_and!.
  - destruct (FileItem_isdir self); split; done.
  - destruct (FileItem_isdir self); split; done.
  - intros h l Hl. unfold on_item, mbind, SE_bind, read_item, write_item, modify,
      lift_result, set_items.
    rewrite Hl. destruct h as [its ls]; cbn in *.
    destruct (FileItem_isdir self); cbn; by rewrite list_insert_id.
Qed.

Lemma FileItem_listdir_iff_isdir_witness :
  on_item 0%nat FileItem_listdir (mk_heap [sample_dir_item] []) =
    ((FileItem_listdir sample_dir_item).1, mk_heap [sample_dir_item] []).
Proof.
  destruct (FileItem_listdir_iff_isdir sample_dir_item) as (_ & _ & Hheap).
  apply Hheap. reflexivity.
Defined.

Example FileItem_listdir_examples :
  (FileItem_listdir (FileItem_reload sample_world sample_filetypes
                       (blank_FileItem FileItem_class "/home/proj.py")).2).1 =
    Ok (Some [VStr "main.py"; VStr "lib"; VStr "index.html"; VStr "beep.wav";
              VStr "logo.png"; VStr "data"]) ∧
  (FileItem_listdir (FileItem_reload sample_world sample_filetypes
                       (blank_FileItem FileItem_class "/tmp/a.txt")).2).1 =
    Raise (OSError 20 "Not a directory" (Some "/tmp/a.txt")).
Proof. by vm_compute. Qed.

(** *** Construction *)

Section FileItem_new_facts.
Context (w : world) (ft : filetypes).

Lemma isinstance_FileItem_ref (h : heap) (l : loc) :
  isinstance_FileItem h (VRef l) = true ↔ is_Some (h_items h !! l).
Proof. cbn. by rewrite bool_decide_eq_true. Qed.

(** A constructor call that returns leaves an instance at the reference
    it returns. *)
Lemma FileItem_new_allocated (cls : pyclass) (arg : value) (h h' : heap) (l : loc) :
  FileItem_new w ft cls arg h = (Ok l, h') → is_Some (h_items h' !! l).
Proof.
  unfold FileItem_new, mbind, SE_bind, get_state, raise, mret, SE_ret.
  destruct (issubclass_FileItem cls); cbn; [|done].
  destruct (isinstance_FileItem h arg) eqn:Hinst.
  - destruct arg as [p | l0]; [done|].
    intros [= <- <-]. by apply isinstance_FileItem_ref.
  - destruct arg as [p | l0]; [|done].
    destruct (FileItem_reload w ft _) as [[[]|e] self]; [|done].
    unfold alloc_item. intros [= <- <-]. cbn.
    rewrite lookup_app_r by done. rewrite Nat.sub_diag. by eexists.
Qed.

End FileItem_new_facts.

(** C9.  For a class [cls] that is [FileItem] or derived from it, calling
    [cls] on a reference to an existing [FileItem] returns that very
    reference and leaves the heap, hence the instance, as it was.  So
    converting the result of a constructor call once more gives the same
    object: [FileItem(FileItem(p))] is [FileItem(p)]. *)
Theorem FileItem_new_identity (w : world) (ft : filetypes) (cls : pyclass) :
  issubclass_FileItem cls = true →
  (∀ (h : heap) (l : loc) (x : FileItem),
     h_items h !! l = Some x →
     FileItem_new w ft cls (VRef l) h = (Ok l, h)) ∧
  (∀ (cls0 : pyclass) (arg : value) (h h' : heap) (l : loc),
     FileItem_new w ft cls0 arg h = (Ok l, h') →
     FileItem_new w ft cls (VRef l) h' = (Ok l, h')).
Proof.
  intros Hcls.
  assert (Hid : ∀ h l, is_Some (h_items h !! l) →
                       FileItem_new w ft cls (VRef l) h = (Ok l, h)).
  { intros h l Hl. unfold FileItem_new. rewrite Hcls. cbn [negb].
    unfold mbind, SE_bind, get_state.
    apply isinstance_FileItem_ref in Hl. by rewrite Hl. }
  split.
  - intros h l x Hl. apply Hid. by eexists.
  - intros cls0 arg h h' l Hnew. apply Hid.
    by eapply FileItem_new_allocated.
Qed.

Lemma FileItem_new_identity_witness :
  (∀ (h : heap) (l : loc) (x : FileItem),
     h_items h !! l = Some x →
     FileItem_new sample_world sample_filetypes (Derived_class "Folder") (VRef l) h
       = (Ok l, h)) ∧
  FileItem_new sample_world sample_filetypes (Derived_class "Folder") (VRef 0%nat)
    (mk_heap [sample_dir_item] []) = (Ok 0%nat, mk_heap [sample_dir_item] []).
Proof.
  destruct (FileItem_new_identity sample_world sample_filetypes (Derived_class "Folder")
              eq_refl) as [Hid Hidem].
  split; [exact Hid|].
  apply (Hidem FileItem_class (VStr "/home/proj.py") empty_heap).
  by vm_compute.
Defined.

(** A class that is not derived from [FileItem] fails the assertion, and a
    path whose tables lack the base groups creates nothing. *)
Example FileItem_new_examples :
  FileItem_new sample_world sample_filetypes (Other_class "str") (VStr "/tmp") empty_heap
    = (Raise AssertionError, empty_heap) ∧
  FileItem_new sample_world (mk_filetypes ∅ ∅ ∅) FileItem_class (VStr "/tmp") empty_heap
    = (Raise (KeyError "file"), empty_heap) ∧
  (FileItem_new sample_world sample_filetypes FileItem_class (VStr "/home/proj.py")
     empty_heap).1 = Ok 0%nat.
Proof. by vm_compute. Qed.

(** ** FileDataSource: selecting a row *)

Section did_select_facts.
Context (w : world) (ft : filetypes).

Lemma is_html_ext_decide (ext : option string) :
  is_html_ext ext = bool_decide (ext = Some "htm" ∨ ext = Some "html").
Proof.
  destruct ext as [e|]; cbn.
  - destruct (String.eqb_spec e "htm") as [-> | Hhtm]; cbn.
    { symmetry. apply bool_decide_eq_true. by left. }
    destruct (String.eqb_spec e "html") as [-> | Hhtml].
    { symmetry. apply bool_decide_eq_true. by right. }
    symmetry. apply bool_decide_eq_false. intros [[= ->] | [= ->]]; done.
  - symmetry. apply bool_decide_eq_false. by intros [|].
Qed.

Lemma is_editor_group_decide (group : string) :
  is_editor_group group =
    bool_decide (group = "code" ∨ group = "code_tags" ∨ group = "text").
Proof.
  unfold is_editor_group.
  destruct (String.eqb_spec group "code") as [-> | H1]; cbn.
  { symmetry. apply bool_decide_eq_true. by left. }
  destruct (String.eqb_spec group "code_tags") as [-> | H2]; cbn.
  { symmetry. apply bool_decide_eq_true. by right; left. }
  destruct (String.eqb_spec group "text") as [-> | H3].
  { symmetry. apply bool_decide_eq_true. by right; right. }
  symmetry. apply bool_decide_eq_false. by intros [| [|]].
Qed.

Lemma String_eqb_decide (a b : string) : String.eqb a b = bool_decide (a = b).
Proof.
  destruct (String.eqb_spec a b) as [-> | Hne]; symmetry.
  - by apply bool_decide_eq_true.
  - by apply bool_decide_eq_false.
Qed.

(** The calls tell the actions apart. *)
Lemma action_calls_inj (a a' : file_action) (p : string) :
  action_calls w a p = action_calls w a' p → a = a'.
Proof. by destruct a, a'. Qed.

End did_select_facts.

(** C3.  Selecting, outside editing mode, a row of section 1 that holds
    the file [it] makes exactly the host calls of one action, the one that
    the rules give for the extension and the group of [it], tested in the
    order browser, editor, sound, image, quick look.  It returns normally
    and changes neither the data source nor the heap. *)
Theorem tableview_did_select_dispatch (w : world) (ft : filetypes) (s : fds_state)
    (ls xs : list loc) (l floc : loc) (row : Z) (it : FileItem) :
  lists (fds_self s) = Some ls →
  ls !! 1%nat = Some l →
  h_lists (fds_heap s) !! l = Some xs →
  0 ≤ row →
  xs !! Z.to_nat row = Some floc →
  h_items (fds_heap s) !! floc = Some it →
  let a := file_action_of (fi_ext (constants it)) (fi_group (constants it)) in
  FileDataSource_tableview_did_select w ft false 1 row s =
    (Ok tt, mk_fds_state (fds_self s) (fds_heap s)
                         (fds_calls s ++ action_calls w a (path it))) ∧
  (∀ a', action_calls w a' (path it) = action_calls w a (path it) → a' = a).
Proof.
  intros Hls Hl Hxs Hrow Hfloc Hit a.
  split; [|intros a' Ha'; by apply (action_calls_inj w) in Ha'].
  destruct s as [self h calls]; cbn in *.
  assert (Hget1 : PyList.getitem ls 1 = Ok l).
  { destruct (PyList_getitem_valid ls 1) as (x & Hx & ->).
    - apply lookup_lt_Some in Hl. lia.
    - change (Z.to_nat 1) with 1%nat in Hx. congruence. }
  assert (Hget2 : PyList.getitem xs row = Ok floc).
  { destruct (PyList_getitem_valid xs row) as (x & Hx & ->).
    - apply lookup_lt_Some in Hfloc. lia.
    - congruence. }
  unfold FileDataSource_tableview_did_select, open_path, fds_call, on_heap, getattr,
    read_list, read_item, mbind, SE_bind, get_state, lift_result, mret, SE_ret, modify.
  cbn. rewrite Hls, Hget1. cbn. rewrite Hxs, Hget2. cbn. rewrite Hit.
  subst a. unfold file_action_of.
  rewrite is_html_ext_decide, is_editor_group_decide, !String_eqb_decide.
  repeat case_bool_decide; repeat case_decide; try done; cbn; by rewrite <- ?app_assoc.
Qed.

Lemma tableview_did_select_dispatch_witness :
  let a := file_action_of (fi_ext (constants (sample_item 3%nat)))
                          (fi_group (constants (sample_item 3%nat))) in
  FileDataSource_tableview_did_select sample_world sample_filetypes false 1 1
      sample_fds_state =
    (Ok tt, mk_fds_state (fds_self sample_fds_state) (fds_heap sample_fds_state)
              (fds_calls sample_fds_state ++
               action_calls sample_world a (path (sample_item 3%nat)))) ∧
  (∀ a', action_calls sample_world a' (path (sample_item 3%nat)) =
         action_calls sample_world a (path (sample_item 3%nat)) → a' = a).
Proof.
  apply (tableview_did_select_dispatch sample_world sample_filetypes sample_fds_state
           [0; 1]%nat [1; 3; 4; 5; 6]%nat 1%nat 3%nat 1 (sample_item 3%nat)).
  - by vm_compute.
  - by vm_compute.
  - by vm_compute.
  - lia.
  - by vm_compute.
  - by vm_compute.
Defined.

(** The five files of the sample directory, one for each action; a row
    past the end; editing mode; and a folder row, which opens a new list. *)
Example tableview_did_select_examples :
  (λ row, fds_calls (FileDataSource_tableview_did_select sample_world sample_filetypes
                       false 1 row sample_fds_state).2) <$> [0; 1; 2; 3; 4] =
    [ [editor_open_file "/home/proj.py/main.py"; console_hide_output; app_close];
      [webbrowser_open "file:///home/proj.py/index.html"; app_close];
      [sound_load_effect "/home/proj.py/beep"; sound_play_effect "/home/proj.py/beep"];
      [console_show_image "/home/proj.py/logo.png"];
      [app_close; time_sleep_ANIM_DELAY; console_quicklook "/home/proj.py/data"] ] ∧
  (FileDataSource_tableview_did_select sample_world sample_filetypes false 1 5
     sample_fds_state).1 = Raise IndexError ∧
  FileDataSource_tableview_did_select sample_world sample_filetypes true 1 0
     sample_fds_state = (Ok tt, sample_fds_state) ∧
  fds_calls (FileDataSource_tableview_did_select sample_world sample_filetypes false 0 0
               sample_fds_state).2 =
    [ console_show_activity;
      app_push_view (mk_view "lib" (mk_FileDataSource (VRef 2%nat) (Some 2%nat)
                                      (Some 3%nat) (Some [2; 3]%nat)));
      console_hide_activity ].
Proof. by vm_compute. Qed.

(** ** FileDataSource: reloading *)

Section FileDataSource_reload_facts.
Context (w : world) (ft : filetypes).
Hypothesis Hok : host_ok w ft.

(** Running the primitives. *)
Lemma SE_bind_Ok {S A B} (m : SE S A) (f : A → SE S B) (s s' : S) (a : A) :
  m s = (Ok a, s') → (m ≫= f) s = f a s'.
Proof. unfold mbind, SE_bind. by intros ->. Qed.

Lemma on_heap_run {A} (m : SE heap A) self h calls r h' :
  m h = (r, h') →
  on_heap m (mk_fds_state self h calls) = (r, mk_fds_state self h' calls).
Proof. unfold on_heap. cbn. by intros ->. Qed.

Lemma read_item_run (h : heap) (l : loc) (x : FileItem) :
  h_items h !! l = Some x → read_item l h = (Ok x, h).
Proof. unfold read_item. by intros ->. Qed.

Lemma list_append_run (its : list FileItem) (ls : list (list loc)) (l r : loc)
    (xs : list loc) :
  ls !! l = Some xs →
  list_append l r (mk_heap its ls) = (Ok tt, mk_heap its (<[l := xs ++ [r]]> ls)).
Proof.
  intros Hl. unfold list_append, read_list, write_list, mbind, SE_bind. cbn.
  by rewrite Hl.
Qed.

(** Constructing an instance from a path appends it to the heap. *)
Lemma FileItem_new_path (cls : pyclass) (p : string) (h : heap) :
  issubclass_FileItem cls = true →
  ∃ x, FileItem_new w ft cls (VStr p) h =
         (Ok (length (h_items h)), mk_heap (h_items h ++ [x]) (h_lists h)) ∧
       basetype x = (if os_path_isdir w (full_path w p) then 0 else 1).
Proof.
  intros Hcls. destruct Hok as (Hwf & Hstat & Hlist).
  destruct (get_fileinfo_total w ft (full_path w p) Hwf) as [c Hc].
  exists (reloaded w (blank_FileItem cls (full_path w p)) c). split; [|done].
  unfold FileItem_new. rewrite Hcls. cbn [negb].
  unfold mbind, SE_bind, get_state. cbn [isinstance_FileItem].
  rewrite (FileItem_reload_returns w ft _ c) by (cbn; eauto). done.
Qed.

Lemma item_isdir_lookup (h : heap) (r : loc) (it : FileItem) :
  h_items h !! r = Some it → item_isdir h r = FileItem_isdir it.
Proof. unfold item_isdir. by intros ->. Qed.

Lemma same_but_contents_refl (x : FileItem) : same_but_contents x x.
Proof. exists (contents x). by destruct x. Qed.

Lemma same_but_contents_trans (x y z : FileItem) :
  same_but_contents x y → same_but_contents y z → same_but_contents x z.
Proof. intros [c ->] [c' ->]. by exists c'. Qed.

Lemma same_but_contents_isdir (x y : FileItem) :
  same_but_contents x y → FileItem_isdir y = FileItem_isdir x.
Proof. by intros [c ->]. Qed.

(** One iteration: the entry at [i] becomes a reference [r] to an
    instance, which is appended to the folders or to the files; no
    instance changes its kind. *)
Lemma FileDataSource_reload_step_spec (i : nat) (name : value) (s : fds_state)
    (d fo fl : loc) (dir : FileItem) (cs : list value) (F G : list loc) :
  fi (fds_self s) = VRef d →
  folders (fds_self s) = Some fo →
  files (fds_self s) = Some fl →
  fo ≠ fl →
  h_items (fds_heap s) !! d = Some dir →
  contents dir = Some cs →
  cs !! i = Some name →
  valid_value (fds_heap s) name →
  h_lists (fds_heap s) !! fo = Some F →
  h_lists (fds_heap s) !! fl = Some G →
  ∃ s' r dir',
    FileDataSource_reload_step w ft i name s = (Ok tt, s') ∧
    fds_self s' = fds_self s ∧
    fds_calls s' = fds_calls s ∧
    h_items (fds_heap s') !! d = Some dir' ∧
    contents dir' = Some (<[i := VRef r]> cs) ∧
    is_Some (h_items (fds_heap s') !! r) ∧
    (∀ l it, h_items (fds_heap s) !! l = Some it →
             ∃ it', h_items (fds_heap s') !! l = Some it' ∧ same_but_contents it it') ∧
    h_lists (fds_heap s') !! fo =
      Some (if item_isdir (fds_heap s') r then F ++ [r] else F) ∧
    h_lists (fds_heap s') !! fl =
      Some (if item_isdir (fds_heap s') r then G else G ++ [r]) ∧
    (∀ l, l ≠ fo → l ≠ fl → h_lists (fds_heap s') !! l = h_lists (fds_heap s) !! l).
Proof.
  intros Hfi Hfo Hfl Hne Hd Hcs Hi Hvalid HF HG.
  destruct s as [self [its ls] calls]; cbn in *.
  assert (Hilt : (i < length cs)%nat) by by eapply lookup_lt_Some.
  assert (Hdlt : (d < length its)%nat) by by eapply lookup_lt_Some.
  unfold FileDataSource_reload_step.
  destruct name as [n | r]; cbn in Hvalid.
  - (* a name: a new instance is made and stored in the listing *)
    destruct (FileItem_new_path FileItem_class (FileItem_join dir n) (mk_heap its ls) eq_refl)
      as (x & Hnew & Hbt).
    cbn [h_items h_lists] in Hnew.
    assert (Hset : PyList.setitem cs (Z.of_nat i) (VRef (length its)) =
                   Ok (<[i := VRef (length its)]> cs)).
    { rewrite PyList_setitem_valid by lia. by rewrite Nat2Z.id. }
    assert (Hd' : (its ++ [x]) !! d = Some dir) by by apply lookup_app_l_Some.
    set (dir' := set_contents (Some (<[i := VRef (length its)]> cs)) dir).
    assert (Hx : (<[d := dir']> (its ++ [x])) !! length its = Some x).
    { rewrite list_lookup_insert_ne by lia.
      rewrite lookup_app_r by done. by rewrite Nat.sub_diag. }
    set (ls' := if FileItem_isdir x then <[fo := F ++ [length its]]> ls
                else <[fl := G ++ [length its]]> ls).
    exists (mk_fds_state self (mk_heap (<[d := dir']> (its ++ [x])) ls') calls),
           (length its), dir'.
    split.
    { erewrite SE_bind_Ok by reflexivity.
      cbn [isinstance_FileItem negb fds_self fds_heap]. rewrite Hfi.
      erewrite SE_bind_Ok; cycle 1.
      { erewrite SE_bind_Ok by (apply on_heap_run, read_item_run, Hd).
        erewrite SE_bind_Ok by (apply on_heap_run, Hnew).
        erewrite SE_bind_Ok by (apply on_heap_run, read_item_run, Hd').
        rewrite Hcs. erewrite SE_bind_Ok by reflexivity.
        rewrite Hset. erewrite SE_bind_Ok by reflexivity.
        erewrite SE_bind_Ok by (apply on_heap_run; reflexivity).
        reflexivity. }
      erewrite SE_bind_Ok by (apply on_heap_run, read_item_run, Hx).
      erewrite SE_bind_Ok by reflexivity. cbn [fds_self]. subst ls'.
      destruct (FileItem_isdir x).
      - rewrite Hfo. erewrite SE_bind_Ok by reflexivity.
        apply on_heap_run. by apply list_append_run.
      - rewrite Hfl. erewrite SE_bind_Ok by reflexivity.
        apply on_heap_run. by apply list_append_run. }
    cbn [fds_self fds_heap fds_calls h_items h_lists].
    assert (Hisdir : item_isdir (mk_heap (<[d := dir']> (its ++ [x])) ls') (length its)
                     = FileItem_isdir x) by by apply item_isdir_lookup.
    rewrite Hisdir. split_and!; [done | done | | done | by eexists | | | |].
    + apply list_lookup_insert_eq. rewrite length_app. lia.
    + intros l it Hl. destruct (decide (l = d)) as [-> | Hld].
      * exists dir'. split; [apply list_lookup_insert_eq; rewrite length_app; lia|].
        rewrite Hd in Hl. injection Hl as <-. by eexists.
      * exists it. split; [|apply same_but_contents_refl].
        rewrite list_lookup_insert_ne by done. by apply lookup_app_l_Some.
    + subst ls'. destruct (FileItem_isdir x).
      * apply list_lookup_insert_eq. by eapply lookup_lt_Some.
      * by rewrite list_lookup_insert_ne.
    + subst ls'. destruct (FileItem_isdir x).
      * by rewrite list_lookup_insert_ne.
      * apply list_lookup_insert_eq. by eapply lookup_lt_Some.
    + intros l Hlo Hlf. subst ls'.
      destruct (FileItem_isdir x); by rewrite list_lookup_insert_ne.
  - (* a reference: the instance is taken as it is *)
    destruct Hvalid as [x Hx].
    set (ls' := if FileItem_isdir x then <[fo := F ++ [r]]> ls
                else <[fl := G ++ [r]]> ls).
    exists (mk_fds_state self (mk_heap its ls') calls), r, dir.
    split.
    { erewrite SE_bind_Ok by reflexivity.
      cbn [isinstance_FileItem negb fds_self fds_heap h_items].
      rewrite bool_decide_eq_true_2 by by eexists. cbn [negb].
      erewrite SE_bind_Ok by reflexivity.
      erewrite SE_bind_Ok by (apply on_heap_run, read_item_run, Hx).
      erewrite SE_bind_Ok by reflexivity. cbn [fds_self]. subst ls'.
      destruct (FileItem_isdir x).
      - rewrite Hfo. erewrite SE_bind_Ok by reflexivity.
        apply on_heap_run. by apply list_append_run.
      - rewrite Hfl. erewrite SE_bind_Ok by reflexivity.
        apply on_heap_run. by apply list_append_run. }
    cbn [fds_self fds_heap fds_calls h_items h_lists].
    assert (Hisdir : item_isdir (mk_heap its ls') r = FileItem_isdir x)
      by by apply item_isdir_lookup.
    rewrite Hisdir. split_and!; [done | done | done | | by eexists | | | |].
    + by rewrite list_insert_id.
    + intros l it Hl. exists it. split; [done | apply same_but_contents_refl].
    + subst ls'. destruct (FileItem_isdir x).
      * apply list_lookup_insert_eq. by eapply lookup_lt_Some.
      * by rewrite list_lookup_insert_ne.
    + subst ls'. destruct (FileItem_isdir x).
      * by rewrite list_lookup_insert_ne.
      * apply list_lookup_insert_eq. by eapply lookup_lt_Some.
    + intros l Hlo Hlf. subst ls'.
      destruct (FileItem_isdir x); by rewrite list_lookup_insert_ne.
Qed.

Lemma filter_cons_if {A} (f : A → bool) (x : A) (l xs : list A) :
  (if f x then l ++ [x] else l) ++ List.filter f xs = l ++ List.filter f (x :: xs).
Proof. cbn. destruct (f x); [|done]. by rewrite <- app_assoc. Qed.

Lemma filter_cons_if_neg {A} (f : A → bool) (x : A) (l xs : list A) :
  (if f x then l else l ++ [x]) ++ List.filter (λ y, negb (f y)) xs =
  l ++ List.filter (λ y, negb (f y)) (x :: xs).
Proof. cbn. destruct (f x); cbn; [done|]. by rewrite <- app_assoc. Qed.

(** The loop from index [i] on: the rest of the listing becomes
    references, appended in order to the folders and to the files. *)
Lemma FileDataSource_reload_loop_spec (d fo fl : loc) :
  fo ≠ fl →
  ∀ (names : list value) (i : nat) (s : fds_state) (dir : FileItem)
    (cs : list value) (F G : list loc),
    fi (fds_self s) = VRef d →
    folders (fds_self s) = Some fo →
    files (fds_self s) = Some fl →
    h_items (fds_heap s) !! d = Some dir →
    contents dir = Some cs →
    drop i cs = names →
    Forall (valid_value (fds_heap s)) names →
    h_lists (fds_heap s) !! fo = Some F →
    h_lists (fds_heap s) !! fl = Some G →
    ∃ s' refs dir',
      FileDataSource_reload_loop w ft i names s = (Ok tt, s') ∧
      fds_self s' = fds_self s ∧
      fds_calls s' = fds_calls s ∧
      length refs = length names ∧
      h_items (fds_heap s') !! d = Some dir' ∧
      contents dir' = Some (take i cs ++ (VRef <$> refs)) ∧
      (∀ l it, h_items (fds_heap s) !! l = Some it →
               ∃ it', h_items (fds_heap s') !! l = Some it' ∧
                      same_but_contents it it') ∧
      h_lists (fds_heap s') !! fo =
        Some (F ++ List.filter (item_isdir (fds_heap s')) refs) ∧
      h_lists (fds_heap s') !! fl =
        Some (G ++ List.filter (λ r, negb (item_isdir (fds_heap s') r)) refs) ∧
      (∀ l, l ≠ fo → l ≠ fl →
            h_lists (fds_heap s') !! l = h_lists (fds_heap s) !! l) ∧
      Forall (λ r, is_Some (h_items (fds_heap s') !! r)) refs.
Proof.
  intros Hne names. induction names as [|name rest IH];
    intros i s dir cs F G Hfi Hfo Hfl Hd Hcs Hdrop Hvalid HF HG.
  - exists s, [], dir. cbn [FileDataSource_reload_loop List.filter fmap list_fmap].
    rewrite !app_nil_r.
    assert (Hlen : (length cs ≤ i)%nat).
    { apply (f_equal length) in Hdrop. rewrite length_drop in Hdrop. cbn in Hdrop. lia. }
    rewrite take_ge by done.
    split_and!; try done.
    intros l it Hl. exists it. split; [done | apply same_but_contents_refl].
  - assert (Hi : cs !! i = Some name).
    { rewrite <- (Nat.add_0_r i), <- lookup_drop, Hdrop. done. }
    assert (Hrest : drop (S i) cs = rest).
    { rewrite (drop_S _ _ _ Hi) in Hdrop. by injection Hdrop. }
    apply Forall_cons in Hvalid as [Hname Hvalid].
    destruct (FileDataSource_reload_step_spec i name s d fo fl dir cs F G)
      as (s1 & r & dir1 & Hstep & Hself1 & Hcalls1 & Hd1 & Hcs1 & Hr & Hkeep1 & HF1 & HG1
          & Hother1); try done.
    assert (Hfi1 : fi (fds_self s1) = VRef d) by by rewrite Hself1.
    assert (Hfo1 : folders (fds_self s1) = Some fo) by by rewrite Hself1.
    assert (Hfl1 : files (fds_self s1) = Some fl) by by rewrite Hself1.
    assert (Hrest1 : drop (S i) (<[i := VRef r]> cs) = rest)
      by by rewrite drop_insert_lt by lia.
    assert (Hvalid1 : Forall (valid_value (fds_heap s1)) rest).
    { eapply Forall_impl; [exact Hvalid|]. intros [n | l]; cbn; [done|].
      intros [it Hit]. destruct (Hkeep1 l it Hit) as (it' & Hit' & _). by eexists. }
    destruct (IH (S i) s1 dir1 (<[i := VRef r]> cs) _ _
                Hfi1 Hfo1 Hfl1 Hd1 Hcs1 Hrest1 Hvalid1 HF1 HG1)
      as (s' & refs & dir' & Hloop & Hself & Hcalls & Hlen & Hd' & Hcs' & Hkeep & HF' & HG'
          & Hother & Hrefs).
    destruct Hr as [itr Hitr].
    assert (Hisdir : item_isdir (fds_heap s') r = item_isdir (fds_heap s1) r).
    { destruct (Hkeep r itr Hitr) as (itr' & Hitr' & Hbase).
      rewrite (item_isdir_lookup _ _ _ Hitr), (item_isdir_lookup _ _ _ Hitr').
      by apply same_but_contents_isdir. }
    exists s', (r :: refs), dir'. split_and!.
    + cbn [FileDataSource_reload_loop]. unfold mbind, SE_bind.
      by rewrite Hstep.
    + congruence.
    + congruence.
    + cbn. by rewrite Hlen.
    + done.
    + rewrite Hcs'. f_equal.
      rewrite (take_S_r _ _ (VRef r)) by (apply list_lookup_insert_eq; by eapply lookup_lt_Some).
      rewrite take_insert_ge by done. by rewrite <- app_assoc.
    + intros l it Hl. destruct (Hkeep1 l it Hl) as (it1 & Hit1 & Hb1).
      destruct (Hkeep l it1 Hit1) as (it' & Hit' & Hb'). exists it'.
      split; [done | by eapply same_but_contents_trans].
    + rewrite HF', <- Hisdir. f_equal. apply filter_cons_if.
    + rewrite HG', <- Hisdir. f_equal.
      apply (filter_cons_if_neg (item_isdir (fds_heap s'))).
    + intros l Hlo Hlf. by rewrite Hother, Hother1.
    + constructor; [|done].
      destruct (Hkeep r itr Hitr) as (itr' & Hitr' & _). by eexists.
Qed.

Lemma filter_length_partition {A} (f : A → bool) (l : list A) :
  (length (List.filter f l) + length (List.filter (λ x, negb (f x)) l))%nat = length l.
Proof. induction l as [|x l IH]; [done|]. cbn. destruct (f x); cbn; lia. Qed.

(** [reload] on a data source whose [fi] is a directory instance: two
    new lists are bound to [folders] and [files]; the listing is turned
    into references and split over them in order; [lists] and the list
    objects that existed before are left as they were. *)
Lemma FileDataSource_reload_spec (s : fds_state) (d : loc) (dir : FileItem)
    (cs : list value) :
  fi (fds_self s) = VRef d →
  h_items (fds_heap s) !! d = Some dir →
  contents dir = Some cs →
  Forall (valid_value (fds_heap s)) cs →
  let fo := length (h_lists (fds_heap s)) in
  let fl := S fo in
  ∃ s' refs dir',
    FileDataSource_reload w ft s = (Ok tt, s') ∧
    fds_self s' = mk_FileDataSource (VRef d) (Some fo) (Some fl) (lists (fds_self s)) ∧
    fds_calls s' = fds_calls s ∧
    length refs = length cs ∧
    h_items (fds_heap s') !! d = Some dir' ∧
    contents dir' = Some (VRef <$> refs) ∧
    h_lists (fds_heap s') !! fo = Some (List.filter (item_isdir (fds_heap s')) refs) ∧
    h_lists (fds_heap s') !! fl =
      Some (List.filter (λ r, negb (item_isdir (fds_heap s') r)) refs) ∧
    (∀ l, (l < fo)%nat → h_lists (fds_heap s') !! l = h_lists (fds_heap s) !! l) ∧
    (∀ l it, h_items (fds_heap s) !! l = Some it →
             ∃ it', h_items (fds_heap s') !! l = Some it' ∧ same_but_contents it it') ∧
    Forall (λ r, is_Some (h_items (fds_heap s') !! r)) refs.
Proof.
  intros Hfi Hd Hcs Hvalid fo fl.
  destruct s as [self [its ls] calls]; cbn in *.
  set (s2 := mk_fds_state (set_files fl (set_folders fo self))
                          (mk_heap its ((ls ++ [[]]) ++ [[]])) calls).
  destruct (FileDataSource_reload_loop_spec d fo fl ltac:(lia) cs 0 s2 dir cs [] [])
    as (s' & refs & dir' & Hloop & Hself & Hcalls & Hlen & Hd' & Hcs' & Hkeep & HF & HG
        & Hother & Hrefs); try done.
  { cbn. rewrite lookup_app_l by (rewrite length_app; cbn; lia).
    rewrite lookup_app_r by done. by rewrite Nat.sub_diag. }
  { cbn. rewrite lookup_app_r by (rewrite length_app; cbn; lia).
    rewrite length_app. cbn [length].
    by replace (fl - (length ls + 1))%nat with 0%nat by (subst fl fo; lia). }
  exists s', refs, dir'. split_and!; try done.
  - unfold FileDataSource_reload.
    erewrite SE_bind_Ok by reflexivity.
    cbn [isinstance_FileItem negb fds_self fds_heap h_items]. rewrite Hfi.
    cbn [isinstance_FileItem]. rewrite bool_decide_eq_true_2 by by eexists. cbn [negb].
    erewrite SE_bind_Ok by (apply on_heap_run; reflexivity).
    erewrite SE_bind_Ok by reflexivity.
    erewrite SE_bind_Ok by (apply on_heap_run; reflexivity).
    erewrite SE_bind_Ok by reflexivity.
    erewrite SE_bind_Ok by (apply on_heap_run, read_item_run; exact Hd).
    rewrite Hcs. simpl. rewrite length_app. cbn [length].
    replace (length ls + 1)%nat with fl by (subst fl fo; lia). exact Hloop.
  - rewrite Hself. unfold s2, set_files, set_folders. cbn. by rewrite Hfi.
  - intros l Hl. rewrite Hother by lia. cbn.
    rewrite lookup_app_l by (rewrite length_app; cbn; lia).
    by rewrite lookup_app_l by done.
Qed.

Lemma read_list_run (h : heap) (l : loc) (xs : list loc) :
  h_lists h !! l = Some xs → read_list l h = (Ok xs, h).
Proof. unfold read_list. by intros ->. Qed.

(** The row count of a section whose list is known. *)
Lemma tableview_number_of_rows_run (s : fds_state) (ls xs : list loc) (section : Z)
    (l : loc) :
  lists (fds_self s) = Some ls →
  PyList.getitem ls section = Ok l →
  h_lists (fds_heap s) !! l = Some xs →
  FileDataSource_tableview_number_of_rows section s = (Ok (Z.of_nat (length xs)), s).
Proof.
  intros Hls Hget Hxs. destruct s as [self h calls]; cbn in *.
  unfold FileDataSource_tableview_number_of_rows.
  erewrite SE_bind_Ok by reflexivity. cbn [fds_self]. rewrite Hls.
  erewrite SE_bind_Ok by reflexivity. rewrite Hget.
  erewrite SE_bind_Ok by reflexivity.
  erewrite SE_bind_Ok by (apply on_heap_run, read_list_run, Hxs).
  reflexivity.
Qed.

(** Constructing a data source for a directory instance: [lists] holds
    the two lists that [reload] made, so the rows of the two sections
    are the entries of the listing, folders first. *)
Lemma FileDataSource_call_spec (h : heap) (d : loc) (dir : FileItem) (cs : list value) :
  h_items h !! d = Some dir →
  contents dir = Some cs →
  Forall (valid_value h) cs →
  ∃ ds h' refs dir' fo fl,
    FileDataSource_call w ft (VRef d) h = (Ok ds, h') ∧
    ds = mk_FileDataSource (VRef d) (Some fo) (Some fl) (Some [fo; fl]) ∧
    length refs = length cs ∧
    h_items h' !! d = Some dir' ∧
    contents dir' = Some (VRef <$> refs) ∧
    h_lists h' !! fo = Some (List.filter (item_isdir h') refs) ∧
    h_lists h' !! fl = Some (List.filter (λ r, negb (item_isdir h' r)) refs) ∧
    (∀ calls, total_rows (mk_fds_state ds h' calls) = Ok (Z.of_nat (length refs)) ∧
              contents_length (mk_fds_state ds h' calls) = Some (Z.of_nat (length refs))) ∧
    (∀ l xs, h_lists h !! l = Some xs → h_lists h' !! l = Some xs) ∧
    (∀ l it, h_items h !! l = Some it →
             ∃ it', h_items h' !! l = Some it' ∧ same_but_contents it it') ∧
    Forall (λ r, is_Some (h_items h' !! r)) refs ∧
    fo = length (h_lists h) ∧ fl = S fo.
Proof.
  intros Hd Hcs Hvalid.
  set (s0 := mk_fds_state (mk_FileDataSource (VRef d) None None None) h []).
  destruct (FileDataSource_reload_spec s0 d dir cs eq_refl Hd Hcs Hvalid)
    as (s' & refs & dir' & Hreload & Hself & Hcalls & Hlen & Hd' & Hcs' & HF & HG
        & Hlists & Hkeep & Hrefs).
  destruct s' as [self' h' calls']. cbn in Hself, Hcalls, Hd', HF, HG, Hlists, Hkeep, Hrefs.
  subst self' calls'.
  eexists _, h', refs, dir', _, _.
  split_and!; [| reflexivity | done | done | done | done | done | | | done | done | done
               | done].
  - unfold FileDataSource_call, FileDataSource_init. fold s0.
    erewrite SE_bind_Ok by exact Hreload.
    erewrite SE_bind_Ok by reflexivity. cbn [fds_self folders files].
    erewrite SE_bind_Ok by reflexivity.
    erewrite SE_bind_Ok by reflexivity. reflexivity.
  - intros calls. split.
    + unfold total_rows.
      erewrite (tableview_number_of_rows_run _ _ _ 0) by (reflexivity || exact HF).
      erewrite (tableview_number_of_rows_run _ _ _ 1) by (reflexivity || exact HG).
      cbn. f_equal. rewrite <- Nat2Z.inj_add. f_equal. apply filter_length_partition.
    + unfold contents_length. cbn. rewrite Hd'. cbn. rewrite Hcs'. cbn.
      by rewrite length_fmap.
  - intros l xs Hl. rewrite Hlists; [done|]. by eapply lookup_lt_Some.
Qed.

End FileDataSource_reload_facts.

(** The sample worlds raise nothing but [OSError]. *)
Lemma sample_host_ok : host_ok sample_world sample_filetypes.
Proof.
  split; [exact sample_filetypes_wf|]. split; intros p e; cbn.
  - repeat destruct (String.eqb p _); try discriminate; by intros [= <-].
  - repeat destruct (String.eqb p _); try discriminate; by intros [= <-].
Qed.

(** A second [reload] does not touch [lists], nor the list objects that
    [lists] refers to: the row counts stay what they were, whatever the
    listing has become. *)
Lemma FileDataSource_reload_keeps_rows (w : world) (ft : filetypes) (s : fds_state)
    (d : loc) (dir : FileItem) (cs : list value) (ls : list loc) :
  host_ok w ft →
  fi (fds_self s) = VRef d →
  h_items (fds_heap s) !! d = Some dir →
  contents dir = Some cs →
  Forall (valid_value (fds_heap s)) cs →
  lists (fds_self s) = Some ls →
  Forall (λ l, is_Some (h_lists (fds_heap s) !! l)) ls →
  ∃ s', FileDataSource_reload w ft s = (Ok tt, s') ∧
        contents_length s' = Some (Z.of_nat (length cs)) ∧
        lists (fds_self s') = Some ls ∧
        Forall (λ l, h_lists (fds_heap s') !! l = h_lists (fds_heap s) !! l) ls.
Proof.
  intros Hok Hfi Hd Hcs Hvalid Hls Hold.
  destruct (FileDataSource_reload_spec w ft Hok s d dir cs Hfi Hd Hcs Hvalid)
    as (s' & refs & dir' & Hreload & Hself & _ & Hlen & Hd' & Hcs' & _ & _ & Hkeep & _).
  exists s'. split_and!; [done | | by rewrite Hself |].
  - unfold contents_length. rewrite Hself. cbn. rewrite Hd'. cbn. rewrite Hcs'. cbn.
    by rewrite length_fmap, Hlen.
  - eapply Forall_impl; [exact Hold|]. intros l Hl. cbn in Hl.
    apply Hkeep. by apply lookup_lt_is_Some.
Qed.

(** C10 at a second [reload].  The data source was made for the sample
    directory, which then gained a file; the [FileItem] was reloaded and
    after it the data source.  The new [folders] and [files] lists split
    the seven entries of the listing, one folder and six files, but [lists]
    still refers to the two lists made at construction, and the row count
    over both sections is six. *)
Theorem FileDataSource_reload_stale_row_count :
  sample_fds_reloaded.1 = Ok tt ∧
  contents_length sample_fds_reloaded.2 = Some 7 ∧
  folders (fds_self sample_fds_reloaded.2) = Some 2%nat ∧
  files (fds_self sample_fds_reloaded.2) = Some 3%nat ∧
  h_lists (fds_heap sample_fds_reloaded.2) !! 2%nat = Some [8]%nat ∧
  h_lists (fds_heap sample_fds_reloaded.2) !! 3%nat = Some [7; 9; 10; 11; 12; 13]%nat ∧
  lists (fds_self sample_fds_reloaded.2) = Some [0; 1]%nat ∧
  total_rows sample_fds_reloaded.2 = Ok 6 ∧
  total_rows sample_fds_state = Ok 6 ∧
  contents_length sample_fds_state = Some 6.
Proof. by vm_compute. Qed.

(** * Further properties *)

(** ** [has_flags] *)

Lemma Z_land_eq_testbit (num flags : Z) :
  Z.land num flags = flags ↔
  ∀ i, 0 ≤ i → Z.testbit flags i = true → Z.testbit num i = true.
Proof.
  split.
  - intros Hland i Hi Hbit. rewrite <- Hland in Hbit.
    rewrite Z.land_spec in Hbit. by apply andb_true_iff in Hbit as [? _].
  - intros Hbits. apply Z.bits_inj'. intros i Hi. rewrite Z.land_spec.
    destruct (Z.testbit flags i) eqn:Hf; [|by rewrite andb_false_r].
    by rewrite (Hbits i Hi Hf).
Qed.

(** X1.  [has_flags num flags] is true exactly when every bit that is on
    in [flags] is on in [num]; bits that are off in [flags] do not
    matter. *)
Theorem has_flags_testbit (num flags : Z) :
  has_flags num flags = true ↔
  ∀ i, 0 ≤ i → Z.testbit flags i = true → Z.testbit num i = true.
Proof. unfold has_flags. rewrite Z.eqb_eq. apply Z_land_eq_testbit. Qed.

(** X2.  Checking the union of two flag sets is checking each of them. *)
Theorem has_flags_lor (num a b : Z) :
  has_flags num (Z.lor a b) = has_flags num a && has_flags num b.
Proof.
  apply eq_true_iff_eq. unfold has_flags.
  rewrite andb_true_iff, !Z.eqb_eq, !Z_land_eq_testbit. split.
  - intros H. split; intros i Hi Hbit; apply (H i Hi);
      rewrite Z.lor_spec, Hbit; [done | apply orb_true_r].
  - intros [Ha Hb] i Hi Hbit. rewrite Z.lor_spec in Hbit.
    apply orb_true_iff in Hbit as [Hbit | Hbit]; eauto.
Qed.

(** The mode of a directory that its owner may read, write and search
    has the three owner bits, and not the set-uid bit. *)
Example has_flags_examples :
  has_flags 16877 448 = true ∧ has_flags 16877 2048 = false ∧
  has_flags 16877 0 = true ∧ has_flags (-1) 4095 = true.
Proof. by vm_compute. Qed.

(** ** Strings: append *)

Lemma append_cons (a : ascii) (s t : string) : String a s +:+ t = String a (s +:+ t).
Proof. reflexivity. Qed.

Lemma append_nil_l (s : string) : "" +:+ s = s.
Proof. reflexivity. Qed.

Lemma append_assoc (s t u : string) : (s +:+ t) +:+ u = s +:+ (t +:+ u).
Proof.
  induction s as [|a s IH]; [done|].
  rewrite !append_cons. by rewrite IH.
Qed.

(** ** [format_size]: long and short form, range *)

(** The loop always binds [suffix] when there is a suffix to try. *)
Lemma format_size_loop_suffix (suffixes : list string) (x : PyFloat.float)
    (s0 : option string) :
  suffixes ≠ [] → is_Some (format_size_loop suffixes x s0).2.
Proof.
  revert x s0. induction suffixes as [|s rest IH]; [done|]. intros x s0 _.
  cbn [format_size_loop]. destruct (PyFloat.ltb _ _); [by eexists|].
  destruct rest as [|s' rest']; [by eexists|]. by apply IH.
Qed.

(** X3.  The long form is the short form followed by the size in bytes
    in parentheses when the size is at least 1024, and is the short form
    itself below 1024; the two forms fail together. *)
Theorem format_size_long_extends_short (size : Z) :
  (size < 1024 → format_size size true = format_size size false) ∧
  (1024 ≤ size →
   format_size size true =
     (λ short, short +:+ " (" +:+ pretty size +:+ " bytes)") <$> format_size size false).
Proof.
  unfold format_size. split; intros Hsize.
  - by destruct (Z.ltb_spec size 1024); [|lia].
  - destruct (Z.ltb_spec size 1024); [lia|].
    destruct (PyFloat.of_int size) as [x | e]; [|done]. cbn [mbind result_bind].
    destruct (format_size_loop (tail SIZE_SUFFIXES) x None) as [x' [suffix|]]; [|done].
    cbn. by rewrite !append_assoc.
Qed.

Lemma format_size_long_extends_short_witness :
  format_size 1536 true =
    (λ short, short +:+ " (" +:+ pretty 1536 +:+ " bytes)") <$> format_size 1536 false.
Proof.
  destruct (format_size_long_extends_short 1536) as [_ Hlong]. apply Hlong. lia.
Defined.

(** X4.  [format_size] returns a text for every size below [2^1023],
    negative sizes included, and raises [OverflowError] for every size from
    [2^1024] on, where the conversion to [float] fails. *)
Theorem format_size_range (size : Z) (longf : bool) :
  (size < 2 ^ 1023 → ∃ text, format_size size longf = Ok text) ∧
  (2 ^ 1024 ≤ size → format_size size longf = Raise OverflowError).
Proof.
  unfold format_size. split; intros Hsize.
  - destruct (Z.ltb_spec size 1024); [by eexists|].
    destruct (of_int_returns size ltac:(lia)) as [x ->]. cbn [mbind result_bind].
    destruct (format_size_loop_suffix (tail SIZE_SUFFIXES) x None ltac:(done))
      as [suffix Hsuffix].
    destruct (format_size_loop (tail SIZE_SUFFIXES) x None) as [x' s'].
    cbn in Hsuffix. subst s'. by eexists.
  - assert (1024 < 2 ^ 1024) by (by vm_compute).
    destruct (Z.ltb_spec size 1024); [lia|].
    by rewrite of_int_overflow.
Qed.

Lemma format_size_range_witness :
  (∃ text, format_size (-7) true = Ok text) ∧
  format_size (2 ^ 1024 + 1) false = Raise OverflowError.
Proof.
  destruct (format_size_range (-7) true) as [Hret _].
  destruct (format_size_range (2 ^ 1024 + 1) false) as [_ Hover].
  split; [apply Hret | apply Hover]; by vm_compute.
Defined.

(** ** [get_fileinfo]: the name parts and the extension *)

Section split_facts.
Context (sep : ascii).

Lemma PyStr_split_nonempty (s : string) : PyStr.split sep s ≠ [].
Proof.
  destruct s as [|c s]; cbn; [done|].
  destruct (Ascii.eqb c sep); [done|]. by destruct (PyStr.split sep s).
Qed.

(** Joining the parts with the separator gives the string back. *)
Lemma PyStr_split_concat (s : string) :
  String.concat (String sep EmptyString) (PyStr.split sep s) = s.
Proof.
  induction s as [|c s IH]; [done|]. cbn [PyStr.split].
  destruct (Ascii.eqb_spec c sep) as [-> | Hne].
  - pose proof (PyStr_split_nonempty s) as Hnil.
    destruct (PyStr.split sep s) as [|h t]; [done|].
    change (String sep (String.concat (String sep EmptyString) (h :: t)) = String sep s).
    by rewrite IH.
  - destruct (PyStr.split sep s) as [|h t] eqn:Hsplit.
    { by destruct (PyStr_split_nonempty s). }
    destruct t as [|x xs].
    + cbn in IH. cbn. by rewrite IH.
    + change (String c (String.concat (String sep EmptyString) (h :: x :: xs)) = String c s).
      by rewrite IH.
Qed.

(** No part holds the separator. *)
Lemma PyStr_split_no_sep (s : string) : Forall (λ p, no_char sep p = true) (PyStr.split sep s).
Proof.
  induction s as [|c s IH]; cbn [PyStr.split]; [by repeat constructor|].
  destruct (Ascii.eqb c sep) eqn:Hc; [by constructor|].
  destruct (PyStr.split sep s) as [|h t]; [by repeat constructor; cbn; rewrite Hc|].
  apply Forall_cons in IH as [Hh Ht]. constructor; [|done]. cbn. by rewrite Hc.
Qed.

End split_facts.

Section get_fileinfo_more.
Context (w : world) (ft : filetypes).

Lemma last_cons_match {A} (x : A) (l : list A) :
  last (x :: l) = match last l with Some y => Some y | None => Some x end.
Proof.
  destruct l as [|y l]; [done|].
  change (last (y :: l) = match last (y :: l) with Some z => Some z | None => Some x end).
  destruct (last (y :: l)) eqn:E; [done|]. by apply last_None in E.
Qed.

(** The loop over the name parts finds the last known one. *)
Lemma last_known_ext_filter (parts : list string) (init : option string) :
  last_known_ext ft parts init =
    match last (known_parts ft parts) with
    | Some e => Some e
    | None => init
    end.
Proof.
  revert init. induction parts as [|p parts IH]; intros init; [done|].
  unfold last_known_ext in *. cbn [foldl]. rewrite IH. unfold known_parts. cbn [List.filter].
  destruct (dict_contains (TYPE_GROUPS ft) p); [|done].
  rewrite last_cons_match. by destruct (last _).
Qed.

(** What a returned [FileInfo] holds in the fields that do not depend on
    the tables' values. *)
Lemma get_fileinfo_fields (path : string) (info : FileInfo) :
  get_fileinfo w ft path = Ok info →
  fi_dir info = (OsPath.split path).1 ∧
  fi_name info = (OsPath.split path).2 ∧
  fi_nameparts info = PyStr.split OsPath.extsep (PyStr.lower (OsPath.split path).2) ∧
  fi_ext info = last_known_ext ft (fi_nameparts info) None.
Proof.
  unfold get_fileinfo. destruct (OsPath.split path) as [dir name].
  unfold mbind, result_bind. intros H.
  repeat match type of H with
         | context [match ?x with _ => _ end] => destruct x; try discriminate H
         end.
  all: by injection H as <-.
Qed.

End get_fileinfo_more.

(** X5.  For a path whose file name is in ASCII and with well-formed
    tables, [get_fileinfo] returns; the name parts are the lowercased file
    name split at the dots, and the [ext] field is the last of them that
    is a key of [TYPE_GROUPS], wherever it stands in the name; it is
    [None] exactly when no part is a key. *)
Theorem get_fileinfo_ext_last_known (w : world) (ft : filetypes) (path : string) :
  filetypes_wf ft →
  is_ascii (OsPath.split path).2 = true →
  ∃ info,
    get_fileinfo w ft path = Ok info ∧
    fi_nameparts info = PyStr.split "." (PyStr.lower (fi_name info)) ∧
    fi_ext info = last (known_parts ft (fi_nameparts info)) ∧
    (fi_ext info = None ↔ known_parts ft (fi_nameparts info) = []).
Proof.
  intros Hwf _. destruct (get_fileinfo_total w ft path Hwf) as [info Hinfo].
  destruct (get_fileinfo_fields w ft path info Hinfo) as (_ & Hname & Hparts & Hext).
  exists info. rewrite last_known_ext_filter in Hext.
  assert (Hlast : fi_ext info = last (known_parts ft (fi_nameparts info)))
    by (rewrite Hext; by destruct (last _)).
  split_and!; [done | by rewrite Hparts, Hname | done |].
  rewrite Hlast. apply last_None.
Qed.

Lemma get_fileinfo_ext_last_known_witness :
  ∃ info,
    get_fileinfo sample_world sample_filetypes "/tmp/Backup.PY.old" = Ok info ∧
    fi_nameparts info = PyStr.split "." (PyStr.lower (fi_name info)) ∧
    fi_ext info = last (known_parts sample_filetypes (fi_nameparts info)) ∧
    (fi_ext info = None ↔ known_parts sample_filetypes (fi_nameparts info) = []).
Proof.
  apply (get_fileinfo_ext_last_known sample_world sample_filetypes "/tmp/Backup.PY.old").
  - exact sample_filetypes_wf.
  - reflexivity.
Defined.

Example get_fileinfo_ext_examples :
  fi_ext <$> get_fileinfo sample_world sample_filetypes "/tmp/Backup.PY.old" = Ok (Some "py") ∧
  fi_ext <$> get_fileinfo sample_world sample_filetypes "/tmp/py" = Ok (Some "py") ∧
  fi_ext <$> get_fileinfo sample_world sample_filetypes "/tmp/a.tar.gz" = Ok (Some "gz") ∧
  fi_ext <$> get_fileinfo sample_world sample_filetypes "/tmp/README" = Ok None.
Proof. by vm_compute. Qed.

(** X6.  For a file name in ASCII, the name is split at the dots into at
    least one part, no part holds a dot, and the parts joined by dots are
    the lowercased file name. *)
Theorem get_fileinfo_nameparts_join (w : world) (ft : filetypes) (path : string)
    (info : FileInfo) :
  get_fileinfo w ft path = Ok info →
  is_ascii (fi_name info) = true →
  fi_nameparts info ≠ [] ∧
  Forall (λ p, no_char "." p = true) (fi_nameparts info) ∧
  String.concat "." (fi_nameparts info) = PyStr.lower (fi_name info).
Proof.
  intros (_ & Hname & Hparts & _)%get_fileinfo_fields _.
  rewrite Hparts, Hname. split_and!.
  - apply PyStr_split_nonempty.
  - apply PyStr_split_no_sep.
  - apply PyStr_split_concat.
Qed.

Lemma get_fileinfo_nameparts_join_witness :
  fi_nameparts sample_dir_item.(constants) ≠ [] ∧
  Forall (λ p, no_char "." p = true) (fi_nameparts sample_dir_item.(constants)) ∧
  String.concat "." (fi_nameparts sample_dir_item.(constants)) =
    PyStr.lower (fi_name sample_dir_item.(constants)).
Proof.
  apply (get_fileinfo_nameparts_join sample_world sample_filetypes "/home/proj.py").
  - by vm_compute.
  - by vm_compute.
Defined.
(** ** [get_fileinfo]: the case of the letters *)

(** The small letter of a capital letter is lowered to itself, and the
    capital letter to it. *)
Lemma lower_char_small_of_capital (x y : ascii) :
  small_of_capital x y = true → PyStr.lower_char x = y ∧ PyStr.lower_char y = y.
Proof.
  unfold small_of_capital, PyStr.lower_char.
  intros [[Hlo%N.leb_le Hhi%N.leb_le]%andb_prop Hy%N.eqb_eq]%andb_prop.
  rewrite Hy.
  destruct (N.leb_spec 65 (N_of_ascii x)); [|lia].
  destruct (N.leb_spec (N_of_ascii x) 90); [|lia]. cbn [andb].
  split.
  - by rewrite <- Hy, ascii_N_embedding.
  - destruct (N.leb_spec 65 (N_of_ascii x + 32)); [|done].
    by destruct (N.leb_spec (N_of_ascii x + 32) 90); [lia|].
Qed.

(** Texts that are the same up to the case of the letters are lowered to
    the same text. *)
Lemma lower_same_up_to_case (a b : string) :
  same_up_to_case a b = true → PyStr.lower a = PyStr.lower b.
Proof.
  revert b. induction a as [|x a IH]; intros [|y b]; cbn; try done.
  intros [Hxy Hab]%andb_prop. rewrite (IH b Hab). f_equal.
  apply orb_prop in Hxy as [Hxy | Hyx].
  - apply orb_prop in Hxy as [Heq | Hxy].
    + by apply Ascii.eqb_eq in Heq as ->.
    + destruct (lower_char_small_of_capital x y Hxy) as [-> ->]. done.
  - destruct (lower_char_small_of_capital y x Hyx) as [-> ->]. done.
Qed.

(** X7.  The extension is matched without regard to the case of the
    letters A to Z: for two paths whose file names are in ASCII and are
    the same up to the case of their letters, and on which [os.path.isdir]
    agrees, [get_fileinfo] raises the same exception or returns the same
    name parts, extension, group, description and icon. *)
Theorem get_fileinfo_case_insensitive (w : world) (ft : filetypes) (p1 p2 : string) :
  is_ascii (OsPath.split p1).2 = true →
  is_ascii (OsPath.split p2).2 = true →
  same_up_to_case (OsPath.split p1).2 (OsPath.split p2).2 = true →
  os_path_isdir w p1 = os_path_isdir w p2 →
  type_fields <$> get_fileinfo w ft p1 = type_fields <$> get_fileinfo w ft p2.
Proof.
  intros _ _ Hsame%lower_same_up_to_case. revert Hsame.
  unfold get_fileinfo.
  destruct (OsPath.split p1) as [d1 n1], (OsPath.split p2) as [d2 n2].
  cbn [snd]. intros -> ->. unfold mbind, result_bind.
  repeat match goal with
         | |- context [match ?x with _ => _ end] => destruct x; try reflexivity
         end.
Qed.

Lemma get_fileinfo_case_insensitive_witness :
  type_fields <$> get_fileinfo sample_world sample_filetypes "/tmp/Logo.PNG" =
  type_fields <$> get_fileinfo sample_world sample_filetypes "/var/logo.png".
Proof.
  apply (get_fileinfo_case_insensitive sample_world sample_filetypes
           "/tmp/Logo.PNG" "/var/logo.png"); reflexivity.
Defined.

(** Names that differ in more than the case of their letters are not
    confused. *)
Example same_up_to_case_examples :
  same_up_to_case "Logo.PNG" "logo.png" = true ∧
  same_up_to_case "logo.png" "logo.pdf" = false ∧
  same_up_to_case "a@b" "a`b" = false ∧
  same_up_to_case "logo" "logo.png" = false.
Proof. by vm_compute. Qed.

(** X8.  A file name in ASCII none of whose lowercased parts is a key of
    [TYPE_GROUPS] gets the defaults of its base group: there is no
    extension, the group is [folder] for a directory and [file] otherwise,
    and the description and icon are those that [GROUP_ICONS] gives for
    that group. *)
Theorem get_fileinfo_unknown_gets_defaults (w : world) (ft : filetypes) (path : string)
    (info : FileInfo) :
  get_fileinfo w ft path = Ok info →
  is_ascii (fi_name info) = true →
  known_parts ft (PyStr.split "." (PyStr.lower (fi_name info))) = [] →
  fi_ext info = None ∧
  fi_group info = (if os_path_isdir w path then "folder" else "file") ∧
  GROUP_ICONS ft !! fi_group info = Some (fi_desc info, fi_icon info).
Proof.
  intros Hinfo _ Hnone.
  destruct (get_fileinfo_fields w ft path info Hinfo) as (_ & Hname & Hparts & Hext).
  rewrite Hname in Hnone.
  assert (Hlk : last_known_ext ft
                  (PyStr.split OsPath.extsep (PyStr.lower (OsPath.split path).2)) None
                = None).
  { rewrite last_known_ext_filter.
    change OsPath.extsep with "."%char. by rewrite Hnone. }
  split; [by rewrite Hext, Hparts, Hlk|]. clear Hparts Hnone Hext Hname.
  unfold get_fileinfo in Hinfo. destruct (OsPath.split path) as [dir name].
  cbn [snd] in Hlk. rewrite Hlk in Hinfo.
  cbn [truthy is_bundle_ext negb andb] in Hinfo.
  destruct (os_path_isdir w path); cbn [String.eqb Ascii.eqb Bool.eqb andb] in Hinfo.
  - destruct (dict_getitem (GROUP_ICONS ft) "folder") as [[d i]|] eqn:Hg; [|done].
    cbn in Hinfo. injection Hinfo as <-. cbn.
    split; [done|]. by apply dict_getitem_Ok.
  - destruct (dict_getitem (GROUP_ICONS ft) "file") as [[d i]|] eqn:Hg; [|done].
    cbn in Hinfo. injection Hinfo as <-. cbn.
    split; [done|]. by apply dict_getitem_Ok.
Qed.

Lemma get_fileinfo_unknown_gets_defaults_witness :
  ∃ info, get_fileinfo sample_world sample_filetypes "/home/proj.py/data" = Ok info ∧
    fi_ext info = None ∧
    fi_group info = (if os_path_isdir sample_world "/home/proj.py/data"
                     then "folder" else "file") ∧
    GROUP_ICONS sample_filetypes !! fi_group info = Some (fi_desc info, fi_icon info).
Proof.
  eexists. split; [by vm_compute|].
  apply (get_fileinfo_unknown_gets_defaults sample_world sample_filetypes
           "/home/proj.py/data"); by vm_compute.
Defined.

(** ** Strings: cutting at the last occurrence of a character *)

Section cut_facts.
Context (c : ascii).

Lemma cut_last_no_char (t : string) :
  no_char c t = true → PyStr.cut_last c t = (EmptyString, t).
Proof.
  induction t as [|a t IH]; [done|]. cbn [no_char PyStr.cut_last].
  intros [Ha Ht]%andb_true_iff. rewrite (IH Ht).
  apply negb_true_iff in Ha. by rewrite Ha.
Qed.

(** The text is cut after its last [c]. *)
Lemma cut_last_app (u t : string) :
  no_char c t = true →
  PyStr.cut_last c (u +:+ String c t) = (u +:+ String c EmptyString, t).
Proof.
  intros Ht. induction u as [|a u IH].
  - change (PyStr.cut_last c (String c t) = (String c EmptyString, t)).
    cbn [PyStr.cut_last]. rewrite (cut_last_no_char t Ht).
    by rewrite Ascii.eqb_refl.
  - rewrite !append_cons. cbn [PyStr.cut_last]. rewrite IH.
    destruct u; reflexivity.
Qed.

Lemma endswith_snoc_inv (a : string) :
  PyStr.endswith c a = true → ∃ u, a = u +:+ String c EmptyString.
Proof.
  induction a as [|x a IH]; [done|]. cbn [PyStr.endswith].
  destruct a as [|y a'].
  - intros ->%Ascii.eqb_eq. by exists EmptyString.
  - intros [u Hu]%IH. exists (String x u). by rewrite append_cons, <- Hu.
Qed.

Lemma rstrip_snoc (a : string) :
  PyStr.rstrip c (a +:+ String c EmptyString) = PyStr.rstrip c a.
Proof.
  induction a as [|x a IH].
  - rewrite append_nil_l. cbn. by rewrite Ascii.eqb_refl.
  - rewrite append_cons. cbn [PyStr.rstrip]. by rewrite IH.
Qed.

Lemma rstrip_id (a : string) : PyStr.endswith c a = false → PyStr.rstrip c a = a.
Proof.
  induction a as [|x a IH]; [done|]. cbn [PyStr.endswith PyStr.rstrip].
  destruct a as [|y a'].
  - intros ->. done.
  - intros Hends. rewrite (IH Hends). done.
Qed.

Lemma all_char_snoc (a : string) :
  PyStr.all_char c (a +:+ String c EmptyString) = PyStr.all_char c a.
Proof.
  induction a as [|x a IH].
  - rewrite append_nil_l. cbn. by rewrite Ascii.eqb_refl.
  - rewrite append_cons. cbn [PyStr.all_char]. by rewrite IH.
Qed.

Lemma all_char_endswith (a : string) :
  a ≠ EmptyString → PyStr.all_char c a = true → PyStr.endswith c a = true.
Proof.
  induction a as [|x a IH]; [done|]. intros _. cbn [PyStr.all_char PyStr.endswith].
  intros [Hx Ha]%andb_true_iff. destruct a as [|y a']; [done|]. by apply IH.
Qed.

Lemma no_char_startswith (b : string) :
  no_char c b = true → PyStr.startswith c b = false.
Proof.
  destruct b as [|x b]; [done|]. cbn.
  intros [Hx _]%andb_true_iff. by apply negb_true_iff.
Qed.

End cut_facts.

(** X9.  [os.path.split] undoes [FileItem.join]: for a name without a
    slash, the file name of the joined path is that name, and when the
    path of the item is not empty and does not end in a slash, the
    directory part is the path of the item. *)
Theorem FileItem_join_split (self : FileItem) (name : string) :
  no_char "/" name = true →
  (OsPath.split (FileItem_join self name)).2 = name ∧
  (path self ≠ "" → PyStr.endswith "/" (path self) = false →
   OsPath.split (FileItem_join self name) = (path self, name)).
Proof.
  intros Hname. unfold FileItem_join, OsPath.join, OsPath.split, OsPath.sep.
  rewrite (no_char_startswith _ _ Hname).
  destruct (String.eqb_spec (path self) "") as [-> | Hne]; cbn [orb].
  { rewrite append_nil_l, (cut_last_no_char _ _ Hname). split; [done|]. by intros []. }
  destruct (PyStr.endswith "/" (path self)) eqn:Hends.
  - destruct (endswith_snoc_inv _ _ Hends) as [u ->].
    rewrite append_assoc. change (String "/" "" +:+ name) with (String "/" name).
    rewrite (cut_last_app _ _ _ Hname). split; [|done].
    by destruct (negb _ && negb _).
  - rewrite (cut_last_app _ _ _ Hname).
    assert (Hhead : (path self +:+ "/" =? "")%string = false).
    { apply String.eqb_neq. by destruct (path self). }
    assert (Hall : PyStr.all_char "/" (path self +:+ "/") = false).
    { rewrite all_char_snoc. destruct (PyStr.all_char "/" (path self)) eqn:Hall; [|done].
      by rewrite (all_char_endswith _ _ Hne Hall) in Hends. }
    rewrite Hhead, Hall. cbn [negb andb].
    rewrite rstrip_snoc, (rstrip_id _ _ Hends). by split.
Qed.

Lemma FileItem_join_split_witness :
  (OsPath.split (FileItem_join sample_dir_item "main.py")).2 = "main.py" ∧
  OsPath.split (FileItem_join sample_dir_item "main.py") = (path sample_dir_item, "main.py").
Proof.
  destruct (FileItem_join_split sample_dir_item "main.py" eq_refl) as [Hname Hboth].
  split; [exact Hname|]. apply Hboth; by vm_compute.
Defined.

Example os_path_split_examples :
  OsPath.split (OsPath.join "/" "etc") = ("/", "etc") ∧
  OsPath.split (OsPath.join "/usr/" "lib") = ("/usr", "lib") ∧
  OsPath.split (OsPath.join "" "notes.txt") = ("", "notes.txt") ∧
  OsPath.split (OsPath.join "/home" "/etc/passwd") = ("/etc", "passwd").
Proof. by vm_compute. Qed.

(** X10.  The name under which a sound file is loaded is its path cut
    before the last dot of the whole path: for a path [stem.ext] whose
    [ext] holds no dot the result is [stem], also when [ext] holds a slash
    (the dot then stands in a directory name); a path without a dot is
    kept whole. *)
Theorem rsplit1_head_cuts_last_dot (stem ext : string) :
  no_char "." ext = true →
  PyStr.rsplit1_head "." (stem +:+ String "." ext) = stem ∧
  PyStr.rsplit1_head "." ext = ext.
Proof.
  intros Hext. unfold PyStr.rsplit1_head. split.
  - rewrite (cut_last_app _ _ _ Hext).
    set (init := fix init (a : ascii) (h : string) {struct h} : string :=
                   match h with
                   | EmptyString => EmptyString
                   | String b h' => String a (init b h')
                   end).
    assert (Hinit : ∀ s a, init a (s +:+ String "." EmptyString) = String a s).
    { induction s as [|b s IH]; intros a; [done|].
      rewrite append_cons. cbn [init]. fold init. by rewrite IH. }
    destruct stem as [|a s]; [done|].
    rewrite append_cons. apply Hinit.
  - by rewrite (cut_last_no_char _ _ Hext).
Qed.

Lemma rsplit1_head_cuts_last_dot_witness :
  PyStr.rsplit1_head "." ("/home/proj" +:+ String "." "py/data") = "/home/proj" ∧
  PyStr.rsplit1_head "." "py/data" = "py/data".
Proof. apply (rsplit1_head_cuts_last_dot "/home/proj" "py/data"). reflexivity. Defined.

Example rsplit1_head_examples :
  PyStr.rsplit1_head "." "/music/beep.wav" = "/music/beep" ∧
  PyStr.rsplit1_head "." "/music/a.b.wav" = "/music/a.b" ∧
  PyStr.rsplit1_head "." "/home/proj.py/data" = "/home/proj" ∧
  PyStr.rsplit1_head "." "/music/beep" = "/music/beep".
Proof. by vm_compute. Qed.

(** ** FileItem: what [reload] establishes *)

(** The instance that a returning [reload] leaves, whatever exceptions the
    host raised on the way. *)
Lemma FileItem_reload_Ok_inv (w : world) (ft : filetypes) (self self' : FileItem) :
  FileItem_reload w ft self = (Ok tt, self') →
  ∃ c, get_fileinfo w ft (path self) = Ok c ∧ self' = reloaded w self c.
Proof.
  rewrite FileItem_reload_unfold.
  destruct (get_fileinfo w ft (path self)) as [c | e]; [|done]. cbn zeta.
  intros H. exists c. split; [done|]. unfold reloaded. revert H.
  destruct (os_stat w (path self)) as [st | e1].
  - destruct (os_path_isdir w (path self)); [|by intros [= <-]].
    destruct (os_listdir w (path self)) as [names | e2]; [by intros [= <-]|].
    destruct (is_OSError e2); [by intros [= <-] | done].
  - destruct (is_OSError e1); [|done].
    destruct (os_path_isdir w (path self)); [|by intros [= <-]].
    destruct (os_listdir w (path self)) as [names | e2]; [by intros [= <-]|].
    destruct (is_OSError e2); [by intros [= <-] | done].
Qed.

(** X11.  After a [reload] that returns, the item is a directory or a
    file and not both, [isdir] is what [os.path.isdir] says of its path,
    and [contents] is a list exactly when the item is a directory. *)
Theorem FileItem_reload_kind (w : world) (ft : filetypes) (self self' : FileItem) :
  FileItem_reload w ft self = (Ok tt, self') →
  FileItem_isdir self' = os_path_isdir w (path self) ∧
  FileItem_isfile self' = negb (FileItem_isdir self') ∧
  (is_Some (contents self') ↔ FileItem_isdir self' = true).
Proof.
  intros (c & _ & ->)%FileItem_reload_Ok_inv.
  unfold FileItem_isdir, FileItem_isfile, reloaded. cbn.
  destruct (os_path_isdir w (path self)); cbn; split_and!; try done.
Qed.

Lemma FileItem_reload_kind_witness :
  FileItem_isdir sample_dir_item = os_path_isdir sample_world "/home/proj.py" ∧
  FileItem_isfile sample_dir_item = negb (FileItem_isdir sample_dir_item) ∧
  (is_Some (contents sample_dir_item) ↔ FileItem_isdir sample_dir_item = true).
Proof.
  apply (FileItem_reload_kind sample_world sample_filetypes
           (blank_FileItem FileItem_class "/home/proj.py") sample_dir_item).
  by vm_compute.
Defined.

(** X12.  After a [reload] that returns, the path and the class are as
    before, [constants] is [get_fileinfo] of the path, the icon is the one
    of [constants] and is not marked as cached, and [split], [dirname] and
    [basename] agree with [os.path.split] of the path. *)
Theorem FileItem_reload_metadata (w : world) (ft : filetypes) (self self' : FileItem) :
  FileItem_reload w ft self = (Ok tt, self') →
  path self' = path self ∧ cls self' = cls self ∧
  get_fileinfo w ft (path self') = Ok (constants self') ∧
  icon self' = fi_icon (constants self') ∧ icon_cached self' = false ∧
  FileItem_split self' = OsPath.split (path self') ∧
  (FileItem_dirname self', FileItem_basename self') = OsPath.split (path self').
Proof.
  intros (c & Hc & ->)%FileItem_reload_Ok_inv.
  destruct (get_fileinfo_fields w ft _ _ Hc) as (Hdir & Hname & _).
  unfold FileItem_split, FileItem_dirname, FileItem_basename, reloaded. cbn.
  rewrite Hdir, Hname. split_and!; try done; by destruct (OsPath.split (path self)).
Qed.

Lemma FileItem_reload_metadata_witness :
  path sample_dir_item = "/home/proj.py" ∧ cls sample_dir_item = FileItem_class ∧
  get_fileinfo sample_world sample_filetypes (path sample_dir_item)
    = Ok (constants sample_dir_item) ∧
  icon sample_dir_item = fi_icon (constants sample_dir_item) ∧
  icon_cached sample_dir_item = false ∧
  FileItem_split sample_dir_item = OsPath.split (path sample_dir_item) ∧
  (FileItem_dirname sample_dir_item, FileItem_basename sample_dir_item)
    = OsPath.split (path sample_dir_item).
Proof.
  apply (FileItem_reload_metadata sample_world sample_filetypes
           (blank_FileItem FileItem_class "/home/proj.py") sample_dir_item).
  by vm_compute.
Defined.

(** X13.  [listdir] after a [reload] that returns: for a directory it
    gives the names that [os.listdir] gave, and the empty list when
    [os.listdir] raised, never [None]; for anything else it raises the
    [ENOTDIR] error. *)
Theorem FileItem_listdir_after_reload (w : world) (ft : filetypes) (self self' : FileItem) :
  FileItem_reload w ft self = (Ok tt, self') →
  (FileItem_listdir self').1 =
    if os_path_isdir w (path self)
    then Ok (Some (match os_listdir w (path self) with
                   | Ok names => VStr <$> names
                   | Raise _ => []
                   end))
    else Raise (OSError ENOTDIR "Not a directory" (Some (path self))).
Proof.
  intros (c & _ & ->)%FileItem_reload_Ok_inv.
  unfold FileItem_listdir, mbind, SE_bind, get_state, mret, SE_ret, raise,
    FileItem_isdir, reloaded. cbn.
  by destruct (os_path_isdir w (path self)).
Qed.

Lemma FileItem_listdir_after_reload_witness :
  (FileItem_listdir (FileItem_reload sample_world sample_filetypes
                       (blank_FileItem FileItem_class "/private")).2).1 =
    if os_path_isdir sample_world "/private"
    then Ok (Some (match os_listdir sample_world "/private" with
                   | Ok names => VStr <$> names
                   | Raise _ => []
                   end))
    else Raise (OSError ENOTDIR "Not a directory" (Some "/private")).
Proof.
  apply (FileItem_listdir_after_reload sample_world sample_filetypes
           (blank_FileItem FileItem_class "/private")).
  by vm_compute.
Defined.

(** X14.  [reload] is idempotent: in an unchanged world, reloading an
    instance that a returning [reload] left returns again and changes no
    attribute. *)
Theorem FileItem_reload_idempotent (w : world) (ft : filetypes) (self self' : FileItem) :
  FileItem_reload w ft self = (Ok tt, self') →
  FileItem_reload w ft self' = (Ok tt, self').
Proof.
  intros Hreload.
  destruct (FileItem_reload_Ok_inv _ _ _ _ Hreload) as (c & Hc & ->).
  rewrite FileItem_reload_unfold in Hreload. rewrite Hc in Hreload. cbn zeta in Hreload.
  rewrite FileItem_reload_unfold. cbn [path reloaded]. rewrite Hc. cbn zeta.
  unfold reloaded in *.
  destruct (os_stat w (path self)) as [st | e1].
  - destruct (os_path_isdir w (path self)); [|done].
    destruct (os_listdir w (path self)) as [names | e2]; [done|].
    by destruct (is_OSError e2).
  - destruct (is_OSError e1); [|done].
    destruct (os_path_isdir w (path self)); [|done].
    destruct (os_listdir w (path self)) as [names | e2]; [done|].
    by destruct (is_OSError e2).
Qed.

Lemma FileItem_reload_idempotent_witness :
  FileItem_reload sample_world sample_filetypes sample_dir_item = (Ok tt, sample_dir_item).
Proof.
  apply (FileItem_reload_idempotent sample_world sample_filetypes
           (blank_FileItem FileItem_class "/home/proj.py")).
  by vm_compute.
Defined.

(** X15.  Constructing a [FileItem] from a path, when it returns, returns
    a reference that was not in use; the new instance has the class asked
    for and the expanded path, its [constants] are [get_fileinfo] of that
    path and its kind is what [os.path.isdir] says; every instance and
    list that existed is left as it was. *)
Theorem FileItem_new_from_path (w : world) (ft : filetypes) (cls0 : pyclass) (p : string)
    (h h' : heap) (l : loc) :
  FileItem_new w ft cls0 (VStr p) h = (Ok l, h') →
  l = length (h_items h) ∧
  h_lists h' = h_lists h ∧
  ∃ x, h_items h' = h_items h ++ [x] ∧
       cls x = cls0 ∧ path x = full_path w p ∧
       get_fileinfo w ft (full_path w p) = Ok (constants x) ∧
       FileItem_isdir x = os_path_isdir w (full_path w p).
Proof.
  unfold FileItem_new, mbind, SE_bind, get_state, raise.
  destruct (issubclass_FileItem cls0); cbn; [|done].
  destruct (FileItem_reload w ft (blank_FileItem cls0 (full_path w p)))
    as [[[]|e] x] eqn:Hreload; [|done].
  unfold alloc_item. intros [= <- <-]. cbn. split_and!; [done..|].
  exists x. split; [done|].
  destruct (FileItem_reload_Ok_inv _ _ _ _ Hreload) as (c & Hc & ->).
  cbn. split_and!; [done.. |].
  unfold FileItem_isdir. cbn. by destruct (os_path_isdir w (full_path w p)).
Qed.

Lemma FileItem_new_from_path_witness :
  0%nat = length (h_items empty_heap) ∧
  h_lists sample_heap = h_lists empty_heap ∧
  ∃ x, h_items sample_heap = h_items empty_heap ++ [x] ∧
       cls x = FileItem_class ∧ path x = full_path sample_world "/home/proj.py" ∧
       get_fileinfo sample_world sample_filetypes (full_path sample_world "/home/proj.py")
         = Ok (constants x) ∧
       FileItem_isdir x = os_path_isdir sample_world (full_path sample_world "/home/proj.py").
Proof.
  apply (FileItem_new_from_path sample_world sample_filetypes FileItem_class
           "/home/proj.py" empty_heap sample_heap 0%nat).
  by vm_compute.
Defined.

(** ** FavoritesDataSource: edge cases and round trips *)

Section PyList_edges.
Context {A : Type}.
Implicit Types (l : list A) (i : Z).

Lemma PyList_index_out_of_range l i :
  i < - Z.of_nat (length l) ∨ Z.of_nat (length l) ≤ i →
  PyList.index l i = Raise IndexError.
Proof.
  intros Hi. unfold PyList.index.
  destruct (Z.ltb_spec i 0).
  - destruct (Z.ltb_spec (i + Z.of_nat (length l)) 0); [done | lia].
  - destruct (Z.ltb_spec i 0); [lia|].
    by destruct (Z.leb_spec (Z.of_nat (length l)) i); [|lia].
Qed.

Lemma take_delete_same l (k : nat) : take k (delete k l) = take k l.
Proof.
  destruct (decide (k ≤ length l)%nat) as [Hk | Hk].
  - rewrite delete_take_drop. rewrite take_app_le by (rewrite length_take_le; lia).
    by rewrite take_take, Nat.min_id.
  - rewrite delete_take_drop, drop_ge, app_nil_r by lia. by rewrite take_take, Nat.min_id.
Qed.

Lemma drop_delete_same l (k : nat) : drop k (delete k l) = drop (S k) l.
Proof.
  destruct (decide (k ≤ length l)%nat) as [Hk | Hk].
  - rewrite delete_take_drop.
    rewrite drop_app_ge by (rewrite length_take_le; lia).
    rewrite length_take_le by done. by rewrite Nat.sub_diag.
  - rewrite delete_take_drop, !drop_ge; [done | lia |].
    rewrite length_app, length_take, length_drop. lia.
Qed.

(** Putting the entry back where it was taken from restores the list. *)
Lemma insert_delete_same l (k : nat) x :
  l !! k = Some x → take k (delete k l) ++ x :: drop k (delete k l) = l.
Proof.
  intros Hx. rewrite take_delete_same, drop_delete_same.
  by apply take_drop_middle.
Qed.

End PyList_edges.

(** X16.  What an edit leaves on disk is what it leaves in memory: after a
    [tableview_delete] or a [tableview_move_row] that returned, [reload]
    returns and changes nothing. *)
Theorem favorites_reload_after_edit (s s' : fav_state) :
  (∃ row, FavoritesDataSource_tableview_delete row s = (Ok tt, s')) ∨
  (∃ from_row to_row, FavoritesDataSource_tableview_move_row from_row to_row s = (Ok tt, s')) →
  FavoritesDataSource_reload s' = (Ok tt, s').
Proof.
  destruct s as [[sr es] disk calls].
  unfold FavoritesDataSource_tableview_delete, FavoritesDataSource_tableview_move_row,
    FavoritesDataSource_reload, fav_set_entries, fav_call, fav_dump, mbind, SE_bind,
    get_state, lift_result, modify; cbn.
  intros [[row H] | (from_row & to_row & H)].
  - destruct (PyList.delitem es row) as [es' | e]; [|done].
    injection H as <-. cbn. by rewrite lookup_insert_eq.
  - destruct (PyList.pop es from_row) as [[x es'] | e]; [|done].
    injection H as <-. cbn. by rewrite lookup_insert_eq.
Qed.

Lemma favorites_reload_after_edit_witness :
  FavoritesDataSource_reload (FavoritesDataSource_tableview_move_row 0 2 sample_fav_state).2
    = (Ok tt, (FavoritesDataSource_tableview_move_row 0 2 sample_fav_state).2).
Proof.
  apply (favorites_reload_after_edit sample_fav_state).
  right. exists 0, 2. by vm_compute.
Defined.

(** X17.  A row outside the list is refused before anything happens:
    with [row < -len] or [len <= row], [tableview_delete] raises
    [IndexError], and so does [tableview_move_row] for such a [from_row]
    of index size; the entries, the file and the table view are as
    before. *)
Theorem favorites_edit_out_of_range (s : fav_state) (row to_row : Z) :
  row < - Z.of_nat (length (entries (fav_self s))) ∨
    Z.of_nat (length (entries (fav_self s))) ≤ row →
  FavoritesDataSource_tableview_delete row s = (Raise IndexError, s) ∧
  (index_sized row →
   FavoritesDataSource_tableview_move_row row to_row s = (Raise IndexError, s)).
Proof.
  intros Hrow.
  unfold FavoritesDataSource_tableview_delete, FavoritesDataSource_tableview_move_row,
    mbind, SE_bind, get_state, lift_result, PyList.delitem, PyList.pop.
  by rewrite PyList_index_out_of_range.
Qed.

Lemma favorites_edit_out_of_range_witness :
  FavoritesDataSource_tableview_delete 3 sample_fav_state = (Raise IndexError, sample_fav_state) ∧
  FavoritesDataSource_tableview_move_row 3 0 sample_fav_state
    = (Raise IndexError, sample_fav_state).
Proof.
  destruct (favorites_edit_out_of_range sample_fav_state 3 0) as [Hdel Hmove].
  { right. by vm_compute. }
  split; [exact Hdel | apply Hmove]. unfold index_sized. lia.
Defined.

(** X18.  Moving a row and moving it back restores the list: for two rows
    within the list, [tableview_move_row from_row to_row] followed by
    [tableview_move_row to_row from_row] returns, and the entries, in
    memory and in the file, are those before the first move. *)
Theorem favorites_move_there_and_back (s : fav_state) (from_row to_row : Z) :
  0 ≤ from_row < Z.of_nat (length (entries (fav_self s))) →
  0 ≤ to_row < Z.of_nat (length (entries (fav_self s))) →
  ∃ s1 s2,
    FavoritesDataSource_tableview_move_row from_row to_row s = (Ok tt, s1) ∧
    FavoritesDataSource_tableview_move_row to_row from_row s1 = (Ok tt, s2) ∧
    entries (fav_self s2) = entries (fav_self s) ∧
    fav_disk s2 !! src (fav_self s2) = Some (entries (fav_self s)).
Proof.
  intros Hfrom Hto. destruct s as [[sr es] disk calls]; cbn in *.
  destruct (PyList_pop_valid es from_row Hfrom) as (x & Hx & Hpop).
  set (d := delete (Z.to_nat from_row) es) in *.
  assert (Hlen : S (length d) = length es).
  { subst d. rewrite length_delete by eauto. assert (0 < length es)%nat by lia. lia. }
  set (es1 := take (Z.to_nat to_row) d ++ x :: drop (Z.to_nat to_row) d).
  assert (Hlen1 : length es1 = length es).
  { subst es1. rewrite length_app, length_take. cbn. rewrite length_drop. lia. }
  assert (Hpop1 : PyList.pop es1 to_row = Ok (x, d)).
  { destruct (PyList_pop_valid es1 to_row ltac:(lia)) as (y & Hy & ->).
    subst es1. rewrite insert_at_lookup in Hy by lia. injection Hy as <-.
    by rewrite insert_at_delete by lia. }
  eexists _, _. split_and!.
  - unfold FavoritesDataSource_tableview_move_row, mbind, SE_bind, get_state,
      lift_result; cbn.
    rewrite Hpop. cbn. rewrite PyList_insert_valid by lia. reflexivity.
  - unfold FavoritesDataSource_tableview_move_row, mbind, SE_bind, get_state,
      lift_result; cbn.
    fold es1. rewrite Hpop1. cbn. rewrite PyList_insert_valid by lia. reflexivity.
  - cbn. subst d. by apply insert_delete_same.
  - cbn. rewrite lookup_insert_eq. f_equal. subst d. by apply insert_delete_same.
Qed.

Lemma favorites_move_there_and_back_witness :
  ∃ s1 s2,
    FavoritesDataSource_tableview_move_row 0 2 sample_fav_state = (Ok tt, s1) ∧
    FavoritesDataSource_tableview_move_row 2 0 s1 = (Ok tt, s2) ∧
    entries (fav_self s2) = entries (fav_self sample_fav_state) ∧
    fav_disk s2 !! src (fav_self s2) = Some (entries (fav_self sample_fav_state)).
Proof.
  apply (favorites_move_there_and_back sample_fav_state 0 2); by vm_compute.
Defined.

(** X19.  The target of a move is never out of range: for a [from_row]
    within the list and any [to_row] of index size, [tableview_move_row]
    returns and the new list is a permutation of the old one; a [to_row]
    at or past the last index puts the entry at the end. *)
Theorem favorites_move_any_target (s : fav_state) (from_row to_row : Z) :
  0 ≤ from_row < Z.of_nat (length (entries (fav_self s))) →
  index_sized to_row →
  ∃ x s',
    entries (fav_self s) !! Z.to_nat from_row = Some x ∧
    FavoritesDataSource_tableview_move_row from_row to_row s = (Ok tt, s') ∧
    entries (fav_self s') ≡ₚ entries (fav_self s) ∧
    (Z.of_nat (length (entries (fav_self s))) - 1 ≤ to_row →
     entries (fav_self s') = delete (Z.to_nat from_row) (entries (fav_self s)) ++ [x]).
Proof.
  intros Hfrom _. destruct s as [[sr es] disk calls]; cbn in *.
  destruct (PyList_pop_valid es from_row Hfrom) as (x & Hx & Hpop).
  set (d := delete (Z.to_nat from_row) es) in *.
  assert (Hlen : S (length d) = length es).
  { subst d. rewrite length_delete by eauto. assert (0 < length es)%nat by lia. lia. }
  exists x. eexists. split; [done|]. split.
  { unfold FavoritesDataSource_tableview_move_row, mbind, SE_bind, get_state,
      lift_result; cbn.
    rewrite Hpop. reflexivity. }
  cbn. unfold PyList.insert. split.
  - rewrite insert_at_Permutation. symmetry. by apply delete_Permutation.
  - intros Hto. destruct (Z.ltb_spec to_row 0); [lia|].
    rewrite Z.min_r by lia. rewrite Nat2Z.id.
    by rewrite take_ge, drop_ge by lia.
Qed.

Lemma favorites_move_any_target_witness :
  ∃ x s',
    entries (fav_self sample_fav_state) !! Z.to_nat 0 = Some x ∧
    FavoritesDataSource_tableview_move_row 0 99 sample_fav_state = (Ok tt, s') ∧
    entries (fav_self s') ≡ₚ entries (fav_self sample_fav_state) ∧
    (Z.of_nat (length (entries (fav_self sample_fav_state))) - 1 ≤ 99 →
     entries (fav_self s') =
       delete (Z.to_nat 0) (entries (fav_self sample_fav_state)) ++ [x]).
Proof.
  apply (favorites_move_any_target sample_fav_state 0 99).
  - by vm_compute.
  - unfold index_sized. lia.
Defined.

(** ** FileDataSource: the two sections *)

Lemma Forall_filter_true {A} (f : A → bool) (l : list A) :
  Forall (λ x, f x = true) (List.filter f l).
Proof.
  induction l as [|x l IH]; cbn; [constructor|].
  destruct (f x) eqn:Hx; [by constructor | done].
Qed.

Lemma Forall_filter_keeps {A} (P : A → Prop) (f : A → bool) (l : list A) :
  Forall P l → Forall P (List.filter f l).
Proof.
  induction 1 as [|x l Hx Hl IH]; cbn; [constructor|].
  destruct (f x); [by constructor | done].
Qed.

(** X20.  A data source made for a directory item shows two sections:
    every row of the first is a directory item, every row of the second is
    an item that is not a directory, and together they have as many rows as
    the listing has entries. *)
Theorem FileDataSource_sections_by_kind (w : world) (ft : filetypes) (h : heap) (d : loc)
    (dir : FileItem) (cs : list value) :
  host_ok w ft →
  h_items h !! d = Some dir →
  contents dir = Some cs →
  Forall (valid_value h) cs →
  ∃ ds h' fo fl F G,
    FileDataSource_call w ft (VRef d) h = (Ok ds, h') ∧
    lists ds = Some [fo; fl] ∧
    h_lists h' !! fo = Some F ∧
    h_lists h' !! fl = Some G ∧
    Forall (λ r, item_isdir h' r = true) F ∧
    Forall (λ r, is_Some (h_items h' !! r) ∧ item_isdir h' r = false) G ∧
    (length F + length G)%nat = length cs.
Proof.
  intros Hok Hd Hcs Hvalid.
  destruct (FileDataSource_call_spec w ft Hok h d dir cs Hd Hcs Hvalid)
    as (ds & h' & refs & dir' & fo & fl & Hcall & -> & Hlen & _ & _ & HF & HG & _ & _ & _
        & Hrefs & _).
  eexists _, h', fo, fl, _, _. split_and!; [done | done | exact HF | exact HG | | |].
  - apply Forall_filter_true.
  - apply Forall_and. split.
    + by apply Forall_filter_keeps.
    + eapply Forall_impl; [apply (Forall_filter_true (λ r, negb (item_isdir h' r)))|].
      intros r Hr. by apply negb_true_iff.
  - by rewrite filter_length_partition, Hlen.
Qed.

Lemma FileDataSource_sections_by_kind_witness :
  ∃ ds h' fo fl F G,
    FileDataSource_call sample_world sample_filetypes (VRef 0%nat) sample_heap = (Ok ds, h') ∧
    lists ds = Some [fo; fl] ∧
    h_lists h' !! fo = Some F ∧
    h_lists h' !! fl = Some G ∧
    Forall (λ r, item_isdir h' r = true) F ∧
    Forall (λ r, is_Some (h_items h' !! r) ∧ item_isdir h' r = false) G ∧
    (length F + length G)%nat = length (default [] (contents sample_dir_item)).
Proof.
  apply (FileDataSource_sections_by_kind sample_world sample_filetypes sample_heap 0%nat
           sample_dir_item).
  - exact sample_host_ok.
  - by vm_compute.
  - by vm_compute.
  - vm_compute. by repeat constructor.
Defined.

(** X21.  Selecting, outside editing mode, a row of section 0 that holds
    the directory item [it] pushes one new view, between showing and hiding
    the activity indicator.  The view is named [/] for the root and by the
    base name of the item otherwise; its data source is a new one for that
    item, with its own two lists.  The data source that received the
    selection is unchanged, and so are the lists it shows. *)
Theorem tableview_did_select_folder (w : world) (ft : filetypes) (s : fds_state)
    (ls xs : list loc) (l floc : loc) (row : Z) (it : FileItem) (cs : list value) :
  host_ok w ft →
  lists (fds_self s) = Some ls →
  ls !! 0%nat = Some l →
  h_lists (fds_heap s) !! l = Some xs →
  0 ≤ row →
  xs !! Z.to_nat row = Some floc →
  h_items (fds_heap s) !! floc = Some it →
  contents it = Some cs →
  Forall (valid_value (fds_heap s)) cs →
  ∃ s' v fo fl,
    FileDataSource_tableview_did_select w ft false 0 row s = (Ok tt, s') ∧
    fds_self s' = fds_self s ∧
    fds_calls s' =
      fds_calls s ++ [console_show_activity; app_push_view v; console_hide_activity] ∧
    view_name v = (if String.eqb (path it) "/" then "/" else FileItem_basename it) ∧
    view_data_source v = mk_FileDataSource (VRef floc) (Some fo) (Some fl) (Some [fo; fl]) ∧
    is_Some (h_lists (fds_heap s') !! fo) ∧ is_Some (h_lists (fds_heap s') !! fl) ∧
    h_lists (fds_heap s) !! fo = None ∧ h_lists (fds_heap s) !! fl = None ∧
    (∀ l0 xs0, h_lists (fds_heap s) !! l0 = Some xs0 →
               h_lists (fds_heap s') !! l0 = Some xs0).
Proof.
  intros Hok Hls Hl Hxs Hrow Hfloc Hit Hcs Hvalid.
  destruct s as [self h calls]; cbn in *.
  assert (Hget1 : PyList.getitem ls 0 = Ok l).
  { destruct (PyList_getitem_valid ls 0) as (x & Hx & ->).
    - apply lookup_lt_Some in Hl. lia.
    - change (Z.to_nat 0) with 0%nat in Hx. congruence. }
  assert (Hget2 : PyList.getitem xs row = Ok floc).
  { destruct (PyList_getitem_valid xs row) as (x & Hx & ->).
    - apply lookup_lt_Some in Hfloc. lia.
    - congruence. }
  destruct (FileDataSource_call_spec w ft Hok h floc it cs Hit Hcs Hvalid)
    as (ds & h' & refs & it' & fo & fl & Hcall & -> & _ & Hit' & _ & HF & HG & _ & Hlists
        & Hkeep & _ & Hfo & Hfl).
  destruct (Hkeep floc it Hit) as (it2 & Hit2 & [c ->]).
  rewrite Hit' in Hit2. injection Hit2 as ->.
  eexists _, _, fo, fl. split.
  { unfold FileDataSource_tableview_did_select. cbn [negb].
    erewrite SE_bind_Ok by reflexivity. cbn [fds_self]. rewrite Hls.
    erewrite SE_bind_Ok by reflexivity. rewrite Hget1.
    erewrite SE_bind_Ok by reflexivity.
    erewrite SE_bind_Ok by (apply on_heap_run, read_list_run, Hxs).
    rewrite Hget2. erewrite SE_bind_Ok by reflexivity.
    change (0 =? 0) with true. cbn match.
    erewrite SE_bind_Ok by reflexivity.
    erewrite SE_bind_Ok; cycle 1.
    { apply on_heap_run. unfold make_file_list.
      erewrite SE_bind_Ok by exact Hcall.
      erewrite SE_bind_Ok by (apply read_item_run, Hit').
      reflexivity. }
    erewrite SE_bind_Ok by reflexivity. reflexivity. }
  cbn. rewrite <- !app_assoc. cbn.
  split_and!; try done; try (by eexists); apply lookup_ge_None_2; lia.
Qed.

Lemma tableview_did_select_folder_witness :
  ∃ s' v fo fl,
    FileDataSource_tableview_did_select sample_world sample_filetypes false 0 0
      sample_fds_state = (Ok tt, s') ∧
    fds_self s' = fds_self sample_fds_state ∧
    fds_calls s' =
      fds_calls sample_fds_state ++
      [console_show_activity; app_push_view v; console_hide_activity] ∧
    view_name v = (if String.eqb (path (sample_item 2%nat)) "/" then "/"
                   else FileItem_basename (sample_item 2%nat)) ∧
    view_data_source v = mk_FileDataSource (VRef 2%nat) (Some fo) (Some fl) (Some [fo; fl]) ∧
    is_Some (h_lists (fds_heap s') !! fo) ∧ is_Some (h_lists (fds_heap s') !! fl) ∧
    h_lists (fds_heap sample_fds_state) !! fo = None ∧
    h_lists (fds_heap sample_fds_state) !! fl = None ∧
    (∀ l0 xs0, h_lists (fds_heap sample_fds_state) !! l0 = Some xs0 →
               h_lists (fds_heap s') !! l0 = Some xs0).
Proof.
  apply (tableview_did_select_folder sample_world sample_filetypes sample_fds_state
           [0; 1]%nat [2]%nat 0%nat 2%nat 0 (sample_item 2%nat) []).
  - exact sample_host_ok.
  - by vm_compute.
  - by vm_compute.
  - by vm_compute.
  - lia.
  - by vm_compute.
  - by vm_compute.
  - by vm_compute.
  - constructor.
Defined.

(** ** FileDataSource: reloading a listing that is already converted *)

Section reload_converted.
Context (w : world) (ft : filetypes).

(** One iteration on an entry that is a reference to an instance. *)
Lemma FileDataSource_reload_step_ref (i : nat) (r fo fl : loc) (s : fds_state)
    (x : FileItem) (F G : list loc) :
  folders (fds_self s) = Some fo →
  files (fds_self s) = Some fl →
  h_items (fds_heap s) !! r = Some x →
  h_lists (fds_heap s) !! fo = Some F →
  h_lists (fds_heap s) !! fl = Some G →
  FileDataSource_reload_step w ft i (VRef r) s =
    (Ok tt, mk_fds_state (fds_self s)
              (mk_heap (h_items (fds_heap s))
                 (if FileItem_isdir x then <[fo := F ++ [r]]> (h_lists (fds_heap s))
                  else <[fl := G ++ [r]]> (h_lists (fds_heap s))))
              (fds_calls s)).
Proof.
  intros Hfo Hfl Hx HF HG. destruct s as [self [its ls] calls]; cbn in *.
  unfold FileDataSource_reload_step.
  erewrite SE_bind_Ok by reflexivity.
  cbn [isinstance_FileItem negb fds_self fds_heap h_items].
  rewrite bool_decide_eq_true_2 by by eexists. cbn [negb].
  erewrite SE_bind_Ok by reflexivity.
  erewrite SE_bind_Ok by (apply on_heap_run, read_item_run, Hx).
  erewrite SE_bind_Ok by reflexivity. cbn [fds_self].
  destruct (FileItem_isdir x).
  - rewrite Hfo. erewrite SE_bind_Ok by reflexivity.
    apply on_heap_run. by apply list_append_run.
  - rewrite Hfl. erewrite SE_bind_Ok by reflexivity.
    apply on_heap_run. by apply list_append_run.
Qed.

End reload_converted.

(** The loop over references: no instance is made or changed, and the
    file system and the type tables are not consulted. *)
Lemma FileDataSource_reload_loop_refs (fo fl : loc) :
  fo ≠ fl →
  ∀ (refs : list loc) (i : nat) (s : fds_state) (F G : list loc),
    folders (fds_self s) = Some fo →
    files (fds_self s) = Some fl →
    Forall (λ r, is_Some (h_items (fds_heap s) !! r)) refs →
    h_lists (fds_heap s) !! fo = Some F →
    h_lists (fds_heap s) !! fl = Some G →
    ∃ ls',
      (∀ w ft, FileDataSource_reload_loop w ft i (VRef <$> refs) s =
         (Ok tt, mk_fds_state (fds_self s) (mk_heap (h_items (fds_heap s)) ls')
                              (fds_calls s))) ∧
      ls' !! fo = Some (F ++ List.filter (item_isdir (fds_heap s)) refs) ∧
      ls' !! fl = Some (G ++ List.filter (λ r, negb (item_isdir (fds_heap s) r)) refs) ∧
      (∀ l, l ≠ fo → l ≠ fl → ls' !! l = h_lists (fds_heap s) !! l).
Proof.
  intros Hne refs. induction refs as [|r refs IH]; intros i s F G Hfo Hfl Hvalid HF HG.
  - exists (h_lists (fds_heap s)). cbn. rewrite !app_nil_r.
    split_and!; try done. by destruct s as [self [its ls] calls].
  - apply Forall_cons in Hvalid as [[x Hx] Hvalid].
    pose proof (λ w ft, FileDataSource_reload_step_ref w ft i r fo fl s x F G Hfo Hfl Hx HF HG)
      as Hstep.
    set (ls1 := if FileItem_isdir x then <[fo := F ++ [r]]> (h_lists (fds_heap s))
                else <[fl := G ++ [r]]> (h_lists (fds_heap s))) in *.
    set (s1 := mk_fds_state (fds_self s) (mk_heap (h_items (fds_heap s)) ls1) (fds_calls s))
      in *.
    assert (HF1 : h_lists (fds_heap s1) !! fo = Some (if FileItem_isdir x then F ++ [r] else F)).
    { cbn. subst ls1. destruct (FileItem_isdir x).
      - apply list_lookup_insert_eq. by eapply lookup_lt_Some.
      - by rewrite list_lookup_insert_ne. }
    assert (HG1 : h_lists (fds_heap s1) !! fl = Some (if FileItem_isdir x then G else G ++ [r])).
    { cbn. subst ls1. destruct (FileItem_isdir x).
      - by rewrite list_lookup_insert_ne.
      - apply list_lookup_insert_eq. by eapply lookup_lt_Some. }
    destruct (IH (S i) s1 _ _ Hfo Hfl Hvalid HF1 HG1) as (ls' & Hloop & HF' & HG' & Hother).
    exists ls'. cbn [fds_self fds_heap fds_calls h_items s1] in *.
    assert (Hisdir : item_isdir (fds_heap s) r = FileItem_isdir x)
      by by apply item_isdir_lookup.
    split_and!.
    + intros w ft. cbn [fmap list_fmap FileDataSource_reload_loop]. unfold mbind, SE_bind.
      rewrite Hstep. apply Hloop.
    + rewrite HF'. f_equal. rewrite <- Hisdir.
      rewrite <- (filter_cons_if (item_isdir (fds_heap s))). f_equal.
    + rewrite HG'. f_equal. rewrite <- Hisdir.
      rewrite <- (filter_cons_if_neg (item_isdir (fds_heap s))). f_equal.
    + intros l Hlo Hlf. rewrite (Hother l Hlo Hlf). subst ls1.
      destruct (FileItem_isdir x); cbn [h_lists]; by rewrite list_lookup_insert_ne.
Qed.

(** X22.  Reloading a data source whose directory listing is already
    converted (every entry of [fi.contents] is an instance): it returns,
    and with the same result whatever the file system and the type tables
    are, so neither is consulted; no instance is made or changed and
    nothing is sent to the host; the two fresh lists [folders] and [files]
    hold the same instances as the listing, split by [isdir], in its
    order; the lists that existed are as they were. *)
Theorem FileDataSource_reload_converted (s : fds_state) (d : loc) (dir : FileItem)
    (refs : list loc) :
  fi (fds_self s) = VRef d →
  h_items (fds_heap s) !! d = Some dir →
  contents dir = Some (VRef <$> refs) →
  Forall (λ r, is_Some (h_items (fds_heap s) !! r)) refs →
  let fo := length (h_lists (fds_heap s)) in
  let fl := S fo in
  ∃ s',
    (∀ w ft, FileDataSource_reload w ft s = (Ok tt, s')) ∧
    fds_self s' = mk_FileDataSource (VRef d) (Some fo) (Some fl) (lists (fds_self s)) ∧
    h_items (fds_heap s') = h_items (fds_heap s) ∧
    fds_calls s' = fds_calls s ∧
    h_lists (fds_heap s') !! fo = Some (List.filter (item_isdir (fds_heap s)) refs) ∧
    h_lists (fds_heap s') !! fl =
      Some (List.filter (λ r, negb (item_isdir (fds_heap s) r)) refs) ∧
    (∀ l, (l < fo)%nat → h_lists (fds_heap s') !! l = h_lists (fds_heap s) !! l).
Proof.
  intros Hfi Hd Hcs Hvalid fo fl.
  destruct s as [self [its ls] calls]; cbn in *.
  set (s2 := mk_fds_state (set_files fl (set_folders fo self))
                          (mk_heap its ((ls ++ [[]]) ++ [[]])) calls).
  destruct (FileDataSource_reload_loop_refs fo fl ltac:(lia) refs 0 s2 [] [])
    as (ls' & Hloop & HF & HG & Hother); try done.
  { cbn. rewrite lookup_app_l by (rewrite length_app; cbn; lia).
    rewrite lookup_app_r by done. by rewrite Nat.sub_diag. }
  { cbn. rewrite lookup_app_r by (rewrite length_app; cbn; lia).
    rewrite length_app. cbn [length].
    by replace (fl - (length ls + 1))%nat with 0%nat by (subst fl fo; lia). }
  exists (mk_fds_state (set_files fl (set_folders fo self)) (mk_heap its ls') calls).
  cbn [fds_self fds_heap fds_calls h_items h_lists s2] in *.
  split_and!; try done.
  - intros w ft. unfold FileDataSource_reload.
    erewrite SE_bind_Ok by reflexivity.
    cbn [isinstance_FileItem negb fds_self fds_heap h_items]. rewrite Hfi.
    cbn [isinstance_FileItem]. rewrite bool_decide_eq_true_2 by by eexists. cbn [negb].
    erewrite SE_bind_Ok by (apply on_heap_run; reflexivity).
    erewrite SE_bind_Ok by reflexivity.
    erewrite SE_bind_Ok by (apply on_heap_run; reflexivity).
    erewrite SE_bind_Ok by reflexivity.
    erewrite SE_bind_Ok by (apply on_heap_run, read_item_run; exact Hd).
    rewrite Hcs. simpl. rewrite length_app. cbn [length].
    replace (length ls + 1)%nat with fl by (subst fl fo; lia). apply Hloop.
  - unfold set_files, set_folders. cbn. by rewrite Hfi.
  - intros l Hl. rewrite Hother by lia.
    rewrite lookup_app_l by (rewrite length_app; cbn; lia).
    by rewrite lookup_app_l by done.
Qed.

Lemma FileDataSource_reload_converted_witness :
  ∃ s',
    (∀ w ft, FileDataSource_reload w ft sample_fds_state = (Ok tt, s')) ∧
    fds_self s' = mk_FileDataSource (VRef 0%nat) (Some 2%nat) (Some 3%nat)
                    (lists (fds_self sample_fds_state)) ∧
    h_items (fds_heap s') = h_items (fds_heap sample_fds_state) ∧
    fds_calls s' = fds_calls sample_fds_state ∧
    h_lists (fds_heap s') !! 2%nat =
      Some (List.filter (item_isdir (fds_heap sample_fds_state)) (seq 1 6)) ∧
    h_lists (fds_heap s') !! 3%nat =
      Some (List.filter (λ r, negb (item_isdir (fds_heap sample_fds_state) r)) (seq 1 6)) ∧
    (∀ l, (l < 2)%nat →
          h_lists (fds_heap s') !! l = h_lists (fds_heap sample_fds_state) !! l).
Proof.
  apply (FileDataSource_reload_converted sample_fds_state 0%nat (sample_item 0%nat) (seq 1 6)).
  - by vm_compute.
  - by vm_compute.
  - by vm_compute.
  - vm_compute. repeat constructor; by eexists.
Defined.

(** ** FileDataSource: an item that is not a directory *)

(** What a returning [reload] leaves as [contents] of an item that is not
    a directory. *)
Lemma FileItem_reload_contents_None (w : world) (ft : filetypes) (x it : FileItem) :
  FileItem_reload w ft x = (Ok tt, it) →
  FileItem_isdir it = false →
  contents it = None.
Proof.
  intros (c & _ & ->)%FileItem_reload_Ok_inv.
  unfold FileItem_isdir, reloaded. cbn.
  by destruct (os_path_isdir w (path x)).
Qed.

(** Constructing a data source for an item whose [contents] are [None]. *)
Lemma FileDataSource_call_contents_None (w : world) (ft : filetypes) (h : heap) (d : loc)
    (it : FileItem) :
  h_items h !! d = Some it →
  contents it = None →
  FileDataSource_call w ft (VRef d) h =
    (Raise TypeError, mk_heap (h_items h) ((h_lists h ++ [[]]) ++ [[]])).
Proof.
  intros Hd Hcs. destruct h as [its ls]. cbn in Hd.
  assert (Hrun : FileDataSource_reload w ft
                   (mk_fds_state (mk_FileDataSource (VRef d) None None None)
                                 (mk_heap its ls) []) =
                 (Raise TypeError,
                  mk_fds_state (mk_FileDataSource (VRef d) (Some (length ls))
                                  (Some (length (ls ++ [[]]))) None)
                               (mk_heap its ((ls ++ [[]]) ++ [[]])) [])).
  { unfold FileDataSource_reload.
    erewrite SE_bind_Ok by reflexivity.
    cbn [isinstance_FileItem negb fds_self fds_heap h_items fi].
    rewrite bool_decide_eq_true_2 by by eexists. cbn [negb].
    erewrite SE_bind_Ok by (apply on_heap_run; reflexivity).
    erewrite SE_bind_Ok by reflexivity.
    erewrite SE_bind_Ok by (apply on_heap_run; reflexivity).
    erewrite SE_bind_Ok by reflexivity.
    erewrite SE_bind_Ok by (apply on_heap_run, read_item_run; exact Hd).
    by rewrite Hcs. }
  unfold FileDataSource_call, FileDataSource_init.
  unfold mbind at 1. unfold SE_bind at 1. by rewrite Hrun.
Qed.

Lemma make_file_list_contents_None (w : world) (ft : filetypes) (h : heap) (d : loc)
    (it : FileItem) :
  h_items h !! d = Some it →
  contents it = None →
  make_file_list w ft d h =
    (Raise TypeError, mk_heap (h_items h) ((h_lists h ++ [[]]) ++ [[]])).
Proof.
  intros Hd Hcs. unfold make_file_list. unfold mbind at 1. unfold SE_bind at 1.
  by rewrite (FileDataSource_call_contents_None w ft h d it Hd Hcs).
Qed.

(** X23.  [make_file_list] for an item that is not a directory, as a
    returning [reload] left it: the construction of the data source
    raises [TypeError] (the [contents] of such an item are [None], which
    the loop of [FileDataSource.reload] cannot iterate), whatever the file
    system is; no instance is made or changed and the lists that existed
    are as they were. *)
Theorem make_file_list_not_a_directory (w0 w : world) (ft0 ft : filetypes) (h : heap)
    (d : loc) (x it : FileItem) :
  FileItem_reload w0 ft0 x = (Ok tt, it) →
  FileItem_isdir it = false →
  h_items h !! d = Some it →
  ∃ h',
    make_file_list w ft d h = (Raise TypeError, h') ∧
    (FileDataSource_call w ft (VRef d) h).1 = Raise TypeError ∧
    h_items h' = h_items h ∧
    (∀ l xs, h_lists h !! l = Some xs → h_lists h' !! l = Some xs).
Proof.
  intros Hreload Hisdir Hd.
  pose proof (FileItem_reload_contents_None _ _ _ _ Hreload Hisdir) as Hcs.
  eexists. split_and!.
  - by eapply make_file_list_contents_None.
  - by erewrite FileDataSource_call_contents_None.
  - done.
  - intros l xs Hl. cbn. rewrite <- app_assoc. by apply lookup_app_l_Some.
Qed.

Lemma make_file_list_not_a_directory_witness :
  ∃ h',
    make_file_list sample_world_later sample_filetypes 1%nat (fds_heap sample_fds_state)
      = (Raise TypeError, h') ∧
    (FileDataSource_call sample_world_later sample_filetypes (VRef 1%nat)
       (fds_heap sample_fds_state)).1 = Raise TypeError ∧
    h_items h' = h_items (fds_heap sample_fds_state) ∧
    (∀ l xs, h_lists (fds_heap sample_fds_state) !! l = Some xs → h_lists h' !! l = Some xs).
Proof.
  apply (make_file_list_not_a_directory sample_world sample_world_later
           sample_filetypes sample_filetypes (fds_heap sample_fds_state) 1%nat
           (blank_FileItem FileItem_class "/home/proj.py/main.py") (sample_item 1%nat)).
  - by vm_compute.
  - by vm_compute.
  - by vm_compute.
Defined.

(** ** FavoritesDataSource: selecting a favorite *)

Lemma fsel_on_heap_run {A} (m : SE heap A) self h calls r h' :
  m h = (r, h') →
  fsel_on_heap m (mk_fav_select_state self h calls) = (r, mk_fav_select_state self h' calls).
Proof. unfold fsel_on_heap. cbn. by intros ->. Qed.

(** Constructing an instance from a path on a host that raises nothing
    but [OSError]: the new instance is the blank one, reloaded. *)
Lemma FileItem_new_path_reloaded (w : world) (ft : filetypes) (cls0 : pyclass) (p : string)
    (h : heap) :
  host_ok w ft →
  issubclass_FileItem cls0 = true →
  ∃ c, get_fileinfo w ft (full_path w p) = Ok c ∧
       FileItem_new w ft cls0 (VStr p) h =
         (Ok (length (h_items h)),
          mk_heap (h_items h ++ [reloaded w (blank_FileItem cls0 (full_path w p)) c])
                  (h_lists h)).
Proof.
  intros (Hwf & Hstat & Hlist) Hcls.
  destruct (get_fileinfo_total w ft (full_path w p) Hwf) as [c Hc].
  exists c. split; [done|].
  unfold FileItem_new. rewrite Hcls. cbn [negb].
  unfold mbind, SE_bind, get_state. cbn [isinstance_FileItem].
  rewrite (FileItem_reload_returns w ft _ c) by (cbn; eauto). done.
Qed.

(** The first steps of a selection outside editing mode, up to the new
    instance for the path of the favorite. *)
Lemma favorites_did_select_run (w : world) (ft : filetypes) (s : fav_select_state)
    (row : Z) (p label : string) :
  host_ok w ft →
  0 ≤ row →
  entries (fsel_self s) !! Z.to_nat row = Some (p, label) →
  ∃ c, get_fileinfo w ft (full_path w p) = Ok c ∧
    let x := reloaded w (blank_FileItem FileItem_class (full_path w p)) c in
    let h1 := mk_heap (h_items (fsel_heap s) ++ [x]) (h_lists (fsel_heap s)) in
    FavoritesDataSource_tableview_did_select w ft false row s =
      (v ← fsel_on_heap (make_file_list w ft (length (h_items (fsel_heap s))));
       fsel_call (app_push_view v);;
       fsel_call console_hide_activity)
      (mk_fav_select_state (fsel_self s) h1 (fsel_calls s ++ [console_show_activity])).
Proof.
  intros Hok Hrow Hentry. destruct s as [self h calls]; cbn in *.
  destruct (FileItem_new_path_reloaded w ft FileItem_class p h Hok eq_refl) as (c & Hc & Hnew).
  exists c. split; [done|].
  assert (Hget : PyList.getitem (entries self) row = Ok (p, label)).
  { destruct (PyList_getitem_valid (entries self) row) as (x & Hx & ->).
    - apply lookup_lt_Some in Hentry. unfold entry in *. lia.
    - by pose proof (eq_trans (eq_sym Hx) Hentry) as [= ->]. }
  unfold FavoritesDataSource_tableview_did_select. cbn [negb].
  erewrite SE_bind_Ok by reflexivity.
  erewrite SE_bind_Ok by reflexivity. cbn [fsel_self]. rewrite Hget.
  erewrite SE_bind_Ok by reflexivity. cbn [fst].
  erewrite SE_bind_Ok by (apply fsel_on_heap_run, Hnew).
  reflexivity.
Qed.

(** X24.  Selecting, outside editing mode, a favorite whose path is a
    directory: a new instance is made for the path, and one new view is
    pushed between showing and hiding the activity indicator.  The view is
    named [/] for the root and by the last component of the path
    otherwise; its data source shows that instance, in two new lists that
    together hold as many rows as the directory listing has names.  The
    favorites are unchanged, and so are the lists that existed. *)
Theorem favorites_did_select_directory (w : world) (ft : filetypes) (s : fav_select_state)
    (row : Z) (p label : string) :
  host_ok w ft →
  0 ≤ row →
  entries (fsel_self s) !! Z.to_nat row = Some (p, label) →
  os_path_isdir w (full_path w p) = true →
  let d := length (h_items (fsel_heap s)) in
  ∃ s' v it fo fl F G,
    FavoritesDataSource_tableview_did_select w ft false row s = (Ok tt, s') ∧
    fsel_self s' = fsel_self s ∧
    fsel_calls s' =
      fsel_calls s ++ [console_show_activity; app_push_view v; console_hide_activity] ∧
    view_name v = (if String.eqb (full_path w p) "/" then "/"
                   else (OsPath.split (full_path w p)).2) ∧
    view_data_source v = mk_FileDataSource (VRef d) (Some fo) (Some fl) (Some [fo; fl]) ∧
    h_items (fsel_heap s') !! d = Some it ∧
    path it = full_path w p ∧
    h_lists (fsel_heap s') !! fo = Some F ∧
    h_lists (fsel_heap s') !! fl = Some G ∧
    (length F + length G)%nat = length (listing w (full_path w p)) ∧
    h_lists (fsel_heap s) !! fo = None ∧ h_lists (fsel_heap s) !! fl = None ∧
    (∀ l xs, h_lists (fsel_heap s) !! l = Some xs → h_lists (fsel_heap s') !! l = Some xs).
Proof.
  intros Hok Hrow Hentry Hisdir d.
  destruct (favorites_did_select_run w ft s row p label Hok Hrow Hentry) as (c & Hc & Hrun).
  cbn zeta in Hrun. destruct s as [self [its ls] calls]; cbn in *.
  set (x := reloaded w (blank_FileItem FileItem_class (full_path w p)) c) in *.
  set (cs := VStr <$> listing w (full_path w p)).
  assert (Hcs : contents x = Some cs).
  { unfold x, reloaded, cs, listing. cbn. rewrite Hisdir.
    by destruct (os_listdir w (full_path w p)). }
  assert (Hd : h_items (mk_heap (its ++ [x]) ls) !! d = Some x).
  { cbn. rewrite lookup_app_r by done. by rewrite Nat.sub_diag. }
  assert (Hvalid : Forall (valid_value (mk_heap (its ++ [x]) ls)) cs).
  { unfold cs. apply Forall_fmap, Forall_true. by intros n. }
  destruct (FileDataSource_call_spec w ft Hok _ d x cs Hd Hcs Hvalid)
    as (ds & h' & refs & it' & fo & fl & Hcall & -> & Hlen & Hit' & _ & HF & HG & _ & Hlists
        & Hkeep & _ & Hfo & Hfl).
  destruct (Hkeep d x Hd) as (it2 & Hit2 & [c2 ->]).
  rewrite Hit' in Hit2. injection Hit2 as ->.
  destruct (get_fileinfo_fields w ft _ _ Hc) as (_ & Hname & _).
  eexists _, _, _, fo, fl, _, _. split.
  { rewrite Hrun.
    erewrite SE_bind_Ok; cycle 1.
    { apply fsel_on_heap_run. unfold make_file_list.
      erewrite SE_bind_Ok by exact Hcall.
      erewrite SE_bind_Ok by (apply read_item_run, Hit').
      reflexivity. }
    erewrite SE_bind_Ok by reflexivity. reflexivity. }
  cbn in *. rewrite <- !app_assoc. cbn.
  split_and!; try done.
  - unfold FileItem_basename. cbn. by rewrite Hname.
  - rewrite filter_length_partition, Hlen. unfold cs. by rewrite length_fmap.
  - apply lookup_ge_None_2. lia.
  - apply lookup_ge_None_2. lia.
Qed.

Lemma favorites_did_select_directory_witness :
  ∃ s' v it fo fl F G,
    FavoritesDataSource_tableview_did_select sample_world sample_filetypes false 0
      sample_fav_select_state = (Ok tt, s') ∧
    fsel_self s' = fsel_self sample_fav_select_state ∧
    fsel_calls s' =
      fsel_calls sample_fav_select_state ++
      [console_show_activity; app_push_view v; console_hide_activity] ∧
    view_name v = (if String.eqb (full_path sample_world "/home/proj.py") "/" then "/"
                   else (OsPath.split (full_path sample_world "/home/proj.py")).2) ∧
    view_data_source v = mk_FileDataSource (VRef 0%nat) (Some fo) (Some fl) (Some [fo; fl]) ∧
    h_items (fsel_heap s') !! 0%nat = Some it ∧
    path it = full_path sample_world "/home/proj.py" ∧
    h_lists (fsel_heap s') !! fo = Some F ∧
    h_lists (fsel_heap s') !! fl = Some G ∧
    (length F + length G)%nat =
      length (listing sample_world (full_path sample_world "/home/proj.py")) ∧
    h_lists (fsel_heap sample_fav_select_state) !! fo = None ∧
    h_lists (fsel_heap sample_fav_select_state) !! fl = None ∧
    (∀ l xs, h_lists (fsel_heap sample_fav_select_state) !! l = Some xs →
             h_lists (fsel_heap s') !! l = Some xs).
Proof.
  apply (favorites_did_select_directory sample_world sample_filetypes
           sample_fav_select_state 0 "/home/proj.py" "Project").
  - exact sample_host_ok.
  - lia.
  - by vm_compute.
  - by vm_compute.
Defined.

(** X25.  Selecting, outside editing mode, a favorite whose path is not a
    directory raises [TypeError]: the instance made for the path has no
    listing to show.  The activity indicator has been shown by then and is
    not hidden, and no view is pushed; the favorites are unchanged. *)
Theorem favorites_did_select_not_a_directory (w : world) (ft : filetypes)
    (s : fav_select_state) (row : Z) (p label : string) :
  host_ok w ft →
  0 ≤ row →
  entries (fsel_self s) !! Z.to_nat row = Some (p, label) →
  os_path_isdir w (full_path w p) = false →
  ∃ s',
    FavoritesDataSource_tableview_did_select w ft false row s = (Raise TypeError, s') ∧
    fsel_self s' = fsel_self s ∧
    fsel_calls s' = fsel_calls s ++ [console_show_activity].
Proof.
  intros Hok Hrow Hentry Hisdir.
  destruct (favorites_did_select_run w ft s row p label Hok Hrow Hentry) as (c & Hc & Hrun).
  cbn zeta in Hrun. destruct s as [self [its ls] calls]; cbn in *.
  set (x := reloaded w (blank_FileItem FileItem_class (full_path w p)) c) in *.
  assert (Hcs : contents x = None).
  { unfold x, reloaded. cbn. by rewrite Hisdir. }
  assert (Hd : h_items (mk_heap (its ++ [x]) ls) !! length its = Some x).
  { cbn. rewrite lookup_app_r by done. by rewrite Nat.sub_diag. }
  eexists. split.
  { rewrite Hrun. unfold mbind at 1. unfold SE_bind at 1.
    erewrite fsel_on_heap_run by (eapply make_file_list_contents_None; [exact Hd | exact Hcs]).
    reflexivity. }
  done.
Qed.

Lemma favorites_did_select_not_a_directory_witness :
  ∃ s',
    FavoritesDataSource_tableview_did_select sample_world sample_filetypes false 1
      sample_fav_select_state = (Raise TypeError, s') ∧
    fsel_self s' = fsel_self sample_fav_select_state ∧
    fsel_calls s' = fsel_calls sample_fav_select_state ++ [console_show_activity].
Proof.
  apply (favorites_did_select_not_a_directory sample_world sample_filetypes
           sample_fav_select_state 1 "/home/proj.py/main.py" "Main").
  - exact sample_host_ok.
  - lia.
  - by vm_compute.
  - by vm_compute.
Defined.
